(** * Nexus Guard browser extension: coordination and heuristic layer

    A shallow embedding of the three scripts of the extension
    ([background.js], [content.js], [popup.js]) and the properties of
    the scan pipelines and of the heuristic detectors.

    Conventions of the embedding.
    - A JavaScript string is a [string] whose characters are UTF-16 code
      units below 256 (the Latin-1 range); the vocabularies and the
      patterns of the program are plain ASCII.
    - A JavaScript object literal is a [JObj] property list in insertion
      order; a missing property reads as [JUndefined].
    - Host services (capture, downloads, [fetch], script injection,
      storage) are answers of a [Host] record; what the program does to
      the outside is appended to the [log] of the [World].
    - An [async] function is a computation in the monad [M]: it either
      resolves ([Ok]) or rejects ([Throw]); effects made before a
      rejection stay in the world.  Diagnostics written to the console are
      not part of the model. *)

From Stdlib Require Import String Ascii List Bool Arith NArith ZArith Lia.
From Stdlib Require Import QArith Qround DecimalString.
Import ListNotations.
Set Warnings "-register-all".
Close Scope Q_scope.
Open Scope string_scope.
Open Scope nat_scope.
Open Scope list_scope.

(** String concatenation, the [+] of JavaScript on strings. *)
Infix "+++" := String.append (at level 60, right associativity).

(* ================================================================== *)
(** * JavaScript base layer *)
(* ================================================================== *)

Module Js.

(** ** Strings *)

(** The double quote character, used inside message templates. *)
Definition dquote : string := String (ascii_of_nat 34) EmptyString.

(** [Character.toLowerCase] on one code unit of the Latin-1 range:
    [A-Z] and the accented capitals [U+00C0..U+00DE] (the multiplication
    sign [U+00D7] apart) move up by 32. *)
Definition lowerChar (c : ascii) : ascii :=
  let n := nat_of_ascii c in
  if ((65 <=? n) && (n <=? 90))
     || ((192 <=? n) && (n <=? 222) && negb (n =? 215))
  then ascii_of_nat (n + 32) else c.

(** [String.prototype.toLowerCase]. *)
Fixpoint toLowerCase (s : string) : string :=
  match s with
  | EmptyString => EmptyString
  | String c s' => String (lowerChar c) (toLowerCase s')
  end.

(** [s.startsWith(p)]. *)
Definition startsWith (s p : string) : bool := String.prefix p s.

(** [String.prototype.includes]: [sub] occurs somewhere in [s]. *)
Fixpoint includes (s sub : string) : bool :=
  String.prefix sub s
  || match s with
     | EmptyString => false
     | String _ s' => includes s' sub
     end.

(** [s.substring(0, n)]. *)
Definition substring0 (n : nat) (s : string) : string := String.substring 0 n s.

(** White space of [String.prototype.trim] in the Latin-1 range. *)
Definition isWhiteSpace (c : ascii) : bool :=
  let n := nat_of_ascii c in
  ((9 <=? n) && (n <=? 13)) || (n =? 32) || (n =? 160).

Fixpoint trimStart (s : string) : string :=
  match s with
  | EmptyString => EmptyString
  | String c s' => if isWhiteSpace c then trimStart s' else s
  end.

(** Drops trailing white space: a character is kept when something
    that is not white space follows it or when it is not white space. *)
Fixpoint trimEnd (s : string) : string :=
  match s with
  | EmptyString => EmptyString
  | String c s' =>
      match trimEnd s' with
      | EmptyString => if isWhiteSpace c then EmptyString else String c EmptyString
      | r => String c r
      end
  end.

(** [String.prototype.trim]. *)
Definition trim (s : string) : string := trimEnd (trimStart s).

(** [Array.prototype.join]. *)
Definition join (sep : string) (l : list string) : string := String.concat sep l.

(** Decimal rendering of a non-negative integer inside a template. *)
Definition showNat (n : nat) : string := NilZero.string_of_uint (Nat.to_uint n).

Definition showN (n : N) : string := NilZero.string_of_uint (N.to_uint n).

(** [s.split(sep).pop()] for a one-character separator: the part of
    [s] after the last separator, the whole string when there is none.
    [acc] is the segment read so far. *)
Fixpoint lastSegment (sep : ascii) (acc s : string) : string :=
  match s with
  | EmptyString => acc
  | String c s' =>
      if Ascii.eqb c sep then lastSegment sep EmptyString s'
      else lastSegment sep (acc +++ String c EmptyString) s'
  end.

Definition splitPop (sep : ascii) (s : string) : string :=
  lastSegment sep EmptyString s.

(** ** Regular expressions

    The fragment the program uses: literals, alternation, sequencing and
    the greedy [.*].  All patterns of the program carry the [i] flag and
    are ASCII, so a pattern character matches a text character when both
    have the same [canonicalize] image. *)

Inductive Regex : Type :=
| Lit (s : string)
| AnyStar
| Seq (r1 r2 : Regex)
| Alt (r1 r2 : Regex).

(** Case folding of the [i] flag without the [u] flag: ASCII letters
    are folded to upper case; a code unit at or above 128 never folds to
    an ASCII one, so it is left alone. *)
Definition canonicalize (c : ascii) : ascii :=
  let n := nat_of_ascii c in
  if (97 <=? n) && (n <=? 122) then ascii_of_nat (n - 32) else c.

(** Matches the literal [l] at the head of [s]; the rest of [s]. *)
Fixpoint stripLit (l s : string) : option string :=
  match l with
  | EmptyString => Some s
  | String a l' =>
      match s with
      | EmptyString => None
      | String b s' =>
          if Ascii.eqb (canonicalize a) (canonicalize b) then stripLit l' s' else None
      end
  end.

(** [.] matches anything but a line terminator. *)
Definition isLineTerminator (c : ascii) : bool :=
  let n := nat_of_ascii c in (n =? 10) || (n =? 13).

(** Greedy [.*] followed by the continuation [k]: the longest run
    first, then shorter ones. *)
Fixpoint anyStar (s : string) (k : string -> option string) : option string :=
  match s with
  | EmptyString => k s
  | String c s' =>
      if isLineTerminator c then k s
      else match anyStar s' k with
           | Some r => Some r
           | None => k s
           end
  end.

(** Backtracking matcher anchored at the head of [s]; [k] is what has
    to match afterwards, the answer is the text left after the match. *)
Fixpoint matchAt (r : Regex) (s : string) (k : string -> option string)
  : option string :=
  match r with
  | Lit l => match stripLit l s with Some rest => k rest | None => None end
  | AnyStar => anyStar s k
  | Seq r1 r2 => matchAt r1 s (fun s' => matchAt r2 s' k)
  | Alt r1 r2 =>
      match matchAt r1 s k with
      | Some rest => Some rest
      | None => matchAt r2 s k
      end
  end.

(** [pattern.test(s)]: a match starts at some position of [s]. *)
Fixpoint test (r : Regex) (s : string) : bool :=
  match matchAt r s Some with
  | Some _ => true
  | None => match s with
            | EmptyString => false
            | String _ s' => test r s'
            end
  end.

(** The matches of a [g] pattern from left to right.  [skip] counts the
    characters of the previous match still to be passed over; an empty
    match moves on by one character. *)
Fixpoint scan (r : Regex) (skip : nat) (s : string) : list string :=
  match s with
  | EmptyString =>
      match skip, matchAt r s Some with
      | O, Some _ => [EmptyString]
      | _, _ => []
      end
  | String _ s' =>
      match skip with
      | S n => scan r n s'
      | O =>
          match matchAt r s Some with
          | Some rest =>
              let len := String.length s - String.length rest in
              substring0 len s :: scan r (len - 1) s'
          | None => scan r 0 s'
          end
      end
  end.

(** [text.match(pattern)] for a pattern with the [g] flag: [null] when
    nothing matches, the array of matched substrings otherwise. *)
Definition matchG (text : string) (r : Regex) : option (list string) :=
  match scan r 0 text with
  | [] => None
  | ms => Some ms
  end.

(** [Array.prototype.forEach] with a body that updates an accumulator
    the callback closes over. *)
Definition forEach {A B : Type} (l : list A) (body : B -> A -> B) (init : B) : B :=
  fold_left body l init.

(** [Array.prototype.push] of one element. *)
Definition push {A : Type} (l : list A) (x : A) : list A := l ++ [x].

End Js.

(* ================================================================== *)
(** * Values, exceptions and the host *)
(* ================================================================== *)

(** A JavaScript value as the program handles it: what [JSON.parse]
    yields, object and array literals, and [undefined]. *)
Inductive JsValue : Type :=
| JUndefined
| JNull
| JBool (b : bool)
| JNum (q : Q)
| JStr (s : string)
| JArr (items : list JsValue)
| JObj (props : list (string * JsValue)).

(** An [Error] object; handlers only read its [message]. *)
Record JsError : Type := Error { message : string }.

(** Outcome of an evaluation: a value, or a thrown error (a rejected
    promise for an [async] function). *)
Inductive Res (A : Type) : Type :=
| Ok (a : A)
| Throw (e : JsError).
Arguments Ok {A} a.
Arguments Throw {A} e.

Module Value.

Fixpoint lookup (k : string) (props : list (string * JsValue)) : JsValue :=
  match props with
  | [] => JUndefined
  | (k', v) :: rest => if String.eqb k k' then v else lookup k rest
  end.

(** [v.k] where [v] is known not to be [null] or [undefined]: a missing
    property, or a property of a primitive, reads as [undefined]. *)
Definition prop (v : JsValue) (k : string) : JsValue :=
  match v with
  | JObj props => lookup k props
  | _ => JUndefined
  end.

(** [v.k] in general: reading a property of [null] or [undefined]
    throws a [TypeError]. *)
Definition getProp (v : JsValue) (k : string) : Res JsValue :=
  match v with
  | JUndefined =>
      Throw (Error ("Cannot read properties of undefined (reading '" +++ k +++ "')"))
  | JNull =>
      Throw (Error ("Cannot read properties of null (reading '" +++ k +++ "')"))
  | _ => Ok (prop v k)
  end.

(** [v === n] for a number literal [n]. *)
Definition strictEqNum (v : JsValue) (n : Q) : bool :=
  match v with
  | JNum q => Qeq_bool q n
  | _ => false
  end.

(** [v === s] for a string literal [s]. *)
Definition strictEqStr (v : JsValue) (s : string) : bool :=
  match v with
  | JStr s' => String.eqb s' s
  | _ => false
  end.

(** Truthiness, as tested by [if], [&&] and [||]. *)
Definition truthy (v : JsValue) : bool :=
  match v with
  | JUndefined | JNull => false
  | JBool b => b
  | JNum q => negb (Qeq_bool q 0)
  | JStr s => negb (String.eqb s EmptyString)
  | JArr _ | JObj _ => true
  end.

Definition ofStrings (l : list string) : JsValue := JArr (map JStr l).

End Value.

(** ** The host: browser and network *)

(** The [settings] object shared through [chrome.storage.sync]. *)
Record Settings : Type := {
  apiEndpoint : string;
  notifications : bool
}.

(** A [File] or [Blob]. *)
Record File : Type := {
  fileName : string;
  mimeType : string;
  bytes : string
}.

Inductive Body : Type :=
| NoBody
| JsonBody (v : JsValue)                    (* JSON.stringify(v) *)
| FormBody (parts : list (string * File)).  (* a FormData: multipart *)

Record Request : Type := {
  url : string;
  method : string;
  headers : list (string * string);
  body : Body
}.

(** A [fetch] response: [json] and [blob] are the outcomes of the two
    body readers. *)
Record Response : Type := {
  status : nat;
  statusText : string;
  json : Res JsValue;
  blob : Res File
}.

(** [response.ok]: the status is in the range 200-299. *)
Definition ok (r : Response) : bool := (200 <=? status r) && (status r <=? 299).

(** A browser tab. *)
Record Tab : Type := {
  tabId : nat;
  windowId : nat;
  tabUrl : string
}.

(** What the injected function of the screenshot fallback reads in the
    page. *)
Record Page : Type := {
  innerText : string;       (* document.body.innerText *)
  pageTitle : string;       (* document.title *)
  pageHref : string         (* window.location.href *)
}.

(** One entry of the array the Panel hands to [displayFileResults]:
    [{ file, result }] or [{ file, error }]. *)
Inductive FileEntry : Type :=
| Scanned (file : string) (result : JsValue)
| Failed (file : string) (error : string).

(** Effects visible outside the program. *)
Inductive Event : Type :=
| Notify (id title msg : string)        (* chrome.notifications.create *)
| Capture (window : nat)                (* chrome.tabs.captureVisibleTab *)
| Download (src filename : string)      (* chrome.downloads.download *)
| Fetch (req : Request)                 (* fetch *)
| ExecuteScript (tab : nat)             (* chrome.scripting.executeScript *)
| StorageLocalSet (items : list (string * JsValue))
| Banner (msg : string)                 (* warning element added to the page *)
| PreventDefault                        (* event.preventDefault() *)
| PanelStatus (msg kind : string)       (* updateResultStatus *)
| PanelNotice (msg kind : string)       (* the Panel's showNotification *)
| FileResults (results : list FileEntry). (* the array given to displayFileResults *)

(** The answers of the environment.  [fetchAnswer n req] is the outcome
    of the [n]-th [fetch] of a run. *)
Record Host : Type := {
  captureVisibleTab : nat -> Res (option string);
  download : string -> string -> Res nat;
  fetchAnswer : nat -> Request -> Res Response;
  executeScript : nat -> Res (list (option Page));
  storageLocalSet : list (string * JsValue) -> Res unit;
  percent : JsValue -> string;          (* (x * 100).toFixed(1) *)
  hostname : string -> Res string       (* new URL(href).hostname *)
}.

(** The mutable state of one execution context. *)
Record World : Type := {
  settings : Settings;
  now : N;                              (* Date.now(); constant during a run *)
  fetches : nat;                        (* fetch calls made so far *)
  defaultPrevented : bool;              (* of the event being dispatched *)
  log : list Event
}.

(** ** The monad of effectful code *)

Definition M (A : Type) : Type := World -> Res A * World.

Definition ret {A : Type} (a : A) : M A := fun w => (Ok a, w).

Definition bind {A B : Type} (c : M A) (k : A -> M B) : M B :=
  fun w => match c w with
           | (Ok a, w') => k a w'
           | (Throw e, w') => (Throw e, w')
           end.

Definition throw {A : Type} (e : JsError) : M A := fun w => (Throw e, w).

(** [try { c } catch (e) { h e }]. *)
Definition tryCatch {A : Type} (c : M A) (h : JsError -> M A) : M A :=
  fun w => match c w with
           | (Throw e, w') => h e w'
           | r => r
           end.

(** A value or exception computed without effects. *)
Definition lift {A : Type} (r : Res A) : M A := fun w => (r, w).

Declare Scope js_scope.
Delimit Scope js_scope with js.
Notation "x <- c ;; k" := (bind c (fun x => k))
  (at level 61, c at next level, right associativity) : js_scope.
Notation "c ;; k" := (bind c (fun _ => k))
  (at level 61, right associativity) : js_scope.
Open Scope js_scope.

Definition emit (e : Event) : M unit :=
  fun w => (Ok tt, {| settings := settings w; now := now w; fetches := fetches w;
                      defaultPrevented := defaultPrevented w;
                      log := log w ++ [e] |}).

Definition getSettings : M Settings := fun w => (Ok (settings w), w).

Definition dateNow : M N := fun w => (Ok (now w), w).

(** [for (const x of l) body], the body updating the local [acc]. *)
Fixpoint forOf {A B : Type} (l : list A) (acc : B) (body : B -> A -> M B) : M B :=
  match l with
  | [] => ret acc
  | x :: rest => acc' <- body acc x ;; forOf rest acc' body
  end.

Section HostCalls.

Variable h : Host.

(** [fetch(req)]: the call is made, then the host answers. *)
Definition fetch (req : Request) : M Response :=
  fun w =>
    (fetchAnswer h (fetches w) req,
     {| settings := settings w; now := now w; fetches := S (fetches w);
        defaultPrevented := defaultPrevented w;
        log := log w ++ [Fetch req] |}).

Definition chromeCaptureVisibleTab (win : nat) : M (option string) :=
  emit (Capture win) ;; lift (captureVisibleTab h win).

Definition chromeDownload (src filename : string) : M nat :=
  emit (Download src filename) ;; lift (download h src filename).

Definition chromeExecuteScript (tab : nat) : M (list (option Page)) :=
  emit (ExecuteScript tab) ;; lift (executeScript h tab).

Definition chromeStorageLocalSet (items : list (string * JsValue)) : M unit :=
  emit (StorageLocalSet items) ;; lift (storageLocalSet h items).

End HostCalls.

(** [event.preventDefault()]. *)
Definition preventDefault : M unit :=
  fun w => (Ok tt, {| settings := settings w; now := now w; fetches := fetches w;
                      defaultPrevented := true;
                      log := log w ++ [PreventDefault] |}).

(* ================================================================== *)
(** * content.js: the Page Observer ([ContentAnalyzer]) *)
(* ================================================================== *)

Module Content.

Import Js.

Inductive ThreatType : Type :=
| suspicious_keyword
| excessive_urgency
| suspicious_link
| link_mismatch
| suspicious_form
| sensitive_inputs
| suspicious_attribute.

Inductive Severity : Type := low | medium | high.

(** A link as [extractLinks] and [analyzeNewContent] build it. *)
Record Link : Type := {
  href : string;
  text : string;
  title : string;
  target : string
}.

(** An entry of a [threats] array. *)
Record Threat : Type := {
  type : ThreatType;
  severity : Severity;
  description : string;
  location : string;
  element : option Link
}.

Definition isType (t : ThreatType) (x : Threat) : bool :=
  match t, type x with
  | suspicious_keyword, suspicious_keyword
  | excessive_urgency, excessive_urgency
  | suspicious_link, suspicious_link
  | link_mismatch, link_mismatch
  | suspicious_form, suspicious_form
  | sensitive_inputs, sensitive_inputs
  | suspicious_attribute, suspicious_attribute => true
  | _, _ => false
  end.

(** ** analyzeTextThreats *)

Definition suspiciousKeywords : list string :=
  [ "urgent"; "immediate action"; "account suspended"; "verify now";
    "click here"; "limited time"; "free money"; "lottery winner";
    "bank account"; "credit card"; "social security"; "password";
    "login"; "sign in"; "update now"; "security alert" ].

Definition keywordThreat (keyword : string) : Threat :=
  {| type := suspicious_keyword;
     severity := medium;
     description := "Suspicious keyword detected: " +++ dquote +++ keyword +++ dquote;
     location := "text_content";
     element := None |}.

(** The three urgency families, each an alternation of literals with
    the flags [gi]. *)
Definition urgencyPatterns : list Regex :=
  [ Alt (Lit "immediate") (Alt (Lit "urgent") (Alt (Lit "asap")
      (Alt (Lit "right now") (Lit "quickly"))));
    Alt (Lit "limited time") (Alt (Lit "expires") (Lit "deadline"));
    Alt (Lit "act now") (Alt (Lit "don't wait") (Lit "hurry")) ].

Definition urgencyThreat : Threat :=
  {| type := excessive_urgency;
     severity := high;
     description := "Excessive urgency detected in text";
     location := "text_content";
     element := None |}.

Definition analyzeTextThreats (text : string) : list Threat :=
  let threats := [] in
  (* Check for suspicious keywords *)
  let threats :=
    forEach suspiciousKeywords
      (fun threats keyword =>
         if includes (toLowerCase text) (toLowerCase keyword)
         then push threats (keywordThreat keyword)
         else threats)
      threats in
  (* Check for excessive urgency *)
  let threats :=
    forEach urgencyPatterns
      (fun threats pattern =>
         match matchG text pattern with
         | Some matches =>
             if 2 <? List.length matches then push threats urgencyThreat else threats
         | None => threats
         end)
      threats in
  threats.

(** ** Links *)

Definition shortenerPatterns : list Regex :=
  map Lit
    [ "bit.ly"; "tinyurl.com"; "goo.gl"; "t.co"; "is.gd"; "cli.gs"; "ow.ly";
      "su.pr"; "twurl.nl"; "snipurl.com"; "short.to"; "BudURL.com"; "ping.fm";
      "tr.im"; "bkite.com"; "snipr.com"; "shortie.io"; "short.io"; "rb.gy";
      "tiny.cc" ].

Definition isSuspiciousURL (url : string) : bool :=
  existsb (fun pattern => test pattern url) shortenerPatterns
  || includes url "suspicious"
  || includes url "phishing"
  || includes url "scam"
  || includes url "malware".

Section WithHost.

Variable h : Host.

(** [new URL(link.href)] throws on a string that is not a URL. *)
Definition isLinkMismatch (link : Link) : M bool :=
  domain <- lift (hostname h (href link)) ;;
  let linkText := toLowerCase (text link) in
  if includes linkText "google" && negb (includes domain "google") then ret true
  else if includes linkText "facebook" && negb (includes domain "facebook") then ret true
  else if includes linkText "amazon" && negb (includes domain "amazon") then ret true
  else if includes linkText "paypal" && negb (includes domain "paypal") then ret true
  else ret false.

Definition linkThreat (link : Link) : Threat :=
  {| type := suspicious_link;
     severity := high;
     description := "Suspicious link detected: " +++ href link;
     location := "link";
     element := Some link |}.

Definition mismatchThreat (link : Link) : Threat :=
  {| type := link_mismatch;
     severity := medium;
     description := "Link text does not match destination URL";
     location := "link";
     element := Some link |}.

Definition analyzeLinkThreats (links : list Link) : M (list Threat) :=
  forOf links []
    (fun threats link =>
       let threats :=
         if isSuspiciousURL (href link) then push threats (linkThreat link)
         else threats in
       mismatch <- isLinkMismatch link ;;
       if mismatch then ret (push threats (mismatchThreat link)) else ret threats).

(** ** Warnings *)

(** [showWarning]: a banner is added to the page unless notifications
    are switched off.  The banner removes itself after five seconds. *)
Definition showWarning (msg : string) : M unit :=
  s <- getSettings ;;
  if negb (notifications s) then ret tt else emit (Banner msg).

(** ** Live interception *)

(** A value of a [FormData] entry. *)
Inductive FormValue : Type :=
| TextValue (s : string)
| FileValue (f : File).

(** [String(value)], as [RegExp.prototype.test] coerces its argument. *)
Definition formValueString (v : FormValue) : string :=
  match v with
  | TextValue s => s
  | FileValue _ => "[object File]"
  end.

Definition formValuePatterns : list Regex :=
  [ Lit "password";
    Seq (Lit "credit") (Seq AnyStar (Lit "card"));
    Alt (Lit "ssn") (Seq (Lit "social") (Seq AnyStar (Lit "security")));
    Seq (Lit "bank") (Seq AnyStar (Lit "account"));
    Seq (Lit "routing") (Seq AnyStar (Lit "number")) ].

Definition isSuspiciousFormValue (key : string) (value : FormValue) : bool :=
  existsb (fun pattern => test pattern key || test pattern (formValueString value))
    formValuePatterns.

(** The loop over [formData.entries()]: it stops at the first
    suspicious entry. *)
Fixpoint hasSuspiciousContent (entries : list (string * FormValue)) : bool :=
  match entries with
  | [] => false
  | (key, value) :: rest =>
      if isSuspiciousFormValue key value then true else hasSuspiciousContent rest
  end.

(** A [submit] event: [entries] is [new FormData(event.target)]. *)
Record SubmitEvent : Type := { entries : list (string * FormValue) }.

Definition analyzeFormSubmission (event : SubmitEvent) : M unit :=
  if hasSuspiciousContent (entries event)
  then showWarning "Suspicious form submission detected"
  else ret tt.



(** A [change] event: the [type] and the [files] of its target. *)
Record ChangeEvent : Type := {
  inputType : string;
  files : list File
}.

Definition suspiciousExtensions : list string :=
  [ ".exe"; ".bat"; ".cmd"; ".scr"; ".pif" ].

Definition analyzeFileUpload (event : ChangeEvent) : M unit :=
  if String.eqb (inputType event) "file" then
    match files event with
    | file :: _ =>
        let fileExtension := "." +++ toLowerCase (splitPop "."%char (fileName file)) in
        if existsb (String.eqb fileExtension) suspiciousExtensions
        then showWarning "Suspicious file type detected"
        else ret tt
    | [] => ret tt
    end
  else ret tt.

(** ** Mutation watching *)

(** A node handed to the observer: an element with the attributes
    [analyzeNewContent] reads, or another kind of node. *)
Inductive Node : Type :=
| ElementNode (tagName elHref textContent elTitle elTarget : string)
| OtherNode.

Inductive MutationType : Type := childList | attributes | characterData.

Record MutationRecord : Type := {
  mutationType : MutationType;
  addedNodes : list Node
}.

(** The element is an anchor: the detector runs on it and its answer
    is dropped. *)
Definition analyzeNewContent (element : Node) : M unit :=
  match element with
  | ElementNode tagName elHref textContent elTitle elTarget =>
      if String.eqb tagName "A" then
        _ <- analyzeLinkThreats
               [ {| href := elHref; text := trim textContent;
                    title := elTitle; target := elTarget |} ] ;;
        ret tt
      else ret tt
  | OtherNode => ret tt
  end.

(** The callback of the [MutationObserver] set up by
    [observeDOMChanges]. *)
Definition observeDOMChanges (mutations : list MutationRecord) : M unit :=
  forOf mutations tt
    (fun _ mutation =>
       match mutationType mutation with
       | childList =>
           forOf (addedNodes mutation) tt
             (fun _ node =>
                match node with
                | ElementNode _ _ _ _ _ => analyzeNewContent node
                | OtherNode => ret tt
                end)
       | _ => ret tt
       end).

End WithHost.

End Content.

(* ================================================================== *)
(** * background.js: the Coordination Agent *)
(* ================================================================== *)

Module Background.

Import Js Value.

(** [showThreatNotification]: nothing when notifications are off, else
    one system notification keyed by the time stamp.  (The pictographs
    of the titles are left out of the model.) *)
Definition showThreatNotification (title msg : string) : M unit :=
  s <- getSettings ;;
  if negb (notifications s) then ret tt
  else
    t <- dateNow ;;
    emit (Notify ("threat-" +++ showN t) title msg).

Definition suspiciousKeywords : list string :=
  [ "urgent"; "immediate action"; "account suspended"; "verify now";
    "click here"; "limited time"; "free money"; "lottery winner";
    "bank account"; "credit card"; "social security"; "password";
    "login"; "sign in"; "update now"; "security alert";
    "bitcoin"; "crypto"; "investment opportunity"; "act now";
    "don't wait"; "hurry"; "expires"; "deadline" ].

Definition quickKeywordScan (text : string) : list string :=
  let foundThreats := [] in
  let lowerText := toLowerCase text in
  forEach suspiciousKeywords
    (fun foundThreats keyword =>
       if includes lowerText (toLowerCase keyword)
       then push foundThreats keyword
       else foundThreats)
    foundThreats.

(** The number literals of the result objects. *)
Definition conf_0_8 : Q := 8 # 10.
Definition conf_0_2 : Q := 2 # 10.
Definition conf_0_1 : Q := 1 # 10.
Definition conf_0_0 : Q := 0.

Section WithHost.

Variable h : Host.

(** ** scanContent *)

Definition scanContent (content : JsValue) (type : string) : M JsValue :=
  tryCatch
    (route <-
       (if String.eqb type "text"
        then ret ("/predict-text", JObj [("text", content)])
        else throw (Error ("Unsupported content type: " +++ type))) ;;
     let '(endpoint, payload) := route in
     s <- getSettings ;;
     response <- fetch h {| url := apiEndpoint s +++ endpoint;
                            method := "POST";
                            headers := [("Content-Type", "application/json")];
                            body := JsonBody payload |} ;;
     if negb (ok response)
     then throw (Error ("API Error: " +++ showNat (status response)))
     else lift (json response))
    (fun error => throw error).

(** ** The screenshot pipeline *)

(** The function injected in the page by the fallback. *)
Definition extractPage (p : Page) : string * string * string :=
  (substring0 2000 (innerText p), pageTitle p, pageHref p).

Definition basicAnalysis (threats : list string) (text title url : string) : JsValue :=
  JObj [ ("threats", ofStrings threats);
         ("text", JStr (substring0 500 text));
         ("title", JStr title);
         ("url", JStr url) ].

Definition performBasicScreenshotAnalysis (screenshot : string) (tab : Tab)
  : M JsValue :=
  tryCatch
    (results <- chromeExecuteScript h (tabId tab) ;;
     match results with
     | Some page :: _ =>
         let '(text, title, url) := extractPage page in
         (* Quick keyword scan *)
         let threats := quickKeywordScan (text +++ " " +++ title) in
         (if 0 <? List.length threats
          then showThreatNotification "Suspicious Content Detected"
                 ("Found " +++ showNat (List.length threats)
                  +++ " suspicious patterns: " +++ join ", " threats)
          else showThreatNotification "Screenshot Saved & Basic Analysis Complete"
                 "No obvious threats detected. Screenshot saved to downloads.") ;;
         (* Store basic analysis result *)
         t <- dateNow ;;
         chromeStorageLocalSet h
           [ ("lastScreenshotResult",
              JObj [ ("screenshot", JStr screenshot);
                     ("basicAnalysis", basicAnalysis threats text title url);
                     ("timestamp", JNum (inject_Z (Z.of_N t)));
                     ("url", JStr (tabUrl tab)) ]) ] ;;
         (* Return result for popup *)
         ret (JObj [ ("threats", ofStrings threats);
                     ("confidence",
                      JNum (if 0 <? List.length threats then conf_0_8 else conf_0_2));
                     ("basicAnalysis", basicAnalysis threats text title url);
                     ("screenshotSaved", JBool true) ])
     | _ =>
         (* Return default result if no text extracted *)
         ret (JObj [ ("threats", JArr []);
                     ("confidence", JNum conf_0_1);
                     ("basicAnalysis",
                      basicAnalysis [] EmptyString EmptyString EmptyString);
                     ("screenshotSaved", JBool true) ])
     end)
    (fun error =>
       showThreatNotification "Screenshot Saved"
         "Screenshot captured and saved. Basic analysis completed." ;;
       (* Return error result *)
       ret (JObj [ ("threats", JArr []);
                   ("confidence", JNum conf_0_0);
                   ("error", JStr (message error));
                   ("screenshotSaved", JBool true) ])).

(** The request that carries the image to the classifier. *)
Definition imageRequest (s : Settings) (image : File) : Request :=
  {| url := apiEndpoint s +++ "/predict-image";
     method := "POST";
     headers := [];
     body := FormBody [ ("image", {| fileName := "screenshot.png";
                                      mimeType := mimeType image;
                                      bytes := bytes image |}) ] |}.

(** [fetch(screenshot)]: the data URL read back as a response. *)
Definition dataRequest (screenshot : string) : Request :=
  {| url := screenshot; method := "GET"; headers := []; body := NoBody |}.

Definition takeScreenshotAndAnalyze (tab : Tab) : M JsValue :=
  tryCatch
    (showThreatNotification "Screenshot Analysis"
       "Taking screenshot and analyzing for threats..." ;;
     (* Take screenshot of the current tab *)
     captured <- chromeCaptureVisibleTab h (windowId tab) ;;
     screenshot <-
       match captured with
       | Some (String c rest) => ret (String c rest)
       | _ => throw (Error "Failed to capture screenshot")
       end ;;
     (* First, save the screenshot *)
     t <- dateNow ;;
     downloadId <- chromeDownload h screenshot
                     ("nexus-guard-screenshot-" +++ showN t +++ ".png") ;;
     (* Try to analyze with API if available *)
     tryCatch
       (response <- fetch h (dataRequest screenshot) ;;
        image <- lift (blob response) ;;
        s <- getSettings ;;
        apiResponse <- fetch h (imageRequest s image) ;;
        if ok apiResponse then
          result <- lift (json apiResponse) ;;
          prediction <- lift (getProp result "prediction") ;;
          (if strictEqNum prediction 1
           then showThreatNotification "THREAT DETECTED IN SCREENSHOT!"
                  ("Phishing/Scam content detected with "
                   +++ percent h (prop result "probability") +++ "% confidence")
           else showThreatNotification "Screenshot Safe"
                  ("Screenshot analysis shows no threats with "
                   +++ percent h (prop result "probability") +++ "% confidence")) ;;
          (* Store screenshot result *)
          t' <- dateNow ;;
          chromeStorageLocalSet h
            [ ("lastScreenshotResult",
               JObj [ ("screenshot", JStr screenshot);
                      ("result", result);
                      ("timestamp", JNum (inject_Z (Z.of_N t')));
                      ("url", JStr (tabUrl tab)) ]) ] ;;
          (* Return result for popup *)
          ret (JObj [ ("threats",
                       if strictEqNum prediction 1
                       then JArr [JStr "Phishing/Scam content detected"]
                       else JArr []);
                      ("confidence", prop result "probability");
                      ("apiResult", result);
                      ("screenshotSaved", JBool true) ])
        else
          (* API not available, do basic analysis *)
          performBasicScreenshotAnalysis screenshot tab)
       (fun apiError =>
          (* Fallback to basic analysis *)
          performBasicScreenshotAnalysis screenshot tab))
    (fun error =>
       showThreatNotification "Screenshot Error"
         ("Failed to analyze screenshot: " +++ message error) ;;
       throw error).

End WithHost.

End Background.

(* ================================================================== *)
(** * popup.js: the Interaction Panel ([NexusGuardExtension]) *)
(* ================================================================== *)

Module Popup.

Import Js Value.

(** The Panel's own [showNotification]. *)
Definition showNotification (msg kind : string) : M unit :=
  s <- getSettings ;;
  if negb (notifications s) then ret tt else emit (PanelNotice msg kind).

Definition updateResultStatus (msg kind : string) : M unit :=
  emit (PanelStatus msg kind).

Section WithHost.

Variable h : Host.

Definition callAPI (endpoint : string) (data : Body) (isFormData : bool) : M JsValue :=
  s <- getSettings ;;
  let url := apiEndpoint s +++ endpoint in
  response <- fetch h {| url := url;
                         method := "POST";
                         headers := if isFormData then []
                                    else [("Content-Type", "application/json")];
                         body := data |} ;;
  if negb (ok response)
  then throw (Error ("API Error: " +++ showNat (status response)
                     +++ " " +++ statusText response))
  else lift (json response).

Definition scanFile (file : File) : M JsValue :=
  let formData := [("file", file)] in
  route <-
    (if startsWith (mimeType file) "image/"
     then ret ("/predict-image", push formData ("image", file))
     else if startsWith (mimeType file) "audio/"
     then ret ("/predict-audio", push formData ("audio", file))
     else if startsWith (mimeType file) "video/"
     then ret ("/predict-video", push formData ("video", file))
     else throw (Error "Unsupported file type")) ;;
  let '(endpoint, formData) := route in
  callAPI endpoint (FormBody formData) true.

(** The overall status of a batch: spoofed before threat before safe.
    An entry with an empty error message is not seen as an error, and
    its missing [result] then makes the rendering throw. *)
Definition displayFileResults (results : list FileEntry) : M unit :=
  emit (FileResults results) ;;
  flags <- forOf results (false, false)
             (fun flags entry =>
                let '(hasThreats, hasSpoofed) := flags in
                match entry with
                | Failed _ (String _ _) => ret flags
                | Failed _ EmptyString =>
                    _ <- lift (getProp JUndefined "prediction") ;; ret flags
                | Scanned _ result =>
                    prediction <- lift (getProp result "prediction") ;;
                    let isThreat := strictEqNum prediction 1 in
                    let isSpoofed := strictEqStr (prop result "is_spoofed") "spoofed" in
                    ret (hasThreats || isThreat, hasSpoofed || isSpoofed)
                end) ;;
  let '(hasThreats, hasSpoofed) := flags in
  if hasSpoofed then
    updateResultStatus "SPOOFED CONTENT DETECTED!" "spoofed" ;;
    showNotification "Deepfake/Spoofed content detected!" "warning"
  else if hasThreats then
    updateResultStatus "THREATS DETECTED!" "threat" ;;
    showNotification "Threat content detected!" "warning"
  else
    updateResultStatus "All files appear safe" "safe" ;;
    showNotification "All files appear safe" "success".

(** One turn of the loop of [processFiles]. *)
Definition scanInto (results : list FileEntry) (file : File) : M (list FileEntry) :=
  tryCatch
    (result <- scanFile file ;;
     ret (push results (Scanned (fileName file) result)))
    (fun error =>
       ret (push results (Failed (fileName file) (message error)))).

(** The switch of the visible area ([showResults]) is not modelled. *)
Definition processFiles (files : list File) : M unit :=
  updateResultStatus ("Processing " +++ showNat (List.length files) +++ " file(s)...")
    "analyzing" ;;
  let results := [] in
  results <- forOf files results scanInto ;;
  displayFileResults results.

(** The [dragover] and [dragleave] handlers of the upload area. *)
Definition onDragOver : M unit := preventDefault.

(** The [drop] handler: [processFiles] is started and not awaited, so
    a rejection of it does not reach the handler. *)
Definition onDrop (files : list File) : M unit :=
  preventDefault ;;
  tryCatch (processFiles files) (fun _ => ret tt).

End WithHost.

End Popup.

(* ================================================================== *)
(** * Vocabulary of the statements *)
(* ================================================================== *)

(** The object literals the screenshot pipeline returns, named. *)
Module Results.

Import Js Value Background.

(** Returned after a successful answer [result] of the classifier. *)
Definition remoteResult (result : JsValue) : JsValue :=
  JObj [ ("threats",
          if strictEqNum (prop result "prediction") 1
          then JArr [JStr "Phishing/Scam content detected"]
          else JArr []);
         ("confidence", prop result "probability");
         ("apiResult", result);
         ("screenshotSaved", JBool true) ].

(** Returned by the keyword fallback on the extracted [page]. *)
Definition heuristicResult (page : Page) : JsValue :=
  let '(text, title, url) := extractPage page in
  let threats := quickKeywordScan (text +++ " " +++ title) in
  JObj [ ("threats", ofStrings threats);
         ("confidence", JNum (match threats with [] => conf_0_2 | _ => conf_0_8 end));
         ("basicAnalysis", basicAnalysis threats text title url);
         ("screenshotSaved", JBool true) ].

(** Returned when the injected script gave no result. *)
Definition defaultResult : JsValue :=
  JObj [ ("threats", JArr []);
         ("confidence", JNum conf_0_1);
         ("basicAnalysis", basicAnalysis [] EmptyString EmptyString EmptyString);
         ("screenshotSaved", JBool true) ].

(** Returned when something threw inside the fallback. *)
Definition errorResult (msg : string) : JsValue :=
  JObj [ ("threats", JArr []);
         ("confidence", JNum conf_0_0);
         ("error", JStr msg);
         ("screenshotSaved", JBool true) ].

(** The results of the keyword fallback. *)
Definition localShape (r : JsValue) : Prop :=
  (exists page, r = heuristicResult page)
  \/ r = defaultResult
  \/ (exists msg, r = errorResult msg).

(** The confidences the fallback writes. *)
Definition localConfidence (q : Q) : Prop :=
  q = conf_0_8 \/ q = conf_0_2 \/ q = conf_0_1 \/ q = conf_0_0.

(** The [confidence] of a returned result. *)
Definition confidenceOf (outcome : Res JsValue) : option JsValue :=
  match outcome with
  | Ok r => Some (prop r "confidence")
  | Throw _ => None
  end.

(** The capture produced the non-empty data URL [shot]. *)
Definition captured (h : Host) (tab : Tab) (shot : string) : Prop :=
  captureVisibleTab h (windowId tab) = Ok (Some shot) /\ shot <> EmptyString.

(** The download of the pipeline, started in world [w], answers [r]. *)
Definition downloadAnswer (h : Host) (w : World) (shot : string) : Res nat :=
  download h shot ("nexus-guard-screenshot-" +++ showN (now w) +++ ".png").

(** The answer to the image-analysis call of a pipeline started in
    [w], when the call is reached: the screenshot was read back as a
    blob and posted. *)
Definition remoteAnswer (h : Host) (w : World) (shot : string) : option (Res Response) :=
  match fetchAnswer h (fetches w) (dataRequest shot) with
  | Ok r =>
      match blob r with
      | Ok image => Some (fetchAnswer h (S (fetches w)) (imageRequest (settings w) image))
      | Throw _ => None
      end
  | Throw _ => None
  end.

(** The image-analysis call was made and failed: a network-level error
    or a status outside 200-299. *)
Definition remoteFailed (h : Host) (w : World) (shot : string) : bool :=
  match remoteAnswer h w shot with
  | Some (Throw _) => true
  | Some (Ok r) => negb (ok r)
  | None => false
  end.

(** The extraction gave no result for the page: an empty array of
    injection results, or a first entry without [result]. *)
Definition noResult (results : list (option Page)) : bool :=
  match results with
  | Some _ :: _ => false
  | _ => true
  end.

(** What [showThreatNotification] adds to the log in world [w]. *)
Definition notice (w : World) (title msg : string) : list Event :=
  if notifications (settings w)
  then [Notify ("threat-" +++ showN (now w)) title msg]
  else [].

(** Calls that belong to the analysis of the image: the remote attempt
    and the fallback. *)
Definition isAnalysisEvent (e : Event) : bool :=
  match e with
  | Fetch _ | ExecuteScript _ | StorageLocalSet _ => true
  | _ => false
  end.

(** The arrays given to [displayFileResults], oldest first. *)
Fixpoint fileResults (l : list Event) : list (list FileEntry) :=
  match l with
  | [] => []
  | FileResults r :: rest => r :: fileResults rest
  | _ :: rest => fileResults rest
  end.

(** The host with another answer for one service. *)
Definition withDownload (h : Host) (d : string -> string -> Res nat) : Host :=
  {| captureVisibleTab := captureVisibleTab h; download := d;
     fetchAnswer := fetchAnswer h; executeScript := executeScript h;
     storageLocalSet := storageLocalSet h; percent := percent h;
     hostname := hostname h |}.

Definition withFetch (h : Host) (f : nat -> Request -> Res Response) : Host :=
  {| captureVisibleTab := captureVisibleTab h; download := download h;
     fetchAnswer := f; executeScript := executeScript h;
     storageLocalSet := storageLocalSet h; percent := percent h;
     hostname := hostname h |}.

Definition withExecuteScript (h : Host) (x : nat -> Res (list (option Page))) : Host :=
  {| captureVisibleTab := captureVisibleTab h; download := download h;
     fetchAnswer := fetchAnswer h; executeScript := x;
     storageLocalSet := storageLocalSet h; percent := percent h;
     hostname := hostname h |}.

Definition withStorage (h : Host) (s : list (string * JsValue) -> Res unit) : Host :=
  {| captureVisibleTab := captureVisibleTab h; download := download h;
     fetchAnswer := fetchAnswer h; executeScript := executeScript h;
     storageLocalSet := s; percent := percent h;
     hostname := hostname h |}.

End Results.

(** Definitions that follow the words of the specification, to be
    compared with the program. *)
Module Spec.

Import Js Value Content.

(** The occurrences of vocabulary entries in a lower-cased text, from
    left to right: at each position, the entries that start there. *)
Fixpoint occurrencesFrom (vocabulary : list string) (s : string) : list string :=
  filter (fun k => String.prefix (toLowerCase k) s) vocabulary
  ++ match s with
     | EmptyString => []
     | String _ s' => occurrencesFrom vocabulary s'
     end.

Definition occurrences (vocabulary : list string) (text : string) : list string :=
  occurrencesFrom vocabulary (toLowerCase text).

(** The keyword detector as the specification words it: one finding
    for each occurrence, in the order of the occurrences. *)
Definition keywordDetector (text : string) : list Threat :=
  map keywordThreat (occurrences suspiciousKeywords text).

(** [k] occurs in [text] at least once. *)
Definition occursIn (vocabulary : list string) (text k : string) : bool :=
  existsb (String.eqb k) (occurrences vocabulary text).

(** The normalized shape of a scan result as the specification words
    it: a source tag, a confidence between 0 and 1. *)
Definition normalizedShape (r : JsValue) : Prop :=
  (prop r "source" = JStr "Remote" \/ prop r "source" = JStr "Heuristic")
  /\ exists q, prop r "confidence" = JNum q /\ (0 <= q)%Q /\ (q <= 1)%Q.

End Spec.

(** Readings of the findings of the Page Observer. *)
Module Findings.

Import Js Content.

(** [matches ? matches.length : 0] for a family of urgency words. *)
Definition matchCount (text : string) (pattern : Regex) : nat :=
  match matchG text pattern with
  | Some matches => List.length matches
  | None => 0
  end.

Definition keywordFindings (text : string) : list Threat :=
  filter (isType suspicious_keyword) (analyzeTextThreats text).

Definition urgencyFindings (text : string) : list Threat :=
  filter (isType excessive_urgency) (analyzeTextThreats text).

(** An event handler that only advises: it returns normally, leaves
    the default action of the event alone, and adds one warning banner
    to the page when the heuristic [matched] and warnings are switched
    on, nothing otherwise. *)
Definition advises (handler : M unit) (matched : bool) (msg : string) : Prop :=
  forall w,
    fst (handler w) = Ok tt
    /\ defaultPrevented (snd (handler w)) = defaultPrevented w
    /\ log (snd (handler w))
       = log w ++ (if matched && notifications (settings w) then [Banner msg] else []).



(** ** The heuristic of the submit handler, read on the strings *)






(** [s] without its first [n] characters. *)
Fixpoint skip (n : nat) (s : string) : string :=
  match n, s with
  | S n', String _ s' => skip n' s'
  | _, _ => s
  end.





(** The link [analyzeNewContent] builds from an inserted element. *)
Definition linkOf (node : Node) : option Link :=
  match node with
  | ElementNode tagName elHref textContent elTitle elTarget =>
      Some {| href := elHref; text := trim textContent;
              title := elTitle; target := elTarget |}
  | OtherNode => None
  end.

End Findings.

(** The recording of a batch of files by the Panel. *)
Module Batch.

Import Popup.

(** [Scans h w files entries w']: scanning [files] one after the other
    from world [w] records [entries] and ends in [w']; a file whose scan
    throws is recorded with the message, and the next file is scanned
    from the world the failed scan left. *)
Inductive Scans (h : Host) : World -> list File -> list FileEntry -> World -> Prop :=
| ScansNil : forall w, Scans h w [] [] w
| ScansOk : forall w file result w1 files entries w2,
    scanFile h file w = (Ok result, w1) ->
    Scans h w1 files entries w2 ->
    Scans h w (file :: files) (Scanned (fileName file) result :: entries) w2
| ScansThrow : forall w file e w1 files entries w2,
    scanFile h file w = (Throw e, w1) ->
    Scans h w1 files entries w2 ->
    Scans h w (file :: files) (Failed (fileName file) (message e) :: entries) w2.

(** The world in which the first file of a batch is scanned. *)
Definition started (files : list File) (w : World) : World :=
  snd (updateResultStatus
         ("Processing " +++ Js.showNat (List.length files) +++ " file(s)...")
         "analyzing" w).

End Batch.

(** The routes of a content scan. *)
Module Routing.

Import Js.

(** The request of the Agent for a text. *)
Definition textRequest (s : Settings) (content : JsValue) : Request :=
  {| url := apiEndpoint s +++ "/predict-text";
     method := "POST";
     headers := [("Content-Type", "application/json")];
     body := JsonBody (JObj [("text", content)]) |}.

(** The endpoint and the form field of the Panel for a media file,
    chosen by the start of its MIME type. *)
Definition mediaRoute (file : File) : option (string * string) :=
  if startsWith (mimeType file) "image/" then Some ("/predict-image", "image")
  else if startsWith (mimeType file) "audio/" then Some ("/predict-audio", "audio")
  else if startsWith (mimeType file) "video/" then Some ("/predict-video", "video")
  else None.

(** The multipart request of the Panel for a media file. *)
Definition mediaRequest (s : Settings) (endpoint field : string) (file : File) : Request :=
  {| url := apiEndpoint s +++ endpoint;
     method := "POST";
     headers := [];
     body := FormBody [("file", file); (field, file)] |}.

(** What a call to the classifier comes to: the network error, the
    service error made from a response outside 200-299, or the parsed
    body. *)
Definition answered (serviceError : Response -> JsError) (a : Res Response) : Res JsValue :=
  match a with
  | Throw e => Throw e
  | Ok response => if ok response then json response else Throw (serviceError response)
  end.

Definition agentError (response : Response) : JsError :=
  Error ("API Error: " +++ showNat (status response)).

Definition panelError (response : Response) : JsError :=
  Error ("API Error: " +++ showNat (status response) +++ " " +++ statusText response).

End Routing.

(** Concrete hosts and inputs for the examples. *)
Module Examples.

Import Js Value Results.

(** A parser for plain absolute URLs ([scheme://host/...], no user
    name), standing for [new URL(href).hostname] in the examples. *)
Fixpoint afterScheme (s : string) : option string :=
  match s with
  | EmptyString => None
  | String _ s' =>
      if String.prefix "://" s then Some (String.substring 3 (String.length s - 3) s)
      else afterScheme s'
  end.

Fixpoint takeHost (s : string) : string :=
  match s with
  | EmptyString => EmptyString
  | String c s' =>
      if existsb (Ascii.eqb c) ["/"; "?"; "#"; ":"]%char then EmptyString
      else String c (takeHost s')
  end.

Definition simpleHostname (href : string) : Res string :=
  match afterScheme href with
  | Some rest => Ok (toLowerCase (takeHost rest))
  | None => Throw (Error "Invalid URL")
  end.

(** [(x * 100).toFixed(1)] for the non-negative numbers of the
    examples, rounding half up. *)
Definition simplePercent (v : JsValue) : string :=
  match v with
  | JNum q =>
      let tenths := Z.to_nat (Qfloor (q * 1000 + (1 # 2))%Q) in
      showNat (tenths / 10) +++ "." +++ showNat (tenths mod 10)
  | _ => "NaN"
  end.

Definition shot : string := "data:image/png;base64,iVBORw0KGgo=".

Definition png : File :=
  {| fileName := EmptyString; mimeType := "image/png"; bytes := "PNG" |}.

Definition answer (code : nat) (text : string) (payload : Res JsValue) : Response :=
  {| status := code; statusText := text; json := payload;
     blob := Throw (Error "body is not a blob") |}.

Definition dataResponse : Response :=
  {| status := 200; statusText := "OK";
     json := Throw (Error "Unexpected token"); blob := Ok png |}.

(** The network answers [remote] to every call but the reading back
    of the data URL. *)
Definition network (remote : Res Response) (n : nat) (req : Request) : Res Response :=
  if String.eqb (url req) shot then Ok dataResponse else remote.

Definition verdict : JsValue :=
  JObj [ ("prediction", JNum 1); ("probability", JNum (93 # 100)) ].

Definition loginPage : Page :=
  {| innerText := "Your account is locked. Enter your PASSWORD to login.";
     pageTitle := "Security alert";
     pageHref := "https://example.com/" |}.

Definition plainPage : Page :=
  {| innerText := "Weather for the coming week";
     pageTitle := "Forecast";
     pageHref := "https://example.com/weather" |}.

(** Everything works and the classifier answers [verdict]. *)
Definition hostOk : Host :=
  {| captureVisibleTab := fun _ => Ok (Some shot);
     download := fun _ _ => Ok 7;
     fetchAnswer := network (Ok (answer 200 "OK" (Ok verdict)));
     executeScript := fun _ => Ok [Some loginPage];
     storageLocalSet := fun _ => Ok tt;
     percent := simplePercent;
     hostname := simpleHostname |}.

(** The classifier answers with status 500. *)
Definition host500 : Host :=
  withFetch hostOk (network (Ok (answer 500 "INTERNAL SERVER ERROR" (Ok JNull)))).

(** The connection to the classifier is refused. *)
Definition hostOffline : Host :=
  withFetch hostOk (network (Throw (Error "Failed to fetch"))).

(** Status 500 and the injection of the script is refused. *)
Definition hostNoAccess : Host :=
  withExecuteScript host500 (fun _ => Throw (Error "Cannot access contents of the page")).

(** Status 500 and the injected script yields nothing. *)
Definition hostNoText : Host :=
  withExecuteScript host500 (fun _ => Ok [None]).

(** Status 500 and the store refuses the write. *)
Definition hostStoreFull : Host :=
  withStorage host500 (fun _ => Throw (Error "QUOTA_BYTES quota exceeded")).

(** The download is refused. *)
Definition hostNoDownload : Host :=
  withDownload hostOk (fun _ _ => Throw (Error "Download canceled by the user")).

Definition tab1 : Tab := {| tabId := 11; windowId := 1; tabUrl := "https://example.com/" |}.

Definition world0 : World :=
  {| settings := {| apiEndpoint := "http://127.0.0.1:5000"; notifications := true |};
     now := 1756100000000%N;
     fetches := 0;
     defaultPrevented := false;
     log := [] |}.

(** The same with notifications switched off. *)
Definition quietWorld : World :=
  {| settings := {| apiEndpoint := "http://127.0.0.1:5000"; notifications := false |};
     now := 1756100000000%N;
     fetches := 0;
     defaultPrevented := false;
     log := [] |}.

Definition image1 : File :=
  {| fileName := "a.png"; mimeType := "image/png"; bytes := "A" |}.

Definition notes : File :=
  {| fileName := "b.txt"; mimeType := "text/plain"; bytes := "B" |}.

Definition clip : File :=
  {| fileName := "c.mp4"; mimeType := "video/mp4"; bytes := "C" |}.

(** An anchor inserted in the page after load. *)
Definition injectedAnchor : Content.Node :=
  Content.ElementNode "A" "https://bit.ly/abc" " Claim your prize " EmptyString EmptyString.

(** The link [analyzeNewContent] builds from it. *)
Definition injectedLink : Content.Link :=
  {| Content.href := "https://bit.ly/abc"; Content.text := "Claim your prize";
     Content.title := EmptyString; Content.target := EmptyString |}.

End Examples.

(* ================================================================== *)
(** * The rest of the browser

    The functions below also touch parts of the browser that the
    [World] leaves out: the settings store shared by the three contexts,
    the badge of the toolbar icon, the context menus, the replies given
    to messages and the tabs opened.  A [Browser] is a world with these
    parts, and [B] is the monad of code that runs in it. *)
(* ================================================================== *)

Module Chrome.

(** [chrome.storage.sync], with the two keys the program uses.  A key is
    absent until something saves it; the values have the types
    [saveSettings] writes. *)
Record SyncStore : Type := {
  storedApiEndpoint : option string;
  storedNotifications : option bool
}.

(** A context-menu entry. *)
Record MenuItem : Type := {
  menuId : string;
  parentId : option string;
  menuTitle : string;
  contexts : list string;
  isSeparator : bool
}.

Record Browser : Type := {
  world : World;
  sync : SyncStore;
  badgeText : string;                   (* chrome.action.setBadgeText *)
  badgeColor : string;                  (* chrome.action.setBadgeBackgroundColor *)
  menus : list MenuItem;                (* chrome.contextMenus *)
  menuErrors : list string;             (* ids whose creation set lastError *)
  replies : list JsValue;               (* sendResponse calls, oldest first *)
  createdTabs : list string             (* chrome.tabs.create *)
}.

(** Further answers of the environment. *)
Record Services : Type := {
  tabsGet : option nat -> Res Tab;      (* chrome.tabs.get(tabId) *)
  syncGetFault : option JsError;        (* storage.sync.get rejects *)
  syncSetFault : Settings -> option JsError; (* storage.sync.set rejects *)
  openPopup : Res unit;                 (* chrome.action.openPopup() *)
  tabsCreate : string -> Res unit;      (* chrome.tabs.create({url}) *)
  anchors : nat -> list string          (* the href of every <a> of a tab's page *)
}.

Definition B (A : Type) : Type := Browser -> Res A * Browser.

Definition retB {A : Type} (a : A) : B A := fun b => (Ok a, b).

Definition bindB {A C : Type} (c : B A) (k : A -> B C) : B C :=
  fun b => match c b with
           | (Ok a, b') => k a b'
           | (Throw e, b') => (Throw e, b')
           end.

Definition tryCatchB {A : Type} (c : B A) (handler : JsError -> B A) : B A :=
  fun b => match c b with
           | (Throw e, b') => handler e b'
           | r => r
           end.

Definition withWorld (b : Browser) (w : World) : Browser :=
  {| world := w; sync := sync b; badgeText := badgeText b; badgeColor := badgeColor b;
     menus := menus b; menuErrors := menuErrors b; replies := replies b;
     createdTabs := createdTabs b |}.

(** Code of the world, run inside the browser. *)
Definition inWorld {A : Type} (c : M A) : B A :=
  fun b => let (r, w) := c (world b) in (r, withWorld b w).

Declare Scope browser_scope.
Delimit Scope browser_scope with B.
Notation "x <- c ;; k" := (bindB c (fun x => k))
  (at level 61, c at next level, right associativity) : browser_scope.
Notation "c ;; k" := (bindB c (fun _ => k))
  (at level 61, right associativity) : browser_scope.

(** [settings = s]: the global of the context is replaced. *)
Definition putSettings (s : Settings) : M unit :=
  fun w => (Ok tt, {| settings := s; now := now w; fetches := fetches w;
                      defaultPrevented := defaultPrevented w; log := log w |}).

(** [sendResponse(v)]. *)
Definition sendResponse (v : JsValue) : B unit :=
  fun b => (Ok tt,
            {| world := world b; sync := sync b; badgeText := badgeText b;
               badgeColor := badgeColor b; menus := menus b;
               menuErrors := menuErrors b; replies := replies b ++ [v];
               createdTabs := createdTabs b |}).

Definition setBadgeText (t : string) : B unit :=
  fun b => (Ok tt,
            {| world := world b; sync := sync b; badgeText := t;
               badgeColor := badgeColor b; menus := menus b;
               menuErrors := menuErrors b; replies := replies b;
               createdTabs := createdTabs b |}).

Definition setBadgeBackgroundColor (c : string) : B unit :=
  fun b => (Ok tt,
            {| world := world b; sync := sync b; badgeText := badgeText b;
               badgeColor := c; menus := menus b;
               menuErrors := menuErrors b; replies := replies b;
               createdTabs := createdTabs b |}).

Definition setMenus (ms : list MenuItem) (errs : list string) (b : Browser) : Browser :=
  {| world := world b; sync := sync b; badgeText := badgeText b;
     badgeColor := badgeColor b; menus := ms; menuErrors := errs;
     replies := replies b; createdTabs := createdTabs b |}.

(** [chrome.contextMenus.removeAll]. *)
Definition menusRemoveAll : B unit :=
  fun b => (Ok tt, setMenus [] (menuErrors b) b).

Definition hasMenu (id : string) (ms : list MenuItem) : bool :=
  existsb (fun m => String.eqb (menuId m) id) ms.

(** [chrome.contextMenus.create(item, callback)]: the entry is added
    unless its id is taken or its parent is missing, in which case
    [lastError] is set for the callback and nothing is added. *)
Definition menusCreate (item : MenuItem) : B unit :=
  fun b =>
    let parentOk := match parentId item with
                    | Some p => hasMenu p (menus b)
                    | None => true
                    end in
    if negb (hasMenu (menuId item) (menus b)) && parentOk
    then (Ok tt, setMenus (menus b ++ [item]) (menuErrors b) b)
    else (Ok tt, setMenus (menus b) (menuErrors b ++ [menuId item]) b).

Section Calls.

Variable svc : Services.

(** [chrome.storage.sync.get([...])]. *)
Definition syncGet : B SyncStore :=
  fun b => match syncGetFault svc with
           | Some e => (Throw e, b)
           | None => (Ok (sync b), b)
           end.

(** [chrome.storage.sync.set(s)] with a whole settings object. *)
Definition syncSet (s : Settings) : B unit :=
  fun b => match syncSetFault svc s with
           | Some e => (Throw e, b)
           | None =>
               (Ok tt,
                {| world := world b;
                   sync := {| storedApiEndpoint := Some (apiEndpoint s);
                              storedNotifications := Some (notifications s) |};
                   badgeText := badgeText b; badgeColor := badgeColor b;
                   menus := menus b; menuErrors := menuErrors b;
                   replies := replies b; createdTabs := createdTabs b |})
           end.

(** [chrome.tabs.create({url})]. *)
Definition chromeTabsCreate (url : string) : B unit :=
  fun b => match tabsCreate svc url with
           | Throw e => (Throw e, b)
           | Ok _ =>
               (Ok tt,
                {| world := world b; sync := sync b; badgeText := badgeText b;
                   badgeColor := badgeColor b; menus := menus b;
                   menuErrors := menuErrors b; replies := replies b;
                   createdTabs := createdTabs b ++ [url] |})
           end.

Definition chromeTabsGet (id : option nat) : B Tab :=
  fun b => (tabsGet svc id, b).

Definition chromeOpenPopup : B unit :=
  fun b => (openPopup svc, b).

End Calls.

End Chrome.

(* ================================================================== *)
(** * background.js: the other functions of the Coordination Agent *)
(* ================================================================== *)

Module Agent.

Import Js Value Background Chrome.

(** ** URL checks *)

Definition suspiciousPatterns : list Regex :=
  map Lit
    [ "bit.ly"; "tinyurl.com"; "goo.gl"; "t.co"; "is.gd"; "cli.gs"; "ow.ly";
      "su.pr"; "twurl.nl"; "snipurl.com"; "short.to"; "BudURL.com"; "ping.fm";
      "tr.im"; "bkite.com"; "snipr.com"; "shortie.io"; "short.io"; "rb.gy";
      "tiny.cc" ].

Definition isSuspiciousURL (url : string) : bool :=
  existsb (fun pattern => test pattern url) suspiciousPatterns
  || includes url "suspicious"
  || includes url "phishing"
  || includes url "scam"
  || includes url "malware".

Definition analyzeLinks (links : list string) : list string :=
  filter
    (fun link =>
       existsb (fun pattern => test pattern link) suspiciousPatterns
       || includes link "suspicious"
       || includes link "phishing"
       || includes link "scam")
    links.

Definition requestKeywords : list string :=
  [ "phishing"; "scam"; "fraud"; "malware"; "virus";
    "suspicious"; "fake"; "spoof"; "malicious" ].

(** The listener of [webRequest.onBeforeRequest] returns what
    [analyzeRequest] returns: [undefined], so no blocking response. *)
Definition analyzeRequest (detailsUrl : string) : M JsValue :=
  let url := toLowerCase detailsUrl in
  let isSuspicious := existsb (fun keyword => includes url keyword) requestKeywords in
  (if isSuspicious
   then showThreatNotification "Suspicious Request Detected"
          ("Blocked request to: " +++ detailsUrl)
   else ret tt) ;;
  ret JUndefined.

(** [showTestNotification]: the settings are not consulted.  (As for
    [showThreatNotification], the pictographs of the titles and of the
    messages are left out, here and in the functions below.) *)
Definition showTestNotification (title msg : string) : M unit :=
  t <- dateNow ;;
  emit (Notify ("test-" +++ showN t) title msg).

(** [showWelcomeNotification], shown when the extension is installed. *)
Definition showWelcomeNotification : M unit :=
  emit (Notify "welcome-notification" "Welcome to Nexus Guard MUFG!"
          "Your security extension is now active and protecting you from threats.").

Section WithHost.

Variable h : Host.
Variable svc : Services.

(** ** Quick-action scans *)

(** [!selectedText || selectedText.trim().length === 0]; the selection
    is [undefined] when the menu was opened without one. *)
Definition noSelection (selectedText : option string) : bool :=
  match selectedText with
  | None => true
  | Some s => String.eqb s EmptyString || (String.length (trim s) =? 0)
  end.

Definition scanSelectedText (selectedText : option string) (tab : Tab) : M unit :=
  match selectedText with
  | Some text =>
      if noSelection selectedText
      then showThreatNotification "No Text Selected" "Please select some text to scan"
      else
        tryCatch
          ((* Show scanning notification *)
           showThreatNotification "Scanning Text" "Analyzing selected text for threats..." ;;
           (* Call API to scan text *)
           result <- scanContent h (JStr text) "text" ;;
           (* Show results notification *)
           prediction <- lift (getProp result "prediction") ;;
           (if strictEqNum prediction 1
            then showThreatNotification "THREAT DETECTED!"
                   ("Phishing/Scam content detected with "
                    +++ percent h (prop result "probability") +++ "% confidence")
            else showThreatNotification "Content Safe"
                   ("Selected text appears safe with "
                    +++ percent h (prop result "probability") +++ "% confidence")) ;;
           (* Store result for potential use *)
           t <- dateNow ;;
           chromeStorageLocalSet h
             [ ("lastScanResult",
                JObj [ ("text", JStr (substring0 100 text +++ "..."));
                       ("result", result);
                       ("timestamp", JNum (inject_Z (Z.of_N t))) ]) ])
          (fun error =>
             showThreatNotification "Scan Error"
               ("Failed to scan text: " +++ message error))
  | None => showThreatNotification "No Text Selected" "Please select some text to scan"
  end.

Definition quickScanText (selectedText : option string) (tab : Tab) : M unit :=
  match selectedText with
  | Some text =>
      if noSelection selectedText
      then showThreatNotification "No Text Selected" "Please select some text to scan"
      else
        tryCatch
          ((* Quick keyword-based scan without API call *)
           let threats := quickKeywordScan text in
           if 0 <? List.length threats
           then showThreatNotification "Suspicious Content"
                  ("Found " +++ showNat (List.length threats)
                   +++ " suspicious patterns: " +++ join ", " threats)
           else showThreatNotification "Quick Scan Complete" "No obvious threats detected")
          (fun error =>
             showThreatNotification "Quick Scan Error"
               ("Failed to perform quick scan: " +++ message error))
  | None => showThreatNotification "No Text Selected" "Please select some text to scan"
  end.

(** The message of [scanPage] when something was found. *)
Definition pageMessage (textThreats suspiciousLinks : nat) : string :=
  let msg := EmptyString in
  let msg := if 0 <? textThreats
             then msg +++ "Found " +++ showNat textThreats +++ " suspicious text patterns. "
             else msg in
  let msg := if 0 <? suspiciousLinks
             then msg +++ "Found " +++ showNat suspiciousLinks +++ " suspicious links."
             else msg in
  msg.

(** [scanPage]: the injected function reads the text of the page (first
    2000 characters) and the [href] of its anchors. *)
Definition scanPage (tab : Tab) : M unit :=
  tryCatch
    (showThreatNotification "Page Scan" "Analyzing page content for threats..." ;;
     (* Extract page content using content script *)
     results <- chromeExecuteScript h (tabId tab) ;;
     match results with
     | Some page :: _ =>
         let text := substring0 2000 (innerText page) in
         let links := anchors svc (tabId tab) in
         (* Quick scan of text content *)
         let textThreats := quickKeywordScan text in
         (* Analyze links *)
         let suspiciousLinks := analyzeLinks links in
         if (0 <? List.length textThreats) || (0 <? List.length suspiciousLinks)
         then showThreatNotification "Threats Detected"
                (pageMessage (List.length textThreats) (List.length suspiciousLinks))
         else showThreatNotification "Page Safe" "No obvious threats detected on this page"
     | _ => ret tt
     end)
    (fun error =>
       showThreatNotification "Page Scan Error"
         ("Failed to scan page: " +++ message error)).

Definition scanLink (linkUrl : string) (tab : Tab) : M unit :=
  tryCatch
    (showThreatNotification "Link Scan" "Analyzing link for threats..." ;;
     (* Check if link is suspicious *)
     let isSuspicious := isSuspiciousURL linkUrl in
     if isSuspicious
     then showThreatNotification "Suspicious Link"
            "This link appears suspicious and may be dangerous"
     else showThreatNotification "Link Safe" "This link appears safe to visit")
    (fun error =>
       showThreatNotification "Link Scan Error"
         ("Failed to scan link: " +++ message error)).

Definition scanImage (imageUrl : string) (tab : Tab) : M unit :=
  tryCatch
    (showThreatNotification "Image Scan" "Analyzing image for threats..." ;;
     (* For now, just check if image URL is suspicious *)
     let isSuspicious := isSuspiciousURL imageUrl in
     if isSuspicious
     then showThreatNotification "Suspicious Image" "This image URL appears suspicious"
     else showThreatNotification "Image Safe" "This image appears safe")
    (fun error =>
       showThreatNotification "Image Scan Error"
         ("Failed to scan image: " +++ message error)).

(** ** Settings *)

Definition defaultEndpoint : string := "http://127.0.0.1:5000".

(** [result.apiEndpoint || 'http://127.0.0.1:5000'] and
    [result.notifications !== false]. *)
Definition settingsFrom (result : SyncStore) : Settings :=
  {| apiEndpoint := match storedApiEndpoint result with
                    | Some (String c rest) => String c rest
                    | _ => defaultEndpoint
                    end;
     notifications := match storedNotifications result with
                      | Some false => false
                      | _ => true
                      end |}.

Definition loadSettings : B unit :=
  tryCatchB
    (result <- syncGet svc ;;
     inWorld (putSettings (settingsFrom result)))%B
    (fun error => retB tt).

(** The [changes] of a [storage.onChanged] event: for each key, the
    new value when the key changed. *)
Record Changes : Type := {
  apiEndpointChange : option string;
  notificationsChange : option bool
}.

Definition handleSettingsChange (changes : Changes) : M unit :=
  (match apiEndpointChange changes with
   | Some newValue =>
       s <- getSettings ;;
       putSettings {| apiEndpoint := newValue; notifications := notifications s |}
   | None => ret tt
   end) ;;
  match notificationsChange changes with
  | Some newValue =>
      s <- getSettings ;;
      putSettings {| apiEndpoint := apiEndpoint s; notifications := newValue |}
  | None => ret tt
  end.

(** The listener of [chrome.storage.onChanged]. *)
Definition onStorageChanged (changes : Changes) (namespace : string) : M unit :=
  if String.eqb namespace "sync" then handleSettingsChange changes else ret tt.

(** ** Health check *)

Definition updateExtensionIcon (status : string) : B unit :=
  (setBadgeText (if String.eqb status "active" then EmptyString else "!") ;;
   setBadgeBackgroundColor (if String.eqb status "error" then "#ef4444" else "#f59e0b"))%B.

Definition probeRequest (s : Settings) : Request :=
  {| url := apiEndpoint s +++ "/predict-text";
     method := "POST";
     headers := [("Content-Type", "application/json")];
     body := JsonBody (JObj [("text", JStr "test")]) |}.

Definition statusReport (status : string) (t : N) : JsValue :=
  JObj [ ("status", JStr status); ("timestamp", JNum (inject_Z (Z.of_N t))) ].

Definition checkAPIStatus : B JsValue :=
  tryCatchB
    (response <- inWorld (s <- getSettings ;; fetch h (probeRequest s))%js ;;
     if ok response then
       updateExtensionIcon "active" ;;
       t <- inWorld dateNow ;;
       retB (statusReport "connected" t)
     else
       updateExtensionIcon "error" ;;
       t <- inWorld dateNow ;;
       retB (statusReport "error" t))%B
    (fun error =>
       (updateExtensionIcon "error" ;;
        t <- inWorld dateNow ;;
        retB (statusReport "disconnected" t))%B).

(** ** Context menus *)

Definition item (id : string) (parent : option string) (title : string)
  (ctx : list string) : MenuItem :=
  {| menuId := id; parentId := parent; menuTitle := title; contexts := ctx;
     isSeparator := false |}.

Definition separatorItem (id : string) (parent : option string) (ctx : list string)
  : MenuItem :=
  {| menuId := id; parentId := parent; menuTitle := EmptyString; contexts := ctx;
     isSeparator := true |}.

Definition createContextMenus : B unit :=
  tryCatchB
    ((* Remove existing menus first *)
     menusRemoveAll ;;
     (* Create parent context menu for text selection *)
     menusCreate (item "nexus-guard-parent" None "Nexus Guard MUFG" ["selection"]) ;;
     (* Create scan text context menu *)
     menusCreate (item "scan-selected-text" (Some "nexus-guard-parent")
                    "Scan for Threats" ["selection"]) ;;
     (* Create quick scan context menu *)
     menusCreate (item "quick-scan" (Some "nexus-guard-parent") "Quick Scan"
                    ["selection"]) ;;
     (* Create separator *)
     menusCreate (separatorItem "separator-1" (Some "nexus-guard-parent") ["selection"]) ;;
     (* Create open extension context menu *)
     menusCreate (item "open-extension" (Some "nexus-guard-parent") "Open Extension"
                    ["selection"]) ;;
     (* Create general context menu (always visible) *)
     menusCreate (item "nexus-guard-general" None "Nexus Guard MUFG"
                    ["page"; "link"; "image"]) ;;
     (* Create general scan options *)
     menusCreate (item "scan-page" (Some "nexus-guard-general") "Scan This Page"
                    ["page"]) ;;
     menusCreate (item "scan-link" (Some "nexus-guard-general") "Scan This Link"
                    ["link"]) ;;
     menusCreate (item "scan-image" (Some "nexus-guard-general") "Scan This Image"
                    ["image"]) ;;
     (* Create separator for general menu *)
     menusCreate (separatorItem "separator-2" (Some "nexus-guard-general")
                    ["page"; "link"; "image"]) ;;
     (* Create open extension option for general menu *)
     menusCreate (item "open-extension-general" (Some "nexus-guard-general")
                    "Open Extension" ["page"; "link"; "image"]) ;;
     (* Create a simple test menu that should always work *)
     menusCreate (item "test-menu" None "Test Nexus Guard" ["all"]) ;;
     (* Create an even simpler test menu *)
     menusCreate (item "simple-test" None "Simple Test" ["page"]) ;;
     (* Create screenshot analysis menu *)
     menusCreate (item "screenshot-analyze" None "Take Screenshot & Analyze" ["page"]))%B
    (fun error => retB tt).

(** [openExtension]: the popup, or a tab when the popup cannot open.
    [chrome.runtime.getURL('popup.html')] is written as the path. *)
Definition openExtension (tab : Tab) : B unit :=
  tryCatchB (chromeOpenPopup svc)
    (fun error => chromeTabsCreate svc "popup.html").

(** What a click on a context-menu entry carries. *)
Record ClickInfo : Type := {
  menuItemId : string;
  selectionText : option string;
  linkUrl : string;
  srcUrl : string
}.

Definition handleContextMenuClick (info : ClickInfo) (tab : Tab) : B unit :=
  tryCatchB
    (let id := menuItemId info in
     if String.eqb id "scan-selected-text"
     then inWorld (scanSelectedText (selectionText info) tab)
     else if String.eqb id "quick-scan"
     then inWorld (quickScanText (selectionText info) tab)
     else if String.eqb id "open-extension" || String.eqb id "open-extension-general"
     then openExtension tab
     else if String.eqb id "scan-page"
     then inWorld (scanPage tab)
     else if String.eqb id "scan-link"
     then inWorld (scanLink (linkUrl info) tab)
     else if String.eqb id "scan-image"
     then inWorld (scanImage (srcUrl info) tab)
     else if String.eqb id "test-menu"
     then inWorld (showTestNotification "Test Menu" "Context menu is working!")
     else if String.eqb id "simple-test"
     then inWorld (showTestNotification "Simple Test" "Basic context menu is working!")
     else if String.eqb id "screenshot-analyze"
     then inWorld (_ <- takeScreenshotAndAnalyze h tab ;; ret tt)%js
     else retB tt)
    (fun error => retB tt).

(** [handleNotificationClick]: a threat notification opens the panel
    page in a tab.  The call of [tabs.create] is not awaited, so a
    rejection of it does not reach the handler. *)
Definition handleNotificationClick (notificationId : string) : B unit :=
  if includes notificationId "threat"
  then tryCatchB (chromeTabsCreate svc "popup.html") (fun error => retB tt)
  else retB tt.

(** ** Messages *)

(** A message to the Agent: the [action] and the fields the actions
    read. *)
Record Message : Type := {
  action : string;
  newSettings : Changes;                (* request.settings *)
  content : JsValue;                    (* request.content *)
  contentType : string;                 (* request.type *)
  messageTab : option nat               (* request.tabId *)
}.

Definition settingsValue (s : Settings) : JsValue :=
  JObj [ ("apiEndpoint", JStr (apiEndpoint s));
         ("notifications", JBool (notifications s)) ].

Definition failure (error : JsError) : JsValue :=
  JObj [ ("success", JBool false); ("error", JStr (message error)) ].

(** [{ ...settings, ...request.settings }]. *)
Definition mergeSettings (s : Settings) (patch : Changes) : Settings :=
  {| apiEndpoint := match apiEndpointChange patch with
                    | Some e => e
                    | None => apiEndpoint s
                    end;
     notifications := match notificationsChange patch with
                      | Some n => n
                      | None => notifications s
                      end |}.

Definition handleMessage (request : Message) : B unit :=
  tryCatchB
    (let a := action request in
     if String.eqb a "getSettings" then
       s <- inWorld getSettings ;;
       sendResponse (JObj [ ("success", JBool true); ("settings", settingsValue s) ])
     else if String.eqb a "updateSettings" then
       s <- inWorld getSettings ;;
       inWorld (putSettings (mergeSettings s (newSettings request))) ;;
       s' <- inWorld getSettings ;;
       syncSet svc s' ;;
       sendResponse (JObj [ ("success", JBool true) ])
     else if String.eqb a "scanContent" then
       result <- inWorld (scanContent h (content request) (contentType request)) ;;
       sendResponse (JObj [ ("success", JBool true); ("result", result) ])
     else if String.eqb a "checkAPIStatus" then
       status <- checkAPIStatus ;;
       sendResponse (JObj [ ("success", JBool true); ("status", status) ])
     else if String.eqb a "debugContextMenus" then
       createContextMenus ;;
       sendResponse (JObj [ ("success", JBool true);
                            ("message", JStr "Context menus recreated") ])
     else if String.eqb a "takeScreenshot" then
       tryCatchB
         (tab <- chromeTabsGet svc (messageTab request) ;;
          result <- inWorld (takeScreenshotAndAnalyze h tab) ;;
          sendResponse (JObj [ ("success", JBool true);
                               ("message", JStr "Screenshot taken and analyzed");
                               ("result", result) ]))
         (fun error => sendResponse (failure error))
     else
       sendResponse (JObj [ ("success", JBool false); ("error", JStr "Unknown action") ]))%B
    (fun error => sendResponse (failure error)).

End WithHost.

End Agent.

(* ================================================================== *)
(** * content.js: the other functions of the Page Observer *)
(* ================================================================== *)

(** A form control as [extractForms] reads it. *)
Module Input.

Record t : Type := {
  type : string;
  name : string;
  placeholder : string;
  required : bool
}.

End Input.

Module Observer.

Import Js Value Content.

(** ** Extraction *)

(** An element of the selector of [extractTextContent]:
    [offsetParent !== null] and [textContent]. *)
Record TextElement : Type := {
  hasOffsetParent : bool;
  textContent : string
}.

Record Anchor : Type := {
  anchorHref : string;
  anchorText : string;
  anchorTitle : string;
  anchorTarget : string
}.

Record Form : Type := {
  action : string;
  method : string;
  inputs : list Input.t
}.

Record Image : Type := {
  imageSrc : string;
  alt : string;
  imageTitle : string
}.

Record Script : Type := {
  src : string;
  scriptType : string;
  content : string
}.

(** What the extractors read in the document. *)
Record Document : Type := {
  locationHref : string;
  documentTitle : string;
  textElements : list TextElement;    (* p, h1..h6, div, span, li, td, th *)
  anchorElements : list Anchor;       (* a[href] *)
  formElements : list Form;
  imageElements : list Image;
  scriptElements : list Script
}.

Definition extractTextContent (d : Document) : string :=
  let text := EmptyString in
  let text :=
    forEach (textElements d)
      (fun text element =>
         if hasOffsetParent element
            && negb (String.eqb (trim (textContent element)) EmptyString)
         then text +++ trim (textContent element) +++ " "
         else text)
      text in
  substring0 5000 text. (* Limit text length *)

Definition extractLinks (d : Document) : list Link :=
  map (fun link => {| href := anchorHref link;
                      text := trim (anchorText link);
                      title := anchorTitle link;
                      target := anchorTarget link |})
    (anchorElements d).

Definition extractForms (d : Document) : list Form := formElements d.

Definition extractImages (d : Document) : list Image := imageElements d.

Definition extractScripts (d : Document) : list Script :=
  map (fun script => {| src := src script;
                        scriptType := scriptType script;
                        content := substring0 200 (content script) |})
    (scriptElements d).

(** ** Forms *)

Record FormThreat : Type := {
  formThreatType : ThreatType;
  formSeverity : Severity;
  formDescription : string;
  formLocation : string;
  formElement : Form
}.

Definition formActionPatterns : list Regex :=
  map Lit [ "phishing"; "scam"; "fraud"; "malware"; "suspicious" ].

Definition isSuspiciousFormAction (action : string) : bool :=
  existsb (fun pattern => test pattern action) formActionPatterns.

Definition isSensitiveInput (input : Input.t) : bool :=
  String.eqb (Input.type input) "password"
  || includes (toLowerCase (Input.name input)) "password"
  || includes (toLowerCase (Input.name input)) "credit"
  || includes (toLowerCase (Input.name input)) "ssn"
  || includes (toLowerCase (Input.name input)) "social".

Definition analyzeFormThreats (forms : list Form) : list FormThreat :=
  forEach forms
    (fun threats form =>
       (* Check for suspicious form actions *)
       let threats :=
         if isSuspiciousFormAction (action form)
         then push threats
                {| formThreatType := suspicious_form;
                   formSeverity := high;
                   formDescription := "Suspicious form action: " +++ action form;
                   formLocation := "form";
                   formElement := form |}
         else threats in
       (* Check for sensitive input fields *)
       let sensitiveInputs := filter isSensitiveInput (inputs form) in
       if 0 <? List.length sensitiveInputs
       then push threats
              {| formThreatType := sensitive_inputs;
                 formSeverity := medium;
                 formDescription :=
                   "Form contains sensitive input fields: "
                   +++ join ", " (map Input.name sensitiveInputs);
                 formLocation := "form";
                 formElement := form |}
       else threats)
    [].

(** ** The page analysis *)

(** An entry of [analysis.threats]: from the text or a link, or from a
    form. *)
Inductive PageThreat : Type :=
| Plain (threat : Threat)
| InForm (threat : FormThreat).

Record Analysis : Type := {
  url : string;
  pageTitle : string;
  pageText : string;
  links : list Link;
  forms : list Form;
  images : list Image;
  scripts : list Script;
  threats : list PageThreat
}.

Section WithHost.

Variable h : Host.

Definition analyzePageContent (d : Document) : M Analysis :=
  let text := extractTextContent d in
  let links := extractLinks d in
  let forms := extractForms d in
  let threats := [] in
  (* Analyze text content for threats *)
  let threats :=
    if negb (String.eqb text EmptyString)
    then threats ++ map Plain (analyzeTextThreats text)
    else threats in
  (* Analyze links for threats *)
  linkThreats <- analyzeLinkThreats h links ;;
  let threats := threats ++ map Plain linkThreats in
  (* Analyze forms for threats *)
  let formThreats := analyzeFormThreats forms in
  let threats := threats ++ map InForm formThreats in
  ret {| url := locationHref d;
         pageTitle := documentTitle d;
         pageText := text;
         links := links;
         forms := forms;
         images := extractImages d;
         scripts := extractScripts d;
         threats := threats |}.

End WithHost.

(** ** Text typed into the page *)

Definition inputPatterns : list Regex :=
  map Lit [ "javascript:"; "data:text/html"; "vbscript:"; "onload"; "onerror"; "onclick" ].

(** [pattern.test(value)] reads an absent [value] as the string
    [undefined]. *)
Definition isSuspiciousInput (value : option string) : bool :=
  let s := match value with Some v => v | None => "undefined" end in
  existsb (fun pattern => test pattern s) inputPatterns.

(** An [input] event, with the [value] of its target when it has one. *)
Definition analyzeTextInput (value : option string) : M unit :=
  if isSuspiciousInput value then showWarning "Suspicious input detected" else ret tt.

End Observer.

(* ================================================================== *)
(** * popup.js: the other functions of the Interaction Panel *)
(* ================================================================== *)

Module Panel.

Import Js Value Popup Chrome.

(** The further answers of the environment of the Panel. *)
Record PanelServices : Type := {
  activeTab : Res (option Tab);         (* chrome.tabs.query({active, currentWindow}) *)
  sendMessage : nat -> Res JsValue      (* runtime.sendMessage({takeScreenshot, tabId}) *)
}.

Definition displayError (msg : string) : M unit :=
  updateResultStatus "Error occurred" "error".


(** [result.threats && result.threats.length > 0], for [threats] that
    is an array or a string, or has no numeric [length]. *)
Definition hasThreats (result : JsValue) : bool :=
  match prop result "threats" with
  | JArr (_ :: _) => true
  | JStr (String _ _) => true
  | JObj props => match lookup "length" props with
                  | JNum q => negb (Qle_bool q 0)
                  | _ => false
                  end
  | _ => false
  end.

Section WithHost.

Variable h : Host.
Variable svc : Services.
Variable panel : PanelServices.


(** ** Settings *)

Definition loadSettings : B unit :=
  tryCatchB
    (result <- syncGet svc ;;
     inWorld (putSettings (Agent.settingsFrom result)))%B
    (fun error => retB tt).

(** [saveSettings], with the two values read in the form. *)
Definition saveSettings (endpointInput : string) (notificationsChecked : bool) : B unit :=
  (let apiEndpoint := trim endpointInput in
   let notifications := notificationsChecked in
   inWorld (putSettings {| apiEndpoint := apiEndpoint;
                           notifications := notifications |}) ;;
   tryCatchB
     (s <- inWorld getSettings ;;
      syncSet svc s ;;
      inWorld (showNotification "Settings saved successfully!" "success"))
     (fun error =>
        inWorld (showNotification ("Error saving settings: " +++ message error) "error")))%B.

(** ** Screenshots *)

(** The status part of [showScreenshotResult]; the list of threats is
    joined for the details when there is one. *)
Definition showScreenshotResult (result : JsValue) : M unit :=
  if hasThreats result then
    updateResultStatus "Threats Detected" "threat" ;;
    match prop result "threats" with
    | JArr _ => ret tt
    | _ => throw (Error "result.threats.join is not a function")
    end
  else
    updateResultStatus "Screenshot Safe" "safe".

(** [response?.error || 'Failed to take screenshot'], for the string
    errors the Agent sends. *)
Definition responseError (response : JsValue) : string :=
  match prop response "error" with
  | JStr (String c rest) => String c rest
  | _ => "Failed to take screenshot"
  end.

Definition takeScreenshot : M unit :=
  tryCatch
    (showNotification "Taking screenshot and analyzing..." "info" ;;
     (* Get current active tab *)
     found <- lift (activeTab panel) ;;
     tab <- match found with
            | Some tab => ret tab
            | None => throw (Error "No active tab found")
            end ;;
     (* Send message to background script to take screenshot *)
     response <- lift (sendMessage panel (tabId tab)) ;;
     if truthy response && truthy (prop response "success") then
       showNotification "Screenshot captured and analyzed!" "success" ;;
       (* Handle case where result might be undefined *)
       let result :=
         if truthy (prop response "result") then prop response "result"
         else JObj [ ("threats", JArr []); ("confidence", JNum 0) ] in
       showScreenshotResult result
     else
       throw (Error (responseError response)))
    (fun error =>
       showNotification ("Screenshot failed: " +++ message error) "error").

End WithHost.

End Panel.

(* ================================================================== *)
(** * content.js: the messages to the Page Observer *)
(* ================================================================== *)

Module PageScript.

Import Js Value Observer.

(** What the Observer hands to [sendResponse]. *)
Inductive Reply : Type :=
| Analysed (analysis : Analysis)        (* { success: true, analysis } *)
| Extracted (content : JsValue)         (* { success: true, content } *)
| ScannedElement (result : JsValue)     (* { success: true, result } *)
| Failure (error : string).             (* { success: false, error } *)

(** The context of the content script: its world and the calls of
    [sendResponse] made so far, oldest first. *)
Record Context : Type := {
  page : World;
  sent : list Reply
}.

Definition P (A : Type) : Type := Context -> Res A * Context.

Definition retP {A : Type} (a : A) : P A := fun c => (Ok a, c).

Definition bindP {A C : Type} (m : P A) (k : A -> P C) : P C :=
  fun c => match m c with
           | (Ok a, c') => k a c'
           | (Throw e, c') => (Throw e, c')
           end.

Definition throwP {A : Type} (e : JsError) : P A := fun c => (Throw e, c).

Definition tryCatchP {A : Type} (m : P A) (handler : JsError -> P A) : P A :=
  fun c => match m c with
           | (Throw e, c') => handler e c'
           | r => r
           end.

(** Code of the world, run in the context. *)
Definition inPage {A : Type} (m : M A) : P A :=
  fun c => let (r, w) := m (page c) in (r, {| page := w; sent := sent c |}).

Definition sendResponse (reply : Reply) : P unit :=
  fun c => (Ok tt, {| page := page c; sent := sent c ++ [reply] |}).

(** A message to the Observer. *)
Record Request : Type := {
  action : string;
  element : JsValue
}.

Section WithPage.

Variable h : Host.
Variable d : Document.

(** [scanElement], on the element a message carries. *)
Variable scanElement : JsValue -> M JsValue.

(** [handleMessage].  The class has no method [extractPageContent], so
    the call of it throws a [TypeError]. *)
Definition handleMessage (request : Request) : P unit :=
  tryCatchP
    (let a := action request in
     if String.eqb a "analyzePage" then
       bindP (inPage (analyzePageContent h d))
         (fun analysis => sendResponse (Analysed analysis))
     else if String.eqb a "extractContent" then
       bindP (throwP (Error "this.extractPageContent is not a function"))
         (fun content => sendResponse (Extracted content))
     else if String.eqb a "scanElement" then
       bindP (inPage (scanElement (element request)))
         (fun result => sendResponse (ScannedElement result))
     else
       sendResponse (Failure "Unknown action"))
    (fun error => sendResponse (Failure (message error))).

(** A message that arrives once the script has started: the listener
    added at the end of the file and the one added by
    [setupEventListeners] both hand it to [handleMessage]. *)
Definition onMessage (request : Request) : P unit :=
  bindP (handleMessage request) (fun _ => handleMessage request).

End WithPage.

End PageScript.

(** Readings of the runs of the Agent and of the Panel. *)
Module Frames.

Import Chrome.

(** A system notification. *)
Definition isNotify (e : Event) : bool :=
  match e with
  | Notify _ _ _ => true
  | _ => false
  end.

(** The system notifications of a log, oldest first. *)
Definition notified (l : list Event) : list Event := filter isNotify l.

(** [w'] is a later world of the same context in which the settings
    and the clock are those of [w] and, when notifications are switched
    off, no system notification was added. *)
Definition Steady (w w' : World) : Prop :=
  settings w' = settings w
  /\ now w' = now w
  /\ (notifications (settings w) = false -> notified (log w') = notified (log w)).

(** Code that keeps the world steady, from every world. *)
Definition Keeps {A : Type} (c : M A) : Prop :=
  forall w, Steady w (snd (c w)).

(** A call that leaves the Agent: to the network, the cache, the
    downloads or the capture of the tab. *)
Definition isCall (e : Event) : bool :=
  match e with
  | Fetch _ | StorageLocalSet _ | Download _ _ | Capture _ => true
  | _ => false
  end.

(** A run from [w] that returned, made no request and no such call. *)
Definition Local (w : World) (run : Res unit * World) : Prop :=
  fst run = Ok tt
  /\ fetches (snd run) = fetches w
  /\ filter isCall (log (snd run)) = filter isCall (log w).

(** Code of the browser that leaves the replies alone. *)
Definition KeepsReplies {A : Type} (c : B A) : Prop :=
  forall b, replies (snd (c b)) = replies b.

End Frames.

(** Readings of the entries of a batch, for [displayFileResults]. *)
Module Verdicts.

Import Value.

(** The entry holds a result the classifier marked as a threat. *)
Definition threatEntry (entry : FileEntry) : bool :=
  match entry with
  | Scanned _ result => strictEqNum (prop result "prediction") 1
  | Failed _ _ => false
  end.

(** The entry holds a result the classifier marked as spoofed. *)
Definition spoofedEntry (entry : FileEntry) : bool :=
  match entry with
  | Scanned _ result => strictEqStr (prop result "is_spoofed") "spoofed"
  | Failed _ _ => false
  end.

(** The rendering can read the entry: an error with a message, or a
    result that is neither [null] nor [undefined]. *)
Definition readable (entry : FileEntry) : bool :=
  match entry with
  | Scanned _ JUndefined | Scanned _ JNull => false
  | Scanned _ _ => true
  | Failed _ EmptyString => false
  | Failed _ _ => true
  end.

(** The overall status of a batch and its kind. *)
Definition overall (results : list FileEntry) : string * string :=
  if existsb spoofedEntry results then ("SPOOFED CONTENT DETECTED!", "spoofed")
  else if existsb threatEntry results then ("THREATS DETECTED!", "threat")
  else ("All files appear safe", "safe").

(** The notice that goes with the overall status, and its kind. *)
Definition overallNotice (results : list FileEntry) : string * string :=
  if existsb spoofedEntry results then ("Deepfake/Spoofed content detected!", "warning")
  else if existsb threatEntry results then ("Threat content detected!", "warning")
  else ("All files appear safe", "success").

(** The entry holds the message of a scan that threw. *)
Definition failedEntry (entry : FileEntry) : bool :=
  match entry with
  | Failed _ (String _ _) => true
  | _ => false
  end.

(** No call to the classifier succeeds: each one fails with a message
    or is answered with a status outside 200-299. *)
Definition unreachable (h : Host) : Prop :=
  forall n req,
    match fetchAnswer h n req with
    | Throw e => message e <> EmptyString
    | Ok response => ok response = false
    end.

(** What the Panel's [showNotification] adds to the log in world [w]. *)
Definition panelNotice (w : World) (msg kind : string) : list Event :=
  if notifications (settings w) then [PanelNotice msg kind] else [].

End Verdicts.

(** What the Agent stores and notifies, for the statements about its
    runs. *)
Module Reports.

Import Js Value Background Results Chrome.





(** The status word of the health check for an answer to its probe. *)
Definition probeStatus (a : Res Response) : string :=
  match a with
  | Ok response => if ok response then "connected" else "error"
  | Throw _ => "disconnected"
  end.

(** The actions [handleMessage] knows. *)
Definition knownActions : list string :=
  [ "getSettings"; "updateSettings"; "scanContent"; "checkAPIStatus";
    "debugContextMenus"; "takeScreenshot" ].

(** A message replied to once: the code returned after one
    [sendResponse], or threw before any. *)
Definition RepliesOnce (c : B unit) : Prop :=
  forall b,
    (fst (c b) = Ok tt /\ exists reply, replies (snd (c b)) = replies b ++ [reply])
    \/ (exists e, fst (c b) = Throw e /\ replies (snd (c b)) = replies b).

(** The character [c] does not occur in [s]. *)
Fixpoint lacks (c : ascii) (s : string) : bool :=
  match s with
  | EmptyString => true
  | String a s' => negb (Ascii.eqb a c) && lacks c s'
  end.

(** The ids of the menu entries a click on which does something. *)
Definition menuActions : list string :=
  [ "scan-selected-text"; "quick-scan"; "open-extension"; "open-extension-general";
    "scan-page"; "scan-link"; "scan-image"; "test-menu"; "simple-test";
    "screenshot-analyze" ].

End Reports.

(** Further inputs for the examples. *)
Module MoreExamples.

Import Chrome.

(** A URL parser that, as the browser's, refuses a space in the
    host. *)
Definition hostStrict : Host :=
  {| captureVisibleTab := captureVisibleTab Examples.hostOk;
     download := download Examples.hostOk;
     fetchAnswer := fetchAnswer Examples.hostOk;
     executeScript := executeScript Examples.hostOk;
     storageLocalSet := storageLocalSet Examples.hostOk;
     percent := percent Examples.hostOk;
     hostname := fun href => if Js.includes href " "
                             then Throw (Error "Invalid URL")
                             else Examples.simpleHostname href |}.

(** A page that presses the reader, with an anchor that does not
    parse. *)
Definition urgentPage : Observer.Document :=
  {| Observer.locationHref := "https://example.com/offer";
     Observer.documentTitle := "Offer";
     Observer.textElements :=
       [ {| Observer.hasOffsetParent := true;
            Observer.textContent := " Act now! Verify now, your password expires. " |} ];
     Observer.anchorElements :=
       [ {| Observer.anchorHref := "https://bit.ly/abc"; Observer.anchorText := "here";
            Observer.anchorTitle := EmptyString; Observer.anchorTarget := EmptyString |};
         {| Observer.anchorHref := "http://exa mple.com/"; Observer.anchorText := "top";
            Observer.anchorTitle := EmptyString; Observer.anchorTarget := EmptyString |} ];
     Observer.formElements := [];
     Observer.imageElements := [];
     Observer.scriptElements := [] |}.

(** The classifier answers and the cache refuses every write. *)
Definition hostCacheFull : Host :=
  Results.withStorage Examples.hostOk
    (fun _ => Throw (Error "QUOTA_BYTES quota exceeded")).

(** No call goes through. *)
Definition hostDown : Host :=
  Results.withFetch Examples.hostOk (fun _ _ => Throw (Error "Failed to fetch")).

(** Browser services that answer every call. *)
Definition services : Services :=
  {| tabsGet := fun id => match id with
                          | Some _ => Ok Examples.tab1
                          | None => Throw (Error "No tab with id: undefined.")
                          end;
     syncGetFault := None;
     syncSetFault := fun _ => None;
     openPopup := Ok tt;
     tabsCreate := fun _ => Ok tt;
     anchors := fun _ => ["https://example.com/"; "https://bit.ly/abc"] |}.

(** A browser around a world: nothing stored, no badge, no menu. *)
Definition browserOf (w : World) : Browser :=
  {| world := w;
     sync := {| storedApiEndpoint := None; storedNotifications := None |};
     badgeText := EmptyString;
     badgeColor := EmptyString;
     menus := [];
     menuErrors := [];
     replies := [];
     createdTabs := [] |}.

Definition browser0 : Browser := browserOf Examples.world0.

Definition quietBrowser : Browser := browserOf Examples.quietWorld.

(** A message that carries a base64 image. *)
Definition message (action type : string) : Agent.Message :=
  {| Agent.action := action;
     Agent.newSettings := {| Agent.apiEndpointChange := None;
                             Agent.notificationsChange := None |};
     Agent.content := JStr "iVBORw0KGgo=";
     Agent.contentType := type;
     Agent.messageTab := Some 11 |}.

(** The Panel's side when the download of the screenshot was refused:
    the active tab is found and the reply of the Agent is its failure. *)
Definition panelServices : Panel.PanelServices :=
  {| Panel.activeTab := Ok (Some Examples.tab1);
     Panel.sendMessage :=
       fun _ => Ok (Agent.failure (Error "Download canceled by the user")) |}.

End MoreExamples.

(* ================================================================== *)
(** * Loops in the monad *)
(* ================================================================== *)

Module MonadFacts.

(** A loop whose body leaves the world alone leaves the world alone,
    whether it ends or throws. *)
Lemma forOf_same_world {A B : Type} (body : B -> A -> M B) (l : list A) :
  (forall acc x w, snd (body acc x w) = w) ->
  forall acc w, snd (forOf l acc body w) = w.
Proof.
  intros Hbody. induction l as [|x l IH]; intros acc w; simpl.
  - reflexivity.
  - unfold bind. specialize (Hbody acc x w).
    destruct (body acc x w) as [[acc'|e] w1]; simpl in Hbody; subst w1.
    + apply IH.
    + reflexivity.
Qed.

End MonadFacts.

(* ================================================================== *)
(** * Properties of the Page Observer *)
(* ================================================================== *)

Module ContentFacts.

Import Js Value Content Findings MonadFacts.

(** ** Loops that push *)

Lemma forEach_push_filter {A B : Type} (p : A -> bool) (f : A -> B) (l : list A) :
  forall acc,
    forEach l (fun acc x => if p x then push acc (f x) else acc) acc
    = acc ++ map f (filter p l).
Proof.
  unfold forEach, push.
  induction l as [|x l IH]; intros acc; simpl.
  - now rewrite app_nil_r.
  - rewrite IH. destruct (p x); simpl.
    + now rewrite <- app_assoc.
    + reflexivity.
Qed.

Lemma filter_map_all {A B : Type} (p : B -> bool) (f : A -> B) (l : list A) :
  (forall x, p (f x) = true) -> filter p (map f l) = map f l.
Proof.
  intros Hp. induction l as [|x l IH]; simpl; [reflexivity|].
  now rewrite Hp, IH.
Qed.

Lemma filter_map_none {A B : Type} (p : B -> bool) (f : A -> B) (l : list A) :
  (forall x, p (f x) = false) -> filter p (map f l) = [].
Proof.
  intros Hp. induction l as [|x l IH]; simpl; [reflexivity|].
  now rewrite Hp, IH.
Qed.

(** ** The text detector, in closed form *)

(** The urgency loop adds one finding for each family with more than
    two matches. *)
Lemma urgency_loop (text : string) (patterns : list Regex) :
  forall acc,
    forEach patterns
      (fun threats pattern =>
         match matchG text pattern with
         | Some matches =>
             if 2 <? List.length matches then push threats urgencyThreat else threats
         | None => threats
         end)
      acc
    = acc ++ map (fun _ => urgencyThreat)
               (filter (fun p => 2 <? matchCount text p) patterns).
Proof.
  unfold forEach, push, matchCount.
  induction patterns as [|p patterns IH]; intros acc; cbn [fold_left filter map].
  - now rewrite app_nil_r.
  - rewrite IH. destruct (matchG text p) as [matches|].
    + destruct (2 <? List.length matches); cbn [map].
      * now rewrite <- app_assoc.
      * reflexivity.
    + reflexivity.
Qed.

(** The keyword loop yields the entries present in the text, the
    urgency loop one finding for each family over the threshold. *)
Lemma analyzeTextThreats_closed (text : string) :
  analyzeTextThreats text
  = map keywordThreat
      (filter (fun k => includes (toLowerCase text) (toLowerCase k)) suspiciousKeywords)
    ++ map (fun _ => urgencyThreat)
         (filter (fun p => 2 <? matchCount text p) urgencyPatterns).
Proof.
  unfold analyzeTextThreats.
  rewrite urgency_loop.
  rewrite (forEach_push_filter
             (fun k => includes (toLowerCase text) (toLowerCase k)) keywordThreat).
  reflexivity.
Qed.

Lemma keywordFindings_closed (text : string) :
  keywordFindings text
  = map keywordThreat
      (filter (fun k => includes (toLowerCase text) (toLowerCase k)) suspiciousKeywords).
Proof.
  unfold keywordFindings. rewrite analyzeTextThreats_closed, filter_app.
  rewrite filter_map_all by reflexivity.
  rewrite filter_map_none by reflexivity.
  apply app_nil_r.
Qed.

Lemma urgencyFindings_closed (text : string) :
  urgencyFindings text
  = map (fun _ => urgencyThreat)
      (filter (fun p => 2 <? matchCount text p) urgencyPatterns).
Proof.
  unfold urgencyFindings. rewrite analyzeTextThreats_closed, filter_app.
  rewrite filter_map_none by reflexivity.
  rewrite filter_map_all by reflexivity.
  reflexivity.
Qed.

(** ** The keyword detector *)

Lemma existsb_eqb_filter (p : string -> bool) (k : string) (l : list string) :
  In k l -> existsb (String.eqb k) (filter p l) = p k.
Proof.
  intros Hin. destruct (p k) eqn:Hp.
  - apply existsb_exists. exists k. split.
    + apply filter_In. now split.
    + apply String.eqb_refl.
  - destruct (existsb (String.eqb k) (filter p l)) eqn:Hex; [|reflexivity].
    apply existsb_exists in Hex. destruct Hex as [x [Hx Heq]].
    apply String.eqb_eq in Heq. subst x.
    apply filter_In in Hx. destruct Hx as [_ Hx]. congruence.
Qed.

(** An entry is found by [includes] exactly when it has an occurrence. *)
Lemma includes_occurrence (vocabulary : list string) (k : string) :
  In k vocabulary ->
  forall s,
    includes s (toLowerCase k)
    = existsb (String.eqb k) (Spec.occurrencesFrom vocabulary s).
Proof.
  intros Hin. induction s as [|c s IH]; simpl.
  - rewrite existsb_app, (existsb_eqb_filter _ k vocabulary Hin). reflexivity.
  - rewrite existsb_app, (existsb_eqb_filter _ k vocabulary Hin), IH. reflexivity.
Qed.

Lemma present_occursIn (vocabulary : list string) (text : string) :
  filter (fun k => includes (toLowerCase text) (toLowerCase k)) vocabulary
  = filter (Spec.occursIn vocabulary text) vocabulary.
Proof.
  apply filter_ext_in. intros k Hin.
  unfold Spec.occursIn, Spec.occurrences.
  now apply includes_occurrence.
Qed.

(** C6, as the program has it: for every text, both keyword scanners
    yield exactly one finding for each vocabulary entry that occurs in
    the text (without regard to case), however often it occurs, and the
    findings follow the order of the vocabulary. *)
Theorem keyword_findings_one_per_entry (text : string) :
  keywordFindings text
  = map keywordThreat
      (filter (Spec.occursIn suspiciousKeywords text) suspiciousKeywords)
  /\ Background.quickKeywordScan text
     = filter (Spec.occursIn Background.suspiciousKeywords text)
         Background.suspiciousKeywords.
Proof.
  split.
  - rewrite keywordFindings_closed, present_occursIn. reflexivity.
  - unfold Background.quickKeywordScan.
    rewrite (forEach_push_filter
               (fun k => includes (toLowerCase text) (toLowerCase k)) (fun k => k)).
    rewrite app_nil_l, map_id. apply present_occursIn.
Qed.

(** C6, as stated, fails: a text with two occurrences of the entry
    [urgent] gets one finding, where the detector of the specification
    gives two. *)
Lemma keyword_findings_not_per_occurrence :
  Spec.occurrences suspiciousKeywords "Urgent: this is urgent" = ["urgent"; "urgent"]
  /\ keywordFindings "Urgent: this is urgent" = [keywordThreat "urgent"]
  /\ keywordFindings "Urgent: this is urgent"
     <> Spec.keywordDetector "Urgent: this is urgent".
Proof.
  split; [vm_compute; reflexivity|]. split; [vm_compute; reflexivity|].
  intros H. apply (f_equal (@List.length Threat)) in H.
  vm_compute in H. discriminate H.
Qed.

(** The findings follow the vocabulary, not the text: [click here]
    comes first in the text and second in the findings. *)
Example keyword_findings_vocabulary_order :
  Spec.occurrences suspiciousKeywords "Click here, it is urgent" = ["click here"; "urgent"]
  /\ keywordFindings "Click here, it is urgent"
     = [keywordThreat "urgent"; keywordThreat "click here"]
  /\ Background.quickKeywordScan "Click here, it is urgent" = ["urgent"; "click here"].
Proof. split; [|split]; vm_compute; reflexivity. Qed.

(** ** The urgency detector *)

Lemma urgencyFindings_count (text : string) :
  List.length (urgencyFindings text)
  = List.length (filter (fun p => 2 <? matchCount text p) urgencyPatterns).
Proof. rewrite urgencyFindings_closed. apply length_map. Qed.

Lemma map_repeat_const {A B : Type} (b : B) (l : list A) :
  map (fun _ => b) l = repeat b (List.length l).
Proof. induction l as [|x l IH]; simpl; [reflexivity | now rewrite IH]. Qed.

(** C7: for every text, each family of urgency words is counted on its
    own and gives one finding when it has three matches or more, none
    when it has two or fewer.  So when one family has three matches or
    more and the other families have two or fewer, the detector emits one
    finding, of type [excessive_urgency] and severity [high]; when every
    family has two matches or fewer it emits none. *)
Theorem urgency_threshold (text : string) :
  urgencyFindings text
  = repeat urgencyThreat
      (List.length (filter (fun p => 3 <=? matchCount text p) urgencyPatterns))
  /\ (forall p, In p urgencyPatterns ->
        3 <= matchCount text p ->
        (forall q, In q urgencyPatterns -> q <> p -> matchCount text q <= 2) ->
        urgencyFindings text = [urgencyThreat])
  /\ ((forall p, In p urgencyPatterns -> matchCount text p <= 2) ->
      urgencyFindings text = [])
  /\ type urgencyThreat = excessive_urgency
  /\ severity urgencyThreat = high.
Proof.
  assert (Hover : forall p, 3 <= matchCount text p -> (2 <? matchCount text p) = true)
    by (intros p Hp; apply Nat.ltb_lt; lia).
  assert (Hunder : forall p, matchCount text p <= 2 -> (2 <? matchCount text p) = false)
    by (intros p Hp; apply Nat.ltb_ge; lia).
  split; [|split; [|split; [|split; reflexivity]]].
  - rewrite urgencyFindings_closed. apply map_repeat_const.
  - intros p Hin Hp Hothers. rewrite urgencyFindings_closed.
    unfold urgencyPatterns in *. simpl in Hin.
    destruct Hin as [<- | [<- | [<- | []]]]; cbn [filter];
      rewrite (Hover _ Hp);
      repeat match goal with
        | |- context [2 <? matchCount text ?q] =>
            rewrite (Hunder q) by (apply Hothers; [simpl; tauto | discriminate])
        end;
      reflexivity.
  - intros Hall. rewrite urgencyFindings_closed.
    unfold urgencyPatterns in *. cbn [filter].
    repeat match goal with
      | |- context [2 <? matchCount text ?q] =>
          rewrite (Hunder q) by (apply Hall; simpl; tauto)
      end.
    reflexivity.
Qed.

(** C7 at a text with three words of the first family and one of the
    second, and at a text with two words of the first family. *)
Lemma urgency_threshold_witness :
  urgencyFindings "URGENT! Act immediately, asap. Offer expires soon." = [urgencyThreat]
  /\ urgencyFindings "Urgent: reply asap" = [].
Proof.
  split.
  - apply (proj1 (proj2 (urgency_threshold _)))
      with (p := Alt (Lit "immediate") (Alt (Lit "urgent") (Alt (Lit "asap")
                   (Alt (Lit "right now") (Lit "quickly"))))).
    + simpl; tauto.
    + vm_compute; lia.
    + intros q Hq Hne. simpl in Hq.
      destruct Hq as [<- | [<- | [<- | []]]];
        [congruence | vm_compute; lia | vm_compute; lia].
  - apply (proj1 (proj2 (proj2 (urgency_threshold _)))).
    intros p Hp. simpl in Hp.
    destruct Hp as [<- | [<- | [<- | []]]]; vm_compute; lia.
Defined.

(** Each family is counted on its own: two families over the
    threshold give two findings, and matches of different families do
    not add up. *)
Example urgency_families_are_separate :
  urgencyFindings "urgent urgent urgent hurry hurry hurry" = [urgencyThreat; urgencyThreat]
  /\ urgencyFindings "urgent expires hurry asap deadline" = [].
Proof. split; vm_compute; reflexivity. Qed.

(** ** Mutation watching *)

Lemma isLinkMismatch_same_world (h : Host) (link : Link) (w : World) :
  snd (isLinkMismatch h link w) = w.
Proof.
  unfold isLinkMismatch, bind, lift, ret.
  destruct (hostname h (href link)) as [domain|e]; [|reflexivity].
  repeat match goal with
    | |- context [if ?b then _ else _] => destruct b
    end; reflexivity.
Qed.

Lemma analyzeLinkThreats_same_world (h : Host) (links : list Link) (w : World) :
  snd (analyzeLinkThreats h links w) = w.
Proof.
  unfold analyzeLinkThreats. apply forOf_same_world.
  intros acc link w0. unfold bind.
  pose proof (isLinkMismatch_same_world h link w0) as Hm.
  destruct (isLinkMismatch h link w0) as [[[|]|e] w1]; simpl in Hm; subst w1; reflexivity.
Qed.

Lemma analyzeNewContent_same_world (h : Host) (node : Node) (w : World) :
  snd (analyzeNewContent h node w) = w.
Proof.
  destruct node as [tagName elHref textContent elTitle elTarget|]; [|reflexivity].
  unfold analyzeNewContent. destruct (String.eqb tagName "A"); [|reflexivity].
  unfold bind.
  match goal with
  | |- context [analyzeLinkThreats h ?links w] =>
      pose proof (analyzeLinkThreats_same_world h links w) as Ha;
      destruct (analyzeLinkThreats h links w) as [[threats|e] w1]
  end; simpl in Ha; subst w1; reflexivity.
Qed.

Lemma observeDOMChanges_same_world
  (h : Host) (mutations : list MutationRecord) (w : World) :
  snd (observeDOMChanges h mutations w) = w.
Proof.
  unfold observeDOMChanges. apply forOf_same_world.
  intros [] mutation w0. destruct (mutationType mutation); try reflexivity.
  apply forOf_same_world. intros [] node w1.
  destruct node; [apply analyzeNewContent_same_world | reflexivity].
Qed.

(** C9, on the program: an anchor inserted after load is run through
    the link detector, which finds the shortened link, and the finding is
    dropped: neither [analyzeNewContent] nor the observer callback changes
    the world, so no banner, message or record comes out of it. *)
Theorem injected_anchor_finding_dropped :
  Findings.linkOf Examples.injectedAnchor = Some Examples.injectedLink
  /\ (forall h,
        fst (analyzeLinkThreats h [Examples.injectedLink] Examples.world0)
        = match hostname h "https://bit.ly/abc" with
          | Ok _ => Ok [linkThreat Examples.injectedLink]
          | Throw e => Throw e
          end)
  /\ analyzeNewContent Examples.hostOk Examples.injectedAnchor Examples.world0
     = (Ok tt, Examples.world0)
  /\ (forall h node w, snd (analyzeNewContent h node w) = w)
  /\ (forall h mutations w, snd (observeDOMChanges h mutations w) = w).
Proof.
  split; [|split; [|split; [|split]]].
  - vm_compute. reflexivity.
  - intros h.
    unfold analyzeLinkThreats, forOf, isLinkMismatch, bind, lift, ret.
    cbn [href text fst Examples.injectedLink].
    destruct (hostname h "https://bit.ly/abc") as [domain|e]; [|reflexivity].
    vm_compute. reflexivity.
  - vm_compute. reflexivity.
  - apply analyzeNewContent_same_world.
  - apply observeDOMChanges_same_world.
Qed.

(** The same with a link whose text names a brand its host does not
    carry: detected, and dropped. *)
Example injected_mismatch_dropped :
  let node :=
    ElementNode "A" "https://evil.example/pay" "PayPal sign-in" EmptyString EmptyString in
  let link :=
    {| href := "https://evil.example/pay"; text := "PayPal sign-in";
       title := EmptyString; target := EmptyString |} in
  linkOf node = Some link
  /\ fst (analyzeLinkThreats Examples.hostOk [link] Examples.world0)
     = Ok [mismatchThreat link]
  /\ analyzeNewContent Examples.hostOk node Examples.world0 = (Ok tt, Examples.world0).
Proof. split; [|split]; vm_compute; reflexivity. Qed.

(** An anchor without a destination makes the callback throw: its
    [href] is the empty string, which [new URL] rejects. *)
Example injected_bare_anchor_throws :
  fst (observeDOMChanges Examples.hostOk
         [ {| mutationType := childList;
              addedNodes := [ ElementNode "A" EmptyString "top" EmptyString EmptyString;
                              Examples.injectedAnchor ] |} ]
         Examples.world0)
  = Throw (Error "Invalid URL").
Proof. vm_compute. reflexivity. Qed.

(** ** Live interception *)

Lemma ret_advises (msg : string) : advises (ret tt) false msg.
Proof. intros w. simpl. now rewrite app_nil_r. Qed.

Lemma showWarning_advises (msg : string) : advises (showWarning msg) true msg.
Proof.
  intros w. unfold showWarning, bind, getSettings, emit, ret.
  destruct (notifications (settings w)); simpl; [|rewrite app_nil_r]; auto.
Qed.

(** *** The patterns of the submit handler, read on the strings *)















(** What the heuristic of a submission takes and leaves: the pair of
    words in order on one line, in the name or in the value of any entry;
    not the words in the other order, nor on two lines, nor the name of a
    file that is submitted. *)
Example submission_heuristic_cases :
  let warned entries :=
    log (snd (analyzeFormSubmission {| entries := entries |} Examples.world0)) in
  warned [("q", TextValue "x"); ("Bank-Account", TextValue "12")]
  = [Banner "Suspicious form submission detected"]
  /\ warned [("q", TextValue "Routing and account number")]
     = [Banner "Suspicious form submission detected"]
  /\ warned [("SSN", TextValue EmptyString)]
     = [Banner "Suspicious form submission detected"]
  /\ warned [("q", TextValue "social  Security")]
     = [Banner "Suspicious form submission detected"]
  /\ warned [("q", TextValue "card on credit")] = []
  /\ warned [("q", TextValue ("credit" +++ String (ascii_of_nat 10) "card"))] = []
  /\ warned [("q", TextValue "pass word")] = []
  /\ warned [("upload", FileValue {| fileName := "password.txt";
                                     mimeType := "text/plain"; bytes := "x" |})] = []
  /\ warned [] = [].
Proof.
  cbv zeta.
  split; [|split; [|split; [|split; [|split; [|split; [|split; [|split]]]]]]];
    vm_compute; reflexivity.
Qed.

(** A submission that carries a password is warned about and goes
    through; the drag handler of the Panel, by contrast, does prevent
    the default action. *)
Example password_submission_goes_through :
  let submit :=
    {| entries := [("user", TextValue "ann"); ("password", TextValue "x")] |} in
  analyzeFormSubmission submit Examples.world0
  = (Ok tt,
     {| settings := settings Examples.world0; now := now Examples.world0;
        fetches := 0; defaultPrevented := false;
        log := [Banner "Suspicious form submission detected"] |})
  /\ defaultPrevented (snd (Popup.onDragOver Examples.world0)) = true.
Proof. split; vm_compute; reflexivity. Qed.

(** With warnings switched off the same submission leaves no trace. *)
Example password_submission_without_warnings :
  let submit :=
    {| entries := [("user", TextValue "ann"); ("password", TextValue "x")] |} in
  hasSuspiciousContent (entries submit) = true
  /\ analyzeFormSubmission submit Examples.quietWorld = (Ok tt, Examples.quietWorld).
Proof. split; vm_compute; reflexivity. Qed.

Example executable_upload_is_warned :
  log (snd (analyzeFileUpload
              {| inputType := "file";
                 files := [ {| fileName := "invoice.pdf.EXE"; mimeType := EmptyString;
                               bytes := "MZ" |} ] |}
              Examples.world0))
  = [Banner "Suspicious file type detected"].
Proof. vm_compute. reflexivity. Qed.

End ContentFacts.

(* ================================================================== *)
(** * Properties of the Coordination Agent *)
(* ================================================================== *)

Module BackgroundFacts.

Import Js Value Background Results.

(** Unfolds the monad and the host calls, and reads the fields of the
    worlds built on the way. *)
Ltac run :=
  cbv beta iota zeta delta
    [tryCatch bind ret throw lift emit getSettings dateNow fetch
     chromeCaptureVisibleTab chromeDownload chromeExecuteScript
     chromeStorageLocalSet showThreatNotification];
  cbn [fst snd settings now fetches log defaultPrevented negb].

(** The same when the notification switch [H] of the world is known. *)
Ltac run_with H := run; repeat (rewrite H; run).

(** ** The keyword fallback *)

Lemma threats_nonempty_test (threats : list string) :
  (0 <? List.length threats) = match threats with [] => false | _ => true end.
Proof. destruct threats; reflexivity. Qed.

(** The injection of the script is refused: the error result. *)
Lemma fallback_extraction_throws (h : Host) (shot : string) (tab : Tab) (w : World) e :
  executeScript h (tabId tab) = Throw e ->
  fst (performBasicScreenshotAnalysis h shot tab w) = Ok (errorResult (message e)).
Proof.
  intros Hx. unfold performBasicScreenshotAnalysis. run. rewrite Hx.
  destruct (notifications (settings w)) eqn:Hn; run_with Hn; reflexivity.
Qed.

(** The script gives no result: the default result. *)
Lemma fallback_no_result (h : Host) (shot : string) (tab : Tab) (w : World) results :
  executeScript h (tabId tab) = Ok results ->
  noResult results = true ->
  fst (performBasicScreenshotAnalysis h shot tab w) = Ok defaultResult.
Proof.
  intros Hx Hno. unfold performBasicScreenshotAnalysis. run. rewrite Hx. run.
  destruct results as [|[page|] rest]; try discriminate Hno; reflexivity.
Qed.

(** The page was read and the cache accepts the write: the keyword
    result. *)
Lemma fallback_page_stored (h : Host) (shot : string) (tab : Tab) (w : World) page rest :
  executeScript h (tabId tab) = Ok (Some page :: rest) ->
  (forall items, storageLocalSet h items = Ok tt) ->
  fst (performBasicScreenshotAnalysis h shot tab w) = Ok (heuristicResult page).
Proof.
  intros Hx Hstore. unfold performBasicScreenshotAnalysis, heuristicResult.
  run. rewrite Hx. run.
  destruct (extractPage page) as [[text title] url].
  rewrite threats_nonempty_test.
  destruct (quickKeywordScan (text +++ " " +++ title)) as [|k ks];
    destruct (notifications (settings w)) eqn:Hn; run_with Hn;
    rewrite Hstore; reflexivity.
Qed.

(** The fallback never throws, and its result has one of three
    shapes. *)
Lemma fallback_total (h : Host) (shot : string) (tab : Tab) (w : World) :
  exists r, fst (performBasicScreenshotAnalysis h shot tab w) = Ok r /\ localShape r.
Proof.
  destruct (executeScript h (tabId tab)) as [results|e] eqn:Hx.
  - destruct results as [|[page|] rest].
    + exists defaultResult. split; [|right; left; reflexivity].
      now apply (fallback_no_result h shot tab w []).
    + unfold performBasicScreenshotAnalysis. run. rewrite Hx. run.
      pose proof (eq_refl (heuristicResult page)) as Hshape.
      unfold heuristicResult in Hshape at 1.
      destruct (extractPage page) as [[text title] url].
      rewrite threats_nonempty_test.
      destruct (quickKeywordScan (text +++ " " +++ title)) as [|k ks];
        destruct (notifications (settings w)) eqn:Hn; run_with Hn;
        match goal with
        | |- context [storageLocalSet h ?items] =>
            destruct (storageLocalSet h items) as [[]|e]
        end; run_with Hn;
        try (eexists; split; [reflexivity|]; left; exists page; exact Hshape);
        eexists; (split; [reflexivity|]); right; right; eexists; reflexivity.
    + exists defaultResult. split; [|right; left; reflexivity].
      now apply (fallback_no_result h shot tab w (None :: rest)).
  - exists (errorResult (message e)). split; [|right; right; eexists; reflexivity].
    now apply fallback_extraction_throws.
Qed.

(** ** The pipeline *)

Lemma getProp_ok (v : JsValue) (k : string) (p : JsValue) :
  getProp v k = Ok p -> p = prop v k.
Proof. destruct v; simpl; intros H; now inversion H. Qed.

(** Ends a branch in which the pipeline hands over to the fallback. *)
Ltac by_fallback h tab :=
  match goal with
  | |- context [performBasicScreenshotAnalysis h ?s tab ?W] =>
      let r := fresh "r" in
      let Hr := fresh "Hr" in
      destruct (fallback_total h s tab W) as [r [Hr _]];
      destruct (performBasicScreenshotAnalysis h s tab W) as [[?|?] ?] eqn:?;
      cbn [fst snd] in Hr |- *; [|discriminate Hr]
  end.

(** Capture and download went through and the remote call failed: the
    pipeline is the fallback, run in a world with the same settings and
    clock. *)
Lemma pipeline_falls_back (h : Host) (tab : Tab) (w : World) (shot : string) (id : nat) :
  captured h tab shot ->
  downloadAnswer h w shot = Ok id ->
  remoteFailed h w shot = true ->
  exists w2,
    settings w2 = settings w /\ now w2 = now w
    /\ takeScreenshotAndAnalyze h tab w = performBasicScreenshotAnalysis h shot tab w2.
Proof.
  intros [Hcap Hshot] Hdl Hremote.
  unfold downloadAnswer in Hdl. unfold remoteFailed, remoteAnswer in Hremote.
  destruct shot as [|c rest]; [contradiction|].
  unfold takeScreenshotAndAnalyze.
  destruct (notifications (settings w)) eqn:Hn; run_with Hn;
    rewrite Hcap; run_with Hn; rewrite Hdl; run_with Hn.
  all: destruct (fetchAnswer h (fetches w) (dataRequest (String c rest))) as [r|e];
    [|discriminate Hremote]; run_with Hn.
  all: destruct (blob r) as [image|e]; [|discriminate Hremote]; run_with Hn.
  all: destruct (fetchAnswer h (S (fetches w)) (imageRequest (settings w) image))
         as [api|e]; run_with Hn.
  all: try (destruct (ok api); [discriminate Hremote|]; run_with Hn).
  all: match goal with
       | |- context [performBasicScreenshotAnalysis ?h' ?s ?t ?W] =>
           exists W; split; [reflexivity | split; [reflexivity|]];
           by_fallback h' t; reflexivity
       end.
Qed.

(** ** Fields of the results *)

Lemma heuristicResult_fields (page : Page) :
  prop (heuristicResult page) "source" = JUndefined
  /\ prop (heuristicResult page) "screenshotSaved" = JBool true
  /\ prop (heuristicResult page) "is_spoofed" = JUndefined
  /\ prop (heuristicResult page) "spoof_confidence" = JUndefined
  /\ prop (heuristicResult page) "apiResult" = JUndefined
  /\ prop (heuristicResult page) "error" = JUndefined
  /\ prop (heuristicResult page) "confidence"
     = JNum (match quickKeywordScan
                     (substring0 2000 (innerText page) +++ " " +++ pageTitle page) with
             | [] => conf_0_2
             | _ => conf_0_8
             end).
Proof.
  unfold heuristicResult, extractPage. cbv beta iota zeta.
  repeat (split; [reflexivity|]). reflexivity.
Qed.

Lemma local_fields (r : JsValue) :
  localShape r ->
  prop r "source" = JUndefined
  /\ prop r "screenshotSaved" = JBool true
  /\ prop r "is_spoofed" = JUndefined
  /\ prop r "spoof_confidence" = JUndefined
  /\ prop r "apiResult" = JUndefined
  /\ exists q, prop r "confidence" = JNum q /\ localConfidence q.
Proof.
  intros [[page ->] | [-> | [msg ->]]].
  - destruct (heuristicResult_fields page) as (H1 & H2 & H3 & H4 & H5 & _ & H7).
    repeat (split; [assumption|]).
    eexists. split; [exact H7|].
    unfold localConfidence.
    destruct (quickKeywordScan _); auto.
  - repeat (split; [reflexivity|]). eexists. split; [reflexivity|].
    unfold localConfidence. auto.
  - repeat (split; [reflexivity|]). eexists. split; [reflexivity|].
    unfold localConfidence. auto.
Qed.

Lemma localConfidence_range (q : Q) : localConfidence q -> (0 <= q)%Q /\ (q <= 1)%Q.
Proof.
  intros [-> | [-> | [-> | ->]]]; split; unfold Qle; simpl; lia.
Qed.

(** ** C1 *)

(** C1, as the program has it: when capture and download succeed, the
    image-analysis call fails, the injected script returns the page and
    the cache accepts the write, the pipeline returns the keyword result
    and does not raise; its confidence is 0.8 when the keyword scan of the
    first 2000 characters of the page text, a space and the title finds
    something, and 0.2 when it finds nothing. *)
Theorem fallback_confidence
  (h : Host) (tab : Tab) (w : World) (shot : string) (id : nat)
  (page : Page) (rest : list (option Page)) :
  captured h tab shot ->
  downloadAnswer h w shot = Ok id ->
  remoteFailed h w shot = true ->
  executeScript h (tabId tab) = Ok (Some page :: rest) ->
  (forall items, storageLocalSet h items = Ok tt) ->
  fst (takeScreenshotAndAnalyze h tab w) = Ok (heuristicResult page)
  /\ prop (heuristicResult page) "confidence"
     = JNum (match quickKeywordScan
                     (substring0 2000 (innerText page) +++ " " +++ pageTitle page) with
             | [] => conf_0_2
             | _ => conf_0_8
             end)
  /\ prop (heuristicResult page) "apiResult" = JUndefined.
Proof.
  intros Hcap Hdl Hremote Hx Hstore.
  destruct (pipeline_falls_back h tab w shot id Hcap Hdl Hremote) as (w2 & _ & _ & ->).
  split; [now apply (fallback_page_stored h shot tab w2 page rest)|].
  destruct (heuristicResult_fields page) as (_ & _ & _ & _ & H5 & _ & H7).
  now split.
Qed.

(** C1 on a page that asks for a password, behind a classifier that
    answers 500. *)
Lemma fallback_confidence_witness :
  fst (takeScreenshotAndAnalyze Examples.host500 Examples.tab1 Examples.world0)
  = Ok (heuristicResult Examples.loginPage)
  /\ prop (heuristicResult Examples.loginPage) "confidence" = JNum conf_0_8.
Proof.
  destruct (fallback_confidence Examples.host500 Examples.tab1 Examples.world0
              Examples.shot 7 Examples.loginPage [])
    as (H1 & H2 & _).
  - split; [reflexivity | discriminate].
  - reflexivity.
  - vm_compute. reflexivity.
  - reflexivity.
  - intros items. reflexivity.
  - split; [exact H1 | exact H2].
Defined.

(** C1, as stated, fails: capture succeeds, the classifier answers 500,
    and the confidence of the result is neither 0.8 nor 0.2 because the
    page could not be read. *)
Lemma fallback_confidence_can_be_zero :
  captured Examples.hostNoAccess Examples.tab1 Examples.shot
  /\ remoteFailed Examples.hostNoAccess Examples.world0 Examples.shot = true
  /\ fst (takeScreenshotAndAnalyze Examples.hostNoAccess Examples.tab1 Examples.world0)
     = Ok (errorResult "Cannot access contents of the page")
  /\ prop (errorResult "Cannot access contents of the page") "confidence" = JNum conf_0_0
  /\ ~ (conf_0_0 == conf_0_8)%Q
  /\ ~ (conf_0_0 == conf_0_2)%Q.
Proof.
  split; [split; [reflexivity | discriminate]|].
  split; [vm_compute; reflexivity|].
  split; [vm_compute; reflexivity|].
  split; [reflexivity|].
  split; intros H; vm_compute in H; discriminate H.
Qed.

(** The keyword scan finds three entries and the confidence is still 0:
    the cache refused the write. *)
Example fallback_confidence_cache_full :
  fst (takeScreenshotAndAnalyze Examples.hostStoreFull Examples.tab1 Examples.world0)
  = Ok (errorResult "QUOTA_BYTES quota exceeded")
  /\ quickKeywordScan (substring0 2000 (innerText Examples.loginPage)
                       +++ " " +++ pageTitle Examples.loginPage)
     = ["password"; "login"; "security alert"].
Proof. split; vm_compute; reflexivity. Qed.

(** A page without any vocabulary entry: confidence 0.2, also when the
    classifier cannot be reached at all. *)
Example fallback_confidence_plain_page :
  let h := withExecuteScript Examples.hostOffline (fun _ => Ok [Some Examples.plainPage]) in
  fst (takeScreenshotAndAnalyze h Examples.tab1 Examples.world0)
  = Ok (heuristicResult Examples.plainPage)
  /\ prop (heuristicResult Examples.plainPage) "confidence" = JNum conf_0_2.
Proof. split; vm_compute; reflexivity. Qed.

(** ** C3 *)

(** C3, as the program has it: when capture and download succeed and
    the image-analysis call fails, the pipeline never raises.  If the
    injection of the script is refused it returns the result with
    confidence 0 that carries the message of the error; if the script
    runs and yields no result it returns the default result, with
    confidence 0.1 and no error. *)
Theorem fallback_extraction_failure
  (h : Host) (tab : Tab) (w : World) (shot : string) (id : nat) :
  captured h tab shot ->
  downloadAnswer h w shot = Ok id ->
  remoteFailed h w shot = true ->
  (exists r, fst (takeScreenshotAndAnalyze h tab w) = Ok r)
  /\ (forall e, executeScript h (tabId tab) = Throw e ->
        fst (takeScreenshotAndAnalyze h tab w) = Ok (errorResult (message e))
        /\ prop (errorResult (message e)) "confidence" = JNum conf_0_0
        /\ prop (errorResult (message e)) "error" = JStr (message e))
  /\ (forall results, executeScript h (tabId tab) = Ok results ->
        noResult results = true ->
        fst (takeScreenshotAndAnalyze h tab w) = Ok defaultResult
        /\ prop defaultResult "confidence" = JNum conf_0_1
        /\ prop defaultResult "error" = JUndefined).
Proof.
  intros Hcap Hdl Hremote.
  destruct (pipeline_falls_back h tab w shot id Hcap Hdl Hremote) as (w2 & _ & _ & ->).
  split; [|split].
  - destruct (fallback_total h shot tab w2) as [r [Hr _]]. now exists r.
  - intros e Hx. split; [now apply fallback_extraction_throws|].
    split; reflexivity.
  - intros results Hx Hno. split; [now apply (fallback_no_result h shot tab w2 results)|].
    split; reflexivity.
Qed.

(** C3 on a page that refuses the injection, behind a classifier that
    answers 500. *)
Lemma fallback_extraction_failure_witness :
  fst (takeScreenshotAndAnalyze Examples.hostNoAccess Examples.tab1 Examples.world0)
  = Ok (errorResult "Cannot access contents of the page").
Proof.
  destruct (fallback_extraction_failure Examples.hostNoAccess Examples.tab1
              Examples.world0 Examples.shot 7)
    as (_ & Hthrow & _).
  - split; [reflexivity | discriminate].
  - reflexivity.
  - vm_compute. reflexivity.
  - apply (Hthrow (Error "Cannot access contents of the page")). reflexivity.
Defined.

(** C3, as stated, fails: the classifier answers 500, the injected
    script yields no result, and the pipeline returns confidence 0.1 and
    no error. *)
Lemma extraction_failure_not_zero :
  captured Examples.hostNoText Examples.tab1 Examples.shot
  /\ remoteFailed Examples.hostNoText Examples.world0 Examples.shot = true
  /\ executeScript Examples.hostNoText (tabId Examples.tab1) = Ok [None]
  /\ fst (takeScreenshotAndAnalyze Examples.hostNoText Examples.tab1 Examples.world0)
     = Ok defaultResult
  /\ prop defaultResult "confidence" = JNum conf_0_1
  /\ ~ (conf_0_1 == 0)%Q
  /\ prop defaultResult "error" = JUndefined.
Proof.
  split; [split; [reflexivity | discriminate]|].
  split; [vm_compute; reflexivity|].
  split; [reflexivity|].
  split; [vm_compute; reflexivity|].
  split; [reflexivity|].
  split; [intros H; vm_compute in H; discriminate H | reflexivity].
Qed.

(** ** C4 *)

Lemma fallback_ignores_download (h : Host) (d : string -> string -> Res nat)
  (shot : string) (tab : Tab) :
  performBasicScreenshotAnalysis (withDownload h d) shot tab
  = performBasicScreenshotAnalysis h shot tab.
Proof. reflexivity. Qed.

(** The identifier the download returns is not used. *)
Lemma download_id_unused (h : Host) (id1 id2 : nat) (tab : Tab) (w : World) :
  takeScreenshotAndAnalyze (withDownload h (fun _ _ => Ok id1)) tab w
  = takeScreenshotAndAnalyze (withDownload h (fun _ _ => Ok id2)) tab w.
Proof. reflexivity. Qed.

(** C4, as the program has it: the download gates the pipeline.  When
    the capture succeeds and the download fails, the pipeline raises the
    error of the download; no [fetch], no script injection and no cache
    write is made.  When the download succeeds, the identifier it returns
    has no influence on what the pipeline does. *)
Theorem download_gates_pipeline (h : Host) (tab : Tab) (w : World) :
  (forall shot e,
     captured h tab shot ->
     downloadAnswer h w shot = Throw e ->
     fst (takeScreenshotAndAnalyze h tab w) = Throw e
     /\ fetches (snd (takeScreenshotAndAnalyze h tab w)) = fetches w
     /\ exists events,
          log (snd (takeScreenshotAndAnalyze h tab w)) = log w ++ events
          /\ events
             = notice w "Screenshot Analysis"
                 "Taking screenshot and analyzing for threats..."
               ++ [ Capture (windowId tab);
                    Download shot
                      ("nexus-guard-screenshot-" +++ showN (now w) +++ ".png") ]
               ++ notice w "Screenshot Error"
                    ("Failed to analyze screenshot: " +++ message e)
          /\ existsb isAnalysisEvent events = false)
  /\ (forall id1 id2,
        takeScreenshotAndAnalyze (withDownload h (fun _ _ => Ok id1)) tab w
        = takeScreenshotAndAnalyze (withDownload h (fun _ _ => Ok id2)) tab w).
Proof.
  split; [|intros id1 id2; apply download_id_unused].
  intros shot e [Hcap Hshot] Hdl. unfold downloadAnswer in Hdl.
  destruct shot as [|c rest]; [contradiction|].
  unfold takeScreenshotAndAnalyze.
  destruct (notifications (settings w)) eqn:Hn; run_with Hn;
    rewrite Hcap; run_with Hn; rewrite Hdl; run_with Hn.
  - split; [reflexivity|]. split; [reflexivity|].
    eexists. split; [rewrite <- !app_assoc; reflexivity|].
    unfold notice. rewrite Hn. split; reflexivity.
  - split; [reflexivity|]. split; [reflexivity|].
    eexists. split; [rewrite <- !app_assoc; reflexivity|].
    unfold notice. rewrite Hn. split; reflexivity.
Qed.

(** C4 on a host that refuses the download. *)
Lemma download_gates_pipeline_witness :
  fst (takeScreenshotAndAnalyze Examples.hostNoDownload Examples.tab1 Examples.world0)
  = Throw (Error "Download canceled by the user")
  /\ fetches (snd (takeScreenshotAndAnalyze Examples.hostNoDownload Examples.tab1
                     Examples.world0)) = 0.
Proof.
  destruct (proj1 (download_gates_pipeline Examples.hostNoDownload Examples.tab1
                     Examples.world0)
              Examples.shot (Error "Download canceled by the user"))
    as (H1 & H2 & _).
  - split; [reflexivity | discriminate].
  - reflexivity.
  - split; [exact H1 | exact H2].
Defined.

(** C4, as stated, fails: with everything else equal, the pipeline
    returns the verdict of the classifier when the download succeeds and
    raises when the download fails, having made no call to the
    classifier. *)
Lemma download_failure_aborts :
  Examples.hostNoDownload
  = withDownload Examples.hostOk (fun _ _ => Throw (Error "Download canceled by the user"))
  /\ fst (takeScreenshotAndAnalyze Examples.hostOk Examples.tab1 Examples.world0)
     = Ok (remoteResult Examples.verdict)
  /\ takeScreenshotAndAnalyze Examples.hostNoDownload Examples.tab1 Examples.world0
     = (Throw (Error "Download canceled by the user"),
        {| settings := settings Examples.world0;
           now := now Examples.world0;
           fetches := 0;
           defaultPrevented := false;
           log := [ Notify "threat-1756100000000" "Screenshot Analysis"
                      "Taking screenshot and analyzing for threats...";
                    Capture 1;
                    Download Examples.shot "nexus-guard-screenshot-1756100000000.png";
                    Notify "threat-1756100000000" "Screenshot Error"
                      "Failed to analyze screenshot: Download canceled by the user" ] |}).
Proof. split; [reflexivity|]. split; vm_compute; reflexivity. Qed.

(** ** C2 *)

(** What a run of the pipeline comes to: it raises, or it returns the
    result built from an answer of the classifier, or it returns what the
    fallback returns. *)
Lemma pipeline_outcomes (h : Host) (tab : Tab) (w : World) :
  (exists e, fst (takeScreenshotAndAnalyze h tab w) = Throw e)
  \/ (exists result n req api,
        fetchAnswer h n req = Ok api /\ ok api = true /\ json api = Ok result
        /\ fst (takeScreenshotAndAnalyze h tab w) = Ok (remoteResult result))
  \/ (exists shot w2,
        fst (takeScreenshotAndAnalyze h tab w)
        = fst (performBasicScreenshotAnalysis h shot tab w2)).
Proof.
  unfold takeScreenshotAndAnalyze.
  destruct (notifications (settings w)) eqn:Hn; run_with Hn.
  all: destruct (captureVisibleTab h (windowId tab)) as [[[|c rest]|]|e];
    run_with Hn; try (left; eexists; reflexivity).
  all: match goal with
       | |- context [download ?h' ?s ?f] => destruct (download h' s f) as [id|e]
       end; run_with Hn; try (left; eexists; reflexivity).
  all: destruct (fetchAnswer h (fetches w) (dataRequest (String c rest))) as [r|e];
    run_with Hn.
  all: try destruct (blob r) as [image|e]; run_with Hn.
  all: try destruct (fetchAnswer h (S (fetches w)) (imageRequest (settings w) image))
             as [api|e] eqn:Hapi; run_with Hn.
  all: try destruct (ok api) eqn:Hok; run_with Hn.
  all: try destruct (json api) as [result|e] eqn:Hjson; run_with Hn.
  all: try (destruct (getProp result "prediction") as [prediction|e] eqn:Hp;
            [apply getProp_ok in Hp; subst prediction|]; run_with Hn).
  all: try (destruct (strictEqNum (prop result "prediction") 1) eqn:Hs; run_with Hn).
  all: try match goal with
       | |- context [storageLocalSet ?h' ?items] =>
           destruct (storageLocalSet h' items) as [[]|e]
       end; run_with Hn.
  all: try (right; left; exists result, (S (fetches w)),
              (imageRequest (settings w) image), api;
            repeat (split; [assumption|]); unfold remoteResult;
            rewrite Hs; reflexivity).
  all: right; right;
    match goal with
    | |- context [performBasicScreenshotAnalysis ?h' ?s ?t ?W] =>
        exists s, W; by_fallback h' t; reflexivity
    end.
Qed.

(** C2, as the program has it: every result the pipeline returns has
    [threats], [confidence] and [screenshotSaved: true], and no [source]
    property; what produced it shows in which of [apiResult],
    [basicAnalysis] and [error] it carries.  A result built from an answer
    of the classifier carries that answer unchanged as [apiResult], and its
    confidence is the [probability] of the answer, as sent; a result of the
    fallback has no [apiResult] and a confidence of 0.8, 0.2, 0.1 or 0.
    Spoof fields are never properties of the result itself: they are only
    found inside [apiResult], as the classifier sent them. *)
Theorem screenshot_result_shape (h : Host) (tab : Tab) (w : World) (r : JsValue) :
  fst (takeScreenshotAndAnalyze h tab w) = Ok r ->
  prop r "source" = JUndefined
  /\ prop r "screenshotSaved" = JBool true
  /\ prop r "is_spoofed" = JUndefined
  /\ prop r "spoof_confidence" = JUndefined
  /\ ((exists result n req api,
         fetchAnswer h n req = Ok api /\ ok api = true /\ json api = Ok result
         /\ r = remoteResult result
         /\ prop r "apiResult" = result
         /\ prop r "confidence" = prop result "probability")
      \/ (localShape r
          /\ prop r "apiResult" = JUndefined
          /\ exists q, prop r "confidence" = JNum q /\ localConfidence q
                       /\ (0 <= q)%Q /\ (q <= 1)%Q)).
Proof.
  intros Hrun.
  destruct (pipeline_outcomes h tab w)
    as [[e He] | [(result & n & req & api & Hapi & Hok & Hjson & Hr) | (shot & w2 & Hr)]].
  - rewrite He in Hrun. discriminate Hrun.
  - rewrite Hr in Hrun. injection Hrun as <-.
    repeat (split; [reflexivity|]).
    left. exists result, n, req, api. repeat (split; [assumption|]).
    repeat split; reflexivity.
  - rewrite Hr in Hrun.
    destruct (fallback_total h shot tab w2) as [r' [Hr' Hshape]].
    rewrite Hr' in Hrun. injection Hrun as <-.
    destruct (local_fields r' Hshape) as (H1 & H2 & H3 & H4 & H5 & q & Hq & Hconf).
    repeat (split; [assumption|]).
    right. split; [assumption|]. split; [assumption|].
    exists q. split; [assumption|]. split; [assumption|].
    now apply localConfidence_range.
Qed.

(** C2 on the answer [{prediction: 1, probability: 0.93}]. *)
Lemma screenshot_result_shape_witness :
  fst (takeScreenshotAndAnalyze Examples.hostOk Examples.tab1 Examples.world0)
  = Ok (remoteResult Examples.verdict)
  /\ prop (remoteResult Examples.verdict) "source" = JUndefined
  /\ prop (remoteResult Examples.verdict) "screenshotSaved" = JBool true.
Proof.
  assert (Hrun : fst (takeScreenshotAndAnalyze Examples.hostOk Examples.tab1
                        Examples.world0)
                 = Ok (remoteResult Examples.verdict))
    by (vm_compute; reflexivity).
  destruct (screenshot_result_shape Examples.hostOk Examples.tab1 Examples.world0
              (remoteResult Examples.verdict) Hrun)
    as (H1 & H2 & _).
  split; [exact Hrun|]. split; [exact H1 | exact H2].
Defined.

(** C2, as stated, fails: the result returned for the answer
    [{prediction: 1, probability: 0.93}] has no [source]. *)
Lemma screenshot_result_has_no_source :
  fst (takeScreenshotAndAnalyze Examples.hostOk Examples.tab1 Examples.world0)
  = Ok (remoteResult Examples.verdict)
  /\ prop (remoteResult Examples.verdict) "source" = JUndefined
  /\ ~ Spec.normalizedShape (remoteResult Examples.verdict).
Proof.
  split; [vm_compute; reflexivity|]. split; [reflexivity|].
  intros [[H | H] _]; vm_compute in H; discriminate H.
Qed.

(** The probability is passed on as it comes: a classifier that sends
    7, or no probability, gets a confidence of 7, or none. *)
Example remote_confidence_is_unchecked :
  let sends (v : JsValue) :=
    withFetch Examples.hostOk (Examples.network (Ok (Examples.answer 200 "OK" (Ok v)))) in
  confidenceOf
    (fst (takeScreenshotAndAnalyze
            (sends (JObj [("prediction", JNum 1); ("probability", JNum 7)]))
            Examples.tab1 Examples.world0))
  = Some (JNum 7)
  /\ confidenceOf
       (fst (takeScreenshotAndAnalyze (sends (JObj [("prediction", JNum 0)]))
               Examples.tab1 Examples.world0))
     = Some JUndefined.
Proof. split; vm_compute; reflexivity. Qed.

(** An answer that cannot be used sends the pipeline to the fallback
    as a failed call does: here the body is the JSON [null]. *)
Example remote_null_answer_falls_back :
  let h := withFetch Examples.hostOk
             (Examples.network (Ok (Examples.answer 200 "OK" (Ok JNull)))) in
  fst (takeScreenshotAndAnalyze h Examples.tab1 Examples.world0)
  = Ok (heuristicResult Examples.loginPage).
Proof. vm_compute. reflexivity. Qed.

End BackgroundFacts.

(* ================================================================== *)
(** * Properties of the scan routes and of the Panel *)
(* ================================================================== *)

Module PopupFacts.

Import Js Value Popup Results Routing Batch MonadFacts.

Ltac run_panel :=
  cbv beta iota zeta delta
    [tryCatch bind ret throw lift emit getSettings dateNow fetch
     callAPI updateResultStatus showNotification];
  cbn [fst snd settings now fetches log defaultPrevented negb].

(** ** Routing *)

Lemma scanContent_other (h : Host) (content : JsValue) (type : string) (w : World) :
  type <> "text" ->
  Background.scanContent h content type w
  = (Throw (Error ("Unsupported content type: " +++ type)), w).
Proof.
  intros Htype. unfold Background.scanContent.
  destruct (String.eqb type "text") eqn:Heq.
  - apply String.eqb_eq in Heq. contradiction.
  - reflexivity.
Qed.

Lemma scanContent_text (h : Host) (content : JsValue) (w : World) :
  fst (Background.scanContent h content "text" w)
  = answered agentError (fetchAnswer h (fetches w) (textRequest (settings w) content))
  /\ log (snd (Background.scanContent h content "text" w))
     = log w ++ [Fetch (textRequest (settings w) content)].
Proof.
  unfold Background.scanContent, answered, agentError, textRequest.
  cbn [String.eqb Ascii.eqb Bool.eqb]. run_panel.
  destruct (fetchAnswer h (fetches w) _) as [response|e]; run_panel.
  - destruct (ok response); run_panel.
    + destruct (json response); split; reflexivity.
    + split; reflexivity.
  - split; reflexivity.
Qed.

Lemma scanFile_unsupported (h : Host) (file : File) (w : World) :
  mediaRoute file = None ->
  scanFile h file w = (Throw (Error "Unsupported file type"), w).
Proof.
  unfold mediaRoute, scanFile. intros Hroute.
  destruct (startsWith (mimeType file) "image/"); [discriminate Hroute|].
  destruct (startsWith (mimeType file) "audio/"); [discriminate Hroute|].
  destruct (startsWith (mimeType file) "video/"); [discriminate Hroute|].
  reflexivity.
Qed.

Lemma scanFile_media (h : Host) (file : File) (endpoint field : string) (w : World) :
  mediaRoute file = Some (endpoint, field) ->
  fst (scanFile h file w)
  = answered panelError
      (fetchAnswer h (fetches w) (mediaRequest (settings w) endpoint field file))
  /\ log (snd (scanFile h file w))
     = log w ++ [Fetch (mediaRequest (settings w) endpoint field file)].
Proof.
  unfold mediaRoute, scanFile, answered, panelError, mediaRequest. intros Hroute.
  destruct (startsWith (mimeType file) "image/");
    [|destruct (startsWith (mimeType file) "audio/");
      [|destruct (startsWith (mimeType file) "video/"); [|discriminate Hroute]]];
    injection Hroute as <- <-; run_panel; unfold push; cbn [app];
    (destruct (fetchAnswer h (fetches w) _) as [response|e]; run_panel;
     [destruct (ok response); run_panel;
      [destruct (json response); split; reflexivity | split; reflexivity]
     | split; reflexivity]).
Qed.

(** C5, as the program has it.  The Agent's [scanContent] routes the
    kind [text] only: it posts the JSON body [{text: content}] to
    [/predict-text], and raises [Unsupported content type] for any other
    kind without making a call.  Media files are routed by the Panel's
    [scanFile]: a MIME type that starts with [image/], [audio/] or [video/]
    goes as a multipart body to [/predict-image], [/predict-audio] or
    [/predict-video], any other type raises [Unsupported file type]
    without a call.  On both routes the outcome is the parsed body of a
    response with a status in 200-299, the error [API Error: <status>] for
    any other status, or the network error: never a heuristic result. *)
Theorem content_scan_routing (h : Host) :
  (forall content type w,
     type <> "text" ->
     Background.scanContent h content type w
     = (Throw (Error ("Unsupported content type: " +++ type)), w))
  /\ (forall content w,
        fst (Background.scanContent h content "text" w)
        = answered agentError
            (fetchAnswer h (fetches w) (textRequest (settings w) content))
        /\ log (snd (Background.scanContent h content "text" w))
           = log w ++ [Fetch (textRequest (settings w) content)])
  /\ (forall file w,
        mediaRoute file = None ->
        scanFile h file w = (Throw (Error "Unsupported file type"), w))
  /\ (forall file endpoint field w,
        mediaRoute file = Some (endpoint, field) ->
        fst (scanFile h file w)
        = answered panelError
            (fetchAnswer h (fetches w) (mediaRequest (settings w) endpoint field file))
        /\ log (snd (scanFile h file w))
           = log w ++ [Fetch (mediaRequest (settings w) endpoint field file)]).
Proof.
  split; [|split; [|split]].
  - intros content type w. apply scanContent_other.
  - intros content w. apply scanContent_text.
  - intros file w. apply scanFile_unsupported.
  - intros file endpoint field w. apply scanFile_media.
Qed.

(** C5 behind a classifier that answers 500: a text scan raises the
    service error with the status, a video raises it with the status
    text, a text file is refused. *)
Lemma content_scan_routing_witness :
  fst (Background.scanContent Examples.host500 (JStr "hello") "text" Examples.world0)
  = Throw (Error "API Error: 500")
  /\ Background.scanContent Examples.host500 (JStr "hello") "audio" Examples.world0
     = (Throw (Error "Unsupported content type: audio"), Examples.world0)
  /\ scanFile Examples.host500 Examples.notes Examples.world0
     = (Throw (Error "Unsupported file type"), Examples.world0)
  /\ fst (scanFile Examples.host500 Examples.clip Examples.world0)
     = Throw (Error "API Error: 500 INTERNAL SERVER ERROR").
Proof.
  destruct (content_scan_routing Examples.host500) as (Hother & Htext & Hnone & Hmedia).
  split; [|split; [|split]].
  - rewrite (proj1 (Htext (JStr "hello") Examples.world0)). vm_compute. reflexivity.
  - apply Hother. discriminate.
  - apply Hnone. reflexivity.
  - rewrite (proj1 (Hmedia Examples.clip "/predict-video" "video" Examples.world0
                      eq_refl)).
    vm_compute. reflexivity.
Defined.

(** C5, as stated, fails: the Agent's [scanContent] has no route for
    an image, an audio or a video; it raises and makes no call. *)
Lemma agent_scan_has_no_media_route :
  Background.scanContent Examples.hostOk (JStr "iVBORw0KGgo=") "image" Examples.world0
  = (Throw (Error "Unsupported content type: image"), Examples.world0)
  /\ Background.scanContent Examples.hostOk (JStr "UklGRg==") "audio" Examples.world0
     = (Throw (Error "Unsupported content type: audio"), Examples.world0)
  /\ Background.scanContent Examples.hostOk (JStr "AAAAIGZ0eXA=") "video" Examples.world0
     = (Throw (Error "Unsupported content type: video"), Examples.world0)
  /\ log (snd (Background.scanContent Examples.hostOk (JStr "iVBORw0KGgo=") "image"
                 Examples.world0)) = [].
Proof. repeat split; vm_compute; reflexivity. Qed.

(** ** Batches of files *)

Lemma fileResults_app (l1 l2 : list Event) :
  fileResults (l1 ++ l2) = fileResults l1 ++ fileResults l2.
Proof.
  induction l1 as [|e l1 IH]; simpl; [reflexivity|].
  destruct e; simpl; now rewrite IH.
Qed.

(** A scan shows no results: it makes at most one call. *)
Lemma scanFile_shows_nothing (h : Host) (file : File) (w : World) :
  fileResults (log (snd (scanFile h file w))) = fileResults (log w).
Proof.
  destruct (mediaRoute file) as [[endpoint field]|] eqn:Hroute.
  - rewrite (proj2 (scanFile_media h file endpoint field w Hroute)).
    rewrite fileResults_app. simpl. apply app_nil_r.
  - now rewrite (scanFile_unsupported h file w Hroute).
Qed.

(** One turn of the loop records the file, whatever its scan does. *)
Lemma scanInto_records (h : Host) (results : list FileEntry) (file : File) (w : World) :
  (exists result,
     scanFile h file w = (Ok result, snd (scanFile h file w))
     /\ scanInto h results file w
        = (Ok (results ++ [Scanned (fileName file) result]), snd (scanFile h file w)))
  \/ (exists e,
        scanFile h file w = (Throw e, snd (scanFile h file w))
        /\ scanInto h results file w
           = (Ok (results ++ [Failed (fileName file) (message e)]),
              snd (scanFile h file w))).
Proof.
  unfold scanInto, tryCatch, bind, ret, push.
  destruct (scanFile h file w) as [[result|e] w1]; [left | right]; eexists; split;
    reflexivity.
Qed.

(** The loop never stops early: it records the files one by one. *)
Lemma loop_records (h : Host) (files : list File) :
  forall acc w,
  exists entries w1,
    forOf files acc (scanInto h) w = (Ok (acc ++ entries), w1)
    /\ Scans h w files entries w1.
Proof.
  induction files as [|file files IH]; intros acc w.
  - exists [], w. split; [simpl; unfold ret; now rewrite app_nil_r | constructor].
  - cbn [forOf]. unfold bind at 1.
    destruct (scanInto_records h acc file w)
      as [(result & Hscan & ->) | (e & Hscan & ->)];
      match goal with
      | |- context [forOf files ?acc' (scanInto h) ?w'] =>
          destruct (IH acc' w') as (entries & w1 & -> & Hrest)
      end;
      eexists (_ :: entries), w1; (split; [now rewrite <- app_assoc|]).
    + eapply ScansOk; eassumption.
    + eapply ScansThrow; eassumption.
Qed.

Lemma Scans_length (h : Host) w files entries w1 :
  Scans h w files entries w1 -> List.length entries = List.length files.
Proof. induction 1; simpl; congruence. Qed.

Lemma Scans_show_nothing (h : Host) w files entries w1 :
  Scans h w files entries w1 -> fileResults (log w1) = fileResults (log w).
Proof.
  induction 1 as [w | w file result w1 files entries w2 Hscan _ IH
                    | w file e w1 files entries w2 Hscan _ IH].
  - reflexivity.
  - rewrite IH, <- (scanFile_shows_nothing h file w), Hscan. reflexivity.
  - rewrite IH, <- (scanFile_shows_nothing h file w), Hscan. reflexivity.
Qed.

(** The outcome of each scan fixes what is recorded. *)
Lemma Scans_functional (h : Host) w files entries1 w1 :
  Scans h w files entries1 w1 ->
  forall entries2 w2, Scans h w files entries2 w2 -> entries1 = entries2 /\ w1 = w2.
Proof.
  induction 1 as [w | w file result w1 files entries w2 Hscan _ IH
                    | w file e w1 files entries w2 Hscan _ IH];
    intros entries2 w2' H2; inversion H2; subst.
  - now split.
  - match goal with
    | H : scanFile h file w = _ |- _ => rewrite Hscan in H; injection H as <- <-
    end.
    match goal with
    | H : Scans h w1 files _ _ |- _ => destruct (IH _ _ H) as [<- <-]
    end. now split.
  - match goal with
    | H : scanFile h file w = _ |- _ => rewrite Hscan in H; discriminate H
    end.
  - match goal with
    | H : scanFile h file w = _ |- _ => rewrite Hscan in H; discriminate H
    end.
  - match goal with
    | H : scanFile h file w = _ |- _ => rewrite Hscan in H; injection H as <- <-
    end.
    match goal with
    | H : Scans h w1 files _ _ |- _ => destruct (IH _ _ H) as [<- <-]
    end. now split.
Qed.

(** The rendering shows the array it is given, once, whether it ends
    or throws on an entry it cannot read. *)
Lemma displayFileResults_shows (results : list FileEntry) (w : World) :
  fileResults (log (snd (displayFileResults results w)))
  = fileResults (log w) ++ [results].
Proof.
  unfold displayFileResults. unfold bind at 1. unfold emit at 1. unfold bind at 1.
  match goal with
  | |- context [forOf results ?acc ?body ?W] =>
      assert (Hsame : snd (forOf results acc body W) = W);
      [ apply forOf_same_world;
        intros [hasThreats hasSpoofed] [file result|file [|c msg]] w0;
        unfold bind, lift, ret;
        try reflexivity;
        destruct (getProp result "prediction"); reflexivity
      | destruct (forOf results acc body W) as [[[hasThreats hasSpoofed]|e] w1];
        cbn [snd] in Hsame; subst w1 ]
  end.
  - destruct hasSpoofed; [|destruct hasThreats]; run_panel;
      destruct (notifications (settings w)); run_panel;
      rewrite ?fileResults_app; cbn [fileResults]; rewrite ?app_nil_r; reflexivity.
  - cbn [snd log]. rewrite fileResults_app. reflexivity.
Qed.

(** C8: the Panel records every file of a batch.  For every batch, the
    array shown has one entry for each file, in order, the entry of a file
    being its result when its scan returned and the error message when it
    threw, and the scan of the next file starting from where the last one
    left.  In particular, for three files of which the second throws, the
    array has three entries: a result, an error, a result. *)
Theorem batch_records_every_file (h : Host) :
  (forall files w,
     exists results w1,
       Scans h (started files w) files results w1
       /\ List.length results = List.length files
       /\ fileResults (log (snd (processFiles h files w)))
          = fileResults (log w) ++ [results])
  /\ (forall f1 f2 f3 w r1 w1 e w2 r3 w3,
        scanFile h f1 (started [f1; f2; f3] w) = (Ok r1, w1) ->
        scanFile h f2 w1 = (Throw e, w2) ->
        scanFile h f3 w2 = (Ok r3, w3) ->
        fileResults (log (snd (processFiles h [f1; f2; f3] w)))
        = fileResults (log w)
          ++ [[ Scanned (fileName f1) r1;
                Failed (fileName f2) (message e);
                Scanned (fileName f3) r3 ]]).
Proof.
  assert (Hall : forall files w,
            exists results w1,
              Scans h (started files w) files results w1
              /\ List.length results = List.length files
              /\ fileResults (log (snd (processFiles h files w)))
                 = fileResults (log w) ++ [results]).
  { intros files w.
    destruct (loop_records h files [] (started files w))
      as (results & w1 & Hloop & Hscans).
    exists results, w1. split; [exact Hscans|].
    split; [now apply (Scans_length h _ _ _ _ Hscans)|].
    unfold processFiles. unfold bind at 1.
    change (updateResultStatus
              ("Processing " +++ showNat (List.length files) +++ " file(s)...")
              "analyzing" w)
      with (Ok tt, started files w).
    cbv beta iota. unfold bind at 1. rewrite Hloop. cbn [app].
    rewrite displayFileResults_shows, (Scans_show_nothing h _ _ _ _ Hscans).
    unfold started, updateResultStatus, emit. cbn [snd log].
    rewrite fileResults_app. cbn [fileResults]. now rewrite app_nil_r. }
  split; [exact Hall|].
  intros f1 f2 f3 w r1 w1 e w2 r3 w3 H1 H2 H3.
  destruct (Hall [f1; f2; f3] w) as (results & w' & Hscans & _ & ->).
  assert (Hexpected : Scans h (started [f1; f2; f3] w) [f1; f2; f3]
                        [ Scanned (fileName f1) r1;
                          Failed (fileName f2) (message e);
                          Scanned (fileName f3) r3 ] w3).
  { eapply ScansOk; [exact H1|]. eapply ScansThrow; [exact H2|].
    eapply ScansOk; [exact H3|]. constructor. }
  destruct (Scans_functional h _ _ _ _ Hscans _ _ Hexpected) as [-> _].
  reflexivity.
Qed.

(** C8 on an image, a text file and a video: the text file has no
    route, its scan throws, and the video is scanned all the same. *)
Lemma batch_records_every_file_witness :
  fileResults
    (log (snd (processFiles Examples.hostOk
                 [Examples.image1; Examples.notes; Examples.clip] Examples.world0)))
  = [[ Scanned "a.png" Examples.verdict;
       Failed "b.txt" "Unsupported file type";
       Scanned "c.mp4" Examples.verdict ]].
Proof.
  apply (proj2 (batch_records_every_file Examples.hostOk)
           Examples.image1 Examples.notes Examples.clip Examples.world0
           Examples.verdict
           (snd (scanFile Examples.hostOk Examples.image1
                   (started [Examples.image1; Examples.notes; Examples.clip]
                      Examples.world0)))
           (Error "Unsupported file type")
           (snd (scanFile Examples.hostOk Examples.image1
                   (started [Examples.image1; Examples.notes; Examples.clip]
                      Examples.world0)))
           Examples.verdict
           (snd (scanFile Examples.hostOk Examples.clip
                   (snd (scanFile Examples.hostOk Examples.image1
                           (started [Examples.image1; Examples.notes; Examples.clip]
                              Examples.world0)))))).
  - vm_compute. reflexivity.
  - vm_compute. reflexivity.
  - vm_compute. reflexivity.
Defined.

(** A failure of the network on the second of three images, with the
    other two answered: again three entries. *)
Example batch_survives_network_failure :
  let h := withFetch Examples.hostOk
             (fun n _ => if n =? 1 then Throw (Error "Failed to fetch")
                         else Ok (Examples.answer 200 "OK" (Ok Examples.verdict))) in
  fileResults
    (log (snd (processFiles h [Examples.image1; Examples.image1; Examples.image1]
                 Examples.world0)))
  = [[ Scanned "a.png" Examples.verdict;
       Failed "a.png" "Failed to fetch";
       Scanned "a.png" Examples.verdict ]].
Proof. vm_compute. reflexivity. Qed.

End PopupFacts.

(* ================================================================== *)
(** * Strings and patterns under concatenation *)
(* ================================================================== *)

Module StringFacts.

Import Js.

Lemma append_assoc (a b c : string) : (a +++ b) +++ c = a +++ b +++ c.
Proof. induction a as [|x a IH]; simpl; [reflexivity | now rewrite IH]. Qed.

Lemma append_empty_r (a : string) : a +++ EmptyString = a.
Proof. induction a as [|x a IH]; simpl; [reflexivity | now rewrite IH]. Qed.

Lemma length_append (a b : string) :
  String.length (a +++ b) = String.length a + String.length b.
Proof. induction a as [|x a IH]; simpl; [reflexivity | now rewrite IH]. Qed.

Lemma toLowerCase_append (a b : string) :
  toLowerCase (a +++ b) = toLowerCase a +++ toLowerCase b.
Proof. induction a as [|x a IH]; simpl; [reflexivity | now rewrite IH]. Qed.

(** [s.substring(0, n)] has at most [n] characters. *)
Lemma substring0_length (n : nat) (s : string) : String.length (substring0 n s) <= n.
Proof.
  unfold substring0. revert s.
  induction n as [|n IH]; intros [|c s]; simpl; try lia.
  specialize (IH s). lia.
Qed.

Lemma prefix_append (p s post : string) :
  String.prefix p s = true -> String.prefix p (s +++ post) = true.
Proof.
  revert s. induction p as [|a p IH]; intros [|b s] H; simpl in *;
    try reflexivity; try discriminate H.
  - destruct post; reflexivity.
  - destruct (Ascii.ascii_dec a b); [now apply IH | discriminate H].
Qed.

Lemma includes_append_r (s sub post : string) :
  includes s sub = true -> includes (s +++ post) sub = true.
Proof.
  induction s as [|c s IH]; cbn [includes String.append]; intros H.
  - rewrite orb_false_r in H.
    destruct sub as [|a sub]; [|discriminate H].
    destruct post; reflexivity.
  - apply orb_true_iff in H. destruct H as [H | H].
    + pose proof (prefix_append sub (String c s) post H) as Hp.
      cbn [String.append] in Hp. rewrite Hp. reflexivity.
    + rewrite (IH H). apply orb_true_r.
Qed.

Lemma includes_append_l (pre s sub : string) :
  includes s sub = true -> includes (pre +++ s) sub = true.
Proof.
  intros H. induction pre as [|c pre IH]; cbn [includes String.append]; [exact H|].
  rewrite IH. apply orb_true_r.
Qed.

(** A substring of a part is a substring of the whole. *)
Lemma includes_context (pre s post sub : string) :
  includes s sub = true -> includes (pre +++ s +++ post) sub = true.
Proof. intros H. now apply includes_append_l, includes_append_r. Qed.

Lemma stripLit_append (l s post rest : string) :
  stripLit l s = Some rest -> stripLit l (s +++ post) = Some (rest +++ post).
Proof.
  revert s. induction l as [|a l IH]; intros s H; simpl in *.
  - now inversion H.
  - destruct s as [|b s]; [discriminate H|]. simpl.
    destruct (Ascii.eqb (canonicalize a) (canonicalize b)); [now apply IH | discriminate H].
Qed.

(** A literal found in a part is found in the whole. *)
Lemma test_Lit_context (l pre s post : string) :
  test (Lit l) s = true -> test (Lit l) (pre +++ s +++ post) = true.
Proof.
  intros H.
  assert (Hr : test (Lit l) (s +++ post) = true).
  { clear pre. induction s as [|c s IH].
    - simpl in H. destruct (stripLit l EmptyString) as [rest|] eqn:Hl; [|discriminate H].
      destruct l; [|discriminate Hl].
      destruct post; reflexivity.
    - cbn [test matchAt] in H.
      destruct (stripLit l (String c s)) as [rest|] eqn:Hl.
      + pose proof (stripLit_append l (String c s) post rest Hl) as Hl'.
        change (String c s +++ post) with (String c (s +++ post)) in *.
        cbn [test matchAt]. now rewrite Hl'.
      + change (String c s +++ post) with (String c (s +++ post)).
        cbn [test matchAt].
        destruct (stripLit l (String c (s +++ post))); [reflexivity|].
        apply IH. exact H. }
  clear H. induction pre as [|c pre IH]; [exact Hr|].
  change (String c pre +++ s +++ post) with (String c (pre +++ s +++ post)).
  cbn [test matchAt].
  destruct (stripLit l (String c (pre +++ s +++ post))); [reflexivity | exact IH].
Qed.

End StringFacts.

(* ================================================================== *)
(** * Further properties of the detectors *)
(* ================================================================== *)

Module DetectorFacts.

Import Js Value Content Findings Results StringFacts.

(** ** URL checks *)

Lemma shorteners_context (patterns : list string) (pre url post : string) :
  existsb (fun pattern => test pattern url) (map Lit patterns) = true ->
  existsb (fun pattern => test pattern (pre +++ url +++ post)) (map Lit patterns) = true.
Proof.
  induction patterns as [|p patterns IH]; cbn [map existsb]; [discriminate|].
  intros H. apply orb_true_iff in H. destruct H as [H | H].
  - rewrite (test_Lit_context p pre url post H). reflexivity.
  - rewrite (IH H). apply orb_true_r.
Qed.

(** X1: a suspicious URL stays suspicious inside a longer string: as a
    parameter of a redirect, behind a scheme, before a path.  This holds
    for the check of the Agent and for the check of the Page Observer. *)
Theorem suspicious_url_in_context (pre url post : string) :
  (Agent.isSuspiciousURL url = true ->
   Agent.isSuspiciousURL (pre +++ url +++ post) = true)
  /\ (Content.isSuspiciousURL url = true ->
      Content.isSuspiciousURL (pre +++ url +++ post) = true).
Proof.
  assert (H : forall patterns,
             existsb (fun pattern => test pattern url) (map Lit patterns)
             || includes url "suspicious" || includes url "phishing"
             || includes url "scam" || includes url "malware" = true ->
             existsb (fun pattern => test pattern (pre +++ url +++ post)) (map Lit patterns)
             || includes (pre +++ url +++ post) "suspicious"
             || includes (pre +++ url +++ post) "phishing"
             || includes (pre +++ url +++ post) "scam"
             || includes (pre +++ url +++ post) "malware" = true).
  { intros patterns H.
    repeat (apply orb_true_iff in H; destruct H as [H | H]).
    - rewrite (shorteners_context patterns pre url post H). reflexivity.
    - rewrite (includes_context pre url post _ H). now rewrite !orb_true_r.
    - rewrite (includes_context pre url post _ H). now rewrite !orb_true_r.
    - rewrite (includes_context pre url post _ H). now rewrite !orb_true_r.
    - rewrite (includes_context pre url post _ H). now rewrite !orb_true_r. }
  split; intros Hurl; apply H; exact Hurl.
Qed.

(** A shortened link wrapped in a redirect is still flagged. *)
Lemma suspicious_url_in_context_witness :
  Agent.isSuspiciousURL "https://example.com/out?to=https://bit.ly/abc&ref=mail" = true.
Proof.
  apply (proj1 (suspicious_url_in_context "https://example.com/out?to="
                  "https://bit.ly/abc" "&ref=mail")).
  vm_compute. reflexivity.
Defined.

(** X2: the link filter of the page scan flags nothing that the URL check
    does not flag, keeps the order of the links, and misses exactly the
    links that the URL check flags for the word [malware] alone. *)
Theorem analyzeLinks_against_url_check (links : list string) :
  Agent.analyzeLinks links
  = filter (fun link =>
              Agent.isSuspiciousURL link
              && negb (includes link "malware"
                       && negb (existsb (fun pattern => test pattern link)
                                  Agent.suspiciousPatterns
                                || includes link "suspicious"
                                || includes link "phishing"
                                || includes link "scam")))
      links
  /\ (forall link, In link (Agent.analyzeLinks links) ->
        In link links /\ Agent.isSuspiciousURL link = true)
  /\ (forall link, In link links -> Agent.isSuspiciousURL link = true ->
        includes link "malware" = false -> In link (Agent.analyzeLinks links)).
Proof.
  unfold Agent.analyzeLinks, Agent.isSuspiciousURL.
  split; [|split].
  - apply filter_ext. intros link.
    destruct (existsb _ Agent.suspiciousPatterns || includes link "suspicious"
              || includes link "phishing" || includes link "scam");
      destruct (includes link "malware"); reflexivity.
  - intros link Hin. apply filter_In in Hin. destruct Hin as [Hin Hflag].
    split; [exact Hin|]. rewrite Hflag. reflexivity.
  - intros link Hin Hflag Hmal. apply filter_In. split; [exact Hin|].
    rewrite Hmal, orb_false_r in Hflag. exact Hflag.
Qed.

(** A shortened link among three is the one the page scan keeps. *)
Lemma analyzeLinks_against_url_check_witness :
  In "https://bit.ly/abc"
    (Agent.analyzeLinks
       ["https://example.com/"; "https://bit.ly/abc"; "https://example.com/malware.zip"]).
Proof.
  apply (proj2 (proj2 (analyzeLinks_against_url_check
                         ["https://example.com/"; "https://bit.ly/abc";
                          "https://example.com/malware.zip"]))).
  - simpl. auto.
  - vm_compute. reflexivity.
  - vm_compute. reflexivity.
Defined.

(** A link with the word [malware]: the link scan calls it suspicious,
    the page scan does not count it. *)
Example malware_link_is_not_counted :
  Agent.isSuspiciousURL "https://example.com/malware.zip" = true
  /\ Agent.analyzeLinks ["https://example.com/malware.zip"] = [].
Proof. split; vm_compute; reflexivity. Qed.

(** The check is a substring check: [internet.com] contains [t.co]. *)
Example shortener_name_inside_a_host :
  Agent.isSuspiciousURL "https://www.internet.com/" = true.
Proof. vm_compute. reflexivity. Qed.

(** ** Keyword scans *)

Lemma quickKeywordScan_closed (text : string) :
  Background.quickKeywordScan text
  = filter (fun k => includes (toLowerCase text) (toLowerCase k))
      Background.suspiciousKeywords.
Proof.
  unfold Background.quickKeywordScan.
  rewrite (ContentFacts.forEach_push_filter
             (fun k => includes (toLowerCase text) (toLowerCase k)) (fun k => k)).
  rewrite app_nil_l. apply map_id.
Qed.

(** X3: adding text around a text never removes a keyword finding. *)
Theorem keyword_scan_monotone (pre text post k : string) :
  (In k (Background.quickKeywordScan text) ->
   In k (Background.quickKeywordScan (pre +++ text +++ post)))
  /\ (In (keywordThreat k) (keywordFindings text) ->
      In (keywordThreat k) (keywordFindings (pre +++ text +++ post))).
Proof.
  assert (Hin : forall vocabulary k',
             In k' (filter (fun k => includes (toLowerCase text) (toLowerCase k))
                      vocabulary) ->
             In k' (filter (fun k => includes (toLowerCase (pre +++ text +++ post))
                                       (toLowerCase k)) vocabulary)).
  { intros vocabulary k' H. apply filter_In in H. destruct H as [H1 H2].
    apply filter_In. split; [exact H1|].
    rewrite !toLowerCase_append. now apply includes_context. }
  split.
  - rewrite !quickKeywordScan_closed. apply Hin.
  - rewrite !ContentFacts.keywordFindings_closed. intros H.
    apply in_map_iff in H. destruct H as (k' & Hk' & H).
    apply in_map_iff. exists k'. split; [exact Hk'|]. now apply Hin.
Qed.

(** The word [password] is found in a sentence that contains it. *)
Lemma keyword_scan_monotone_witness :
  In "password" (Background.quickKeywordScan "Please send your Password today").
Proof.
  apply (proj1 (keyword_scan_monotone "Please send your " "Password" " today"
                  "password")).
  vm_compute. auto.
Defined.

Lemma filter_filter_same {A : Type} (p q : A -> bool) (l : list A) :
  (forall x, In x l -> q x = true) -> filter q (filter p l) = filter p l.
Proof.
  intros Hq. induction l as [|x l IH]; simpl; [reflexivity|].
  destruct (p x) eqn:Hp; simpl.
  - rewrite Hq by (left; reflexivity). f_equal. apply IH. intros y Hy. apply Hq. now right.
  - apply IH. intros y Hy. apply Hq. now right.
Qed.

Lemma filter_filter_none {A : Type} (p q : A -> bool) (l : list A) :
  (forall x, In x l -> q x = false) -> filter q (filter p l) = [].
Proof.
  intros Hq. induction l as [|x l IH]; simpl; [reflexivity|].
  destruct (p x) eqn:Hp; simpl.
  - rewrite Hq by (left; reflexivity). apply IH. intros y Hy. apply Hq. now right.
  - apply IH. intros y Hy. apply Hq. now right.
Qed.

(** X4: the keyword detector of the Page Observer and the quick scan of the
    Agent agree on the vocabulary they share: the findings of the
    Observer are the findings of the quick scan that belong to the
    Observer's vocabulary, in the same order.  The quick scan has eight
    entries more. *)
Theorem observer_keywords_within_quick_scan (text : string) :
  keywordFindings text
  = map keywordThreat
      (filter (fun k => existsb (String.eqb k) Content.suspiciousKeywords)
         (Background.quickKeywordScan text)).
Proof.
  rewrite ContentFacts.keywordFindings_closed, quickKeywordScan_closed.
  f_equal.
  change Background.suspiciousKeywords
    with (Content.suspiciousKeywords
          ++ [ "bitcoin"; "crypto"; "investment opportunity"; "act now";
               "don't wait"; "hurry"; "expires"; "deadline" ]).
  rewrite !filter_app.
  rewrite filter_filter_same, filter_filter_none.
  - now rewrite app_nil_r.
  - intros x Hx. cbn [In] in Hx.
    repeat (destruct Hx as [<- | Hx]; [vm_compute; reflexivity|]). destruct Hx.
  - intros x Hx. unfold Content.suspiciousKeywords in Hx. cbn [In] in Hx.
    repeat (destruct Hx as [<- | Hx]; [vm_compute; reflexivity|]). destruct Hx.
Qed.

(** ** Bounds on what is extracted *)

(** X5: what is read from a page is cut to a fixed size: the text of the
    page analysis to 5000 characters, the body of a script to 200, the
    text of the screenshot fallback to 2000, and the text kept with its
    result to 500. *)
Theorem extraction_is_bounded (d : Observer.Document) (page : Page) :
  String.length (Observer.extractTextContent d) <= 5000
  /\ Forall (fun script => String.length (Observer.content script) <= 200)
       (Observer.extractScripts d)
  /\ (let '(text, _, _) := Background.extractPage page in String.length text <= 2000)
  /\ exists kept,
       prop (prop (heuristicResult page) "basicAnalysis") "text" = JStr kept
       /\ String.length kept <= 500.
Proof.
  split; [|split; [|split]].
  - apply substring0_length.
  - unfold Observer.extractScripts. apply Forall_forall. intros script Hin.
    apply in_map_iff in Hin. destruct Hin as (s & <- & _). cbn [Observer.content].
    apply substring0_length.
  - unfold Background.extractPage. apply substring0_length.
  - unfold heuristicResult, Background.extractPage. cbv beta iota zeta.
    eexists. split; [reflexivity|]. apply substring0_length.
Qed.

(** ** Forms *)

(** The findings of one form. *)
Lemma analyzeFormThreats_one (form : Observer.Form) :
  List.length (Observer.analyzeFormThreats [form]) <= 2
  /\ Forall (fun t => Observer.formElement t = form) (Observer.analyzeFormThreats [form]).
Proof.
  unfold Observer.analyzeFormThreats, forEach, push. cbn [fold_left app].
  destruct (Observer.isSuspiciousFormAction (Observer.action form));
    destruct (0 <? List.length (filter Observer.isSensitiveInput (Observer.inputs form)));
    cbn [app List.length]; split; try lia; repeat constructor.
Qed.

Lemma analyzeFormThreats_loop (forms : list Observer.Form) :
  forall acc,
    fold_left
      (fun threats form =>
         let threats :=
           if Observer.isSuspiciousFormAction (Observer.action form)
           then push threats
                  {| Observer.formThreatType := suspicious_form;
                     Observer.formSeverity := high;
                     Observer.formDescription :=
                       "Suspicious form action: " +++ Observer.action form;
                     Observer.formLocation := "form";
                     Observer.formElement := form |}
           else threats in
         let sensitiveInputs := filter Observer.isSensitiveInput (Observer.inputs form) in
         if 0 <? List.length sensitiveInputs
         then push threats
                {| Observer.formThreatType := sensitive_inputs;
                   Observer.formSeverity := medium;
                   Observer.formDescription :=
                     "Form contains sensitive input fields: "
                     +++ join ", " (map Input.name sensitiveInputs);
                   Observer.formLocation := "form";
                   Observer.formElement := form |}
         else threats)
      forms acc
    = acc ++ flat_map (fun form => Observer.analyzeFormThreats [form]) forms.
Proof.
  induction forms as [|form forms IH]; intros acc; cbn [fold_left flat_map].
  - now rewrite app_nil_r.
  - rewrite IH. unfold Observer.analyzeFormThreats, forEach, push.
    cbn [fold_left app].
    destruct (Observer.isSuspiciousFormAction (Observer.action form));
      destruct (0 <? List.length (filter Observer.isSensitiveInput (Observer.inputs form)));
      cbn [app]; rewrite <- ?app_assoc; reflexivity.
Qed.

(** X6: forms are judged one by one, in the order of the document: the
    findings of a list of forms are the findings of its forms put end to
    end, so there are at most two for each form, and a form with a field
    of type [password] always has a finding. *)
Theorem form_findings_form_by_form (forms1 forms2 : list Observer.Form) :
  Observer.analyzeFormThreats (forms1 ++ forms2)
  = Observer.analyzeFormThreats forms1 ++ Observer.analyzeFormThreats forms2
  /\ List.length (Observer.analyzeFormThreats forms1) <= 2 * List.length forms1
  /\ (forall form input,
        In form forms1 -> In input (Observer.inputs form) ->
        Input.type input = "password" ->
        exists t, In t (Observer.analyzeFormThreats forms1)
                  /\ Observer.formElement t = form
                  /\ Observer.formThreatType t = sensitive_inputs).
Proof.
  assert (Hflat : forall forms,
             Observer.analyzeFormThreats forms
             = flat_map (fun form => Observer.analyzeFormThreats [form]) forms).
  { intros forms. unfold Observer.analyzeFormThreats at 1. unfold forEach.
    now rewrite analyzeFormThreats_loop. }
  split; [|split].
  - rewrite !Hflat. apply flat_map_app.
  - rewrite Hflat. induction forms1 as [|form forms IH]; cbn [flat_map List.length]; [lia|].
    rewrite length_app.
    pose proof (proj1 (analyzeFormThreats_one form)). lia.
  - intros form input Hform Hinput Htype. rewrite Hflat.
    assert (Hsens : (0 <? List.length (filter Observer.isSensitiveInput
                                        (Observer.inputs form))) = true).
    { apply Nat.ltb_lt.
      assert (Hin : In input (filter Observer.isSensitiveInput (Observer.inputs form))).
      { apply filter_In. split; [exact Hinput|].
        unfold Observer.isSensitiveInput. rewrite Htype. reflexivity. }
      destruct (filter Observer.isSensitiveInput (Observer.inputs form));
        [destruct Hin | simpl; lia]. }
    eexists. split.
    + apply in_flat_map. exists form. split; [exact Hform|].
      unfold Observer.analyzeFormThreats, forEach, push. cbn [fold_left app].
      rewrite Hsens. apply in_or_app. right. left. reflexivity.
    + split; reflexivity.
Qed.

(** A login form posted to a page named [scam] has both findings. *)
Lemma form_findings_form_by_form_witness :
  let login :=
    {| Observer.action := "https://example.com/scam.php";
       Observer.method := "post";
       Observer.inputs :=
         [ {| Input.type := "text"; Input.name := "user";
              Input.placeholder := EmptyString; Input.required := true |};
           {| Input.type := "password"; Input.name := "pw";
              Input.placeholder := EmptyString; Input.required := true |} ] |} in
  exists t, In t (Observer.analyzeFormThreats [login])
            /\ Observer.formElement t = login
            /\ Observer.formThreatType t = sensitive_inputs.
Proof.
  intros login.
  apply (proj2 (proj2 (form_findings_form_by_form [login] [])) login
           {| Input.type := "password"; Input.name := "pw";
              Input.placeholder := EmptyString; Input.required := true |}).
  - simpl. auto.
  - simpl. auto.
  - reflexivity.
Defined.

(** ** The page analysis *)

(** The link detector throws exactly when a link cannot be parsed. *)
Lemma analyzeLinkThreats_throws (h : Host) (links : list Link) :
  forall acc w,
    (exists link e, In link links /\ hostname h (href link) = Throw e)
    <-> (exists e, fst (forOf links acc
                          (fun threats link =>
                             let threats :=
                               if isSuspiciousURL (href link)
                               then push threats (linkThreat link)
                               else threats in
                             mismatch <- isLinkMismatch h link ;;
                             if mismatch then ret (push threats (mismatchThreat link))
                             else ret threats) w) = Throw e).
Proof.
  induction links as [|link links IH]; intros acc w; cbn [forOf].
  - split; [intros (l & e & [] & _) | intros [e He]; discriminate He].
  - unfold bind at 1.
    destruct (hostname h (href link)) as [domain|e] eqn:Hhost.
    + assert (Hm : exists m, isLinkMismatch h link w = (Ok m, w)).
      { unfold isLinkMismatch, bind, lift, ret. rewrite Hhost.
        repeat match goal with
          | |- context [if ?b then _ else _] => destruct b
          end; eexists; reflexivity. }
      destruct Hm as [m Hm]. unfold bind at 1. rewrite Hm.
      destruct m; unfold ret at 1; rewrite <- IH.
      * split.
        -- intros (l & e & [<- | Hin] & Hl); [congruence | eauto].
        -- intros (l & e & Hin & Hl). exists l, e. split; [now right | exact Hl].
      * split.
        -- intros (l & e & [<- | Hin] & Hl); [congruence | eauto].
        -- intros (l & e & Hin & Hl). exists l, e. split; [now right | exact Hl].
    + assert (Hm : isLinkMismatch h link w = (Throw e, w)).
      { unfold isLinkMismatch, bind, lift. now rewrite Hhost. }
      unfold bind at 1. rewrite Hm. split.
      * intros _. exists e. reflexivity.
      * intros _. exists link, e. split; [now left | exact Hhost].
Qed.

(** One link that cannot be parsed: the analysis throws. *)
Lemma page_analysis_throws (h : Host) (d : Observer.Document) (w : World)
  (anchor : Observer.Anchor) (e : JsError) :
  In anchor (Observer.anchorElements d) ->
  hostname h (Observer.anchorHref anchor) = Throw e ->
  exists e', Observer.analyzePageContent h d w = (Throw e', w).
Proof.
  intros Hin Hhost.
  assert (Hthrow : exists e', fst (analyzeLinkThreats h (Observer.extractLinks d) w)
                              = Throw e').
  { apply analyzeLinkThreats_throws.
    exists {| href := Observer.anchorHref anchor;
              text := trim (Observer.anchorText anchor);
              title := Observer.anchorTitle anchor;
              target := Observer.anchorTarget anchor |}, e.
    split; [|exact Hhost].
    unfold Observer.extractLinks. apply in_map_iff. exists anchor. now split. }
  destruct Hthrow as [e' He']. exists e'.
  pose proof (ContentFacts.analyzeLinkThreats_same_world h (Observer.extractLinks d) w)
    as Hw.
  unfold Observer.analyzePageContent, bind.
  destruct (analyzeLinkThreats h (Observer.extractLinks d) w) as [[lt|e0] w1];
    cbn [fst snd] in *; [discriminate He'|].
  injection He' as ->. subst w1. reflexivity.
Qed.

(** X7: one link that cannot be parsed makes the whole page analysis
    throw, whatever the text and the forms of the page contain; when
    every link can be parsed the analysis returns, and its findings are
    those of the text (when there is text), then those of the links, then
    those of the forms. *)
Theorem page_analysis_needs_every_link (h : Host) (d : Observer.Document) (w : World) :
  (forall anchor e,
     In anchor (Observer.anchorElements d) ->
     hostname h (Observer.anchorHref anchor) = Throw e ->
     exists e', fst (Observer.analyzePageContent h d w) = Throw e')
  /\ ((forall anchor, In anchor (Observer.anchorElements d) ->
         exists domain, hostname h (Observer.anchorHref anchor) = Ok domain) ->
      exists linkThreats analysis,
        fst (analyzeLinkThreats h (Observer.extractLinks d) w) = Ok linkThreats
        /\ fst (Observer.analyzePageContent h d w) = Ok analysis
        /\ Observer.threats analysis
           = (if String.eqb (Observer.extractTextContent d) EmptyString then []
              else map Observer.Plain (analyzeTextThreats (Observer.extractTextContent d)))
             ++ map Observer.Plain linkThreats
             ++ map Observer.InForm (Observer.analyzeFormThreats (Observer.formElements d))).
Proof.
  split.
  - intros anchor e Hin Hhost.
    destruct (page_analysis_throws h d w anchor e Hin Hhost) as [e' He'].
    exists e'. rewrite He'. reflexivity.
  - intros Hall.
    destruct (fst (analyzeLinkThreats h (Observer.extractLinks d) w)) as [lt|e] eqn:Hlt.
    + exists lt. unfold Observer.analyzePageContent, bind.
      destruct (analyzeLinkThreats h (Observer.extractLinks d) w) as [[lt'|e0] w1];
        cbn [fst] in Hlt; [|discriminate Hlt].
      injection Hlt as ->. eexists. split; [reflexivity|]. split; [reflexivity|].
      cbn [Observer.threats]. unfold Observer.extractForms.
      destruct (String.eqb (Observer.extractTextContent d) EmptyString);
        cbn [negb app]; now rewrite ?app_assoc.
    + exfalso.
      assert (Hthrow : exists e', fst (analyzeLinkThreats h (Observer.extractLinks d) w)
                                  = Throw e') by (exists e; exact Hlt).
      apply analyzeLinkThreats_throws in Hthrow.
      destruct Hthrow as (link & e' & Hin & Hhost).
      unfold Observer.extractLinks in Hin. apply in_map_iff in Hin.
      destruct Hin as (anchor & <- & Hin). cbn [href] in Hhost.
      destruct (Hall anchor Hin) as [domain Hd]. congruence.
Qed.

(** A page that asks to act now, with one anchor that has no
    destination: nothing is reported. *)
Lemma page_analysis_needs_every_link_witness :
  exists e,
    fst (Observer.analyzePageContent MoreExamples.hostStrict MoreExamples.urgentPage
           Examples.world0) = Throw e.
Proof.
  apply (proj1 (page_analysis_needs_every_link MoreExamples.hostStrict MoreExamples.urgentPage
                  Examples.world0)
           {| Observer.anchorHref := "http://exa mple.com/"; Observer.anchorText := "top";
              Observer.anchorTitle := EmptyString; Observer.anchorTarget := EmptyString |}
           (Error "Invalid URL")).
  - simpl. auto.
  - reflexivity.
Defined.

(** ** Handlers that only advise or notify *)

(** X8: the handler of [input] events only advises, as the handlers of
    submissions, clicks and file inputs do: it returns normally, leaves
    the default action alone, and adds a banner when the value typed
    contains a script scheme or the name of an event handler (unless
    warnings are switched off).  A target without a value is never
    reported, and a value that is reported stays so whatever is typed
    before or after it. *)
Theorem text_input_is_advisory (value : option string) (pre post : string) :
  advises (Observer.analyzeTextInput value) (Observer.isSuspiciousInput value)
    "Suspicious input detected"
  /\ Observer.isSuspiciousInput None = false
  /\ (forall typed,
        value = Some typed ->
        Observer.isSuspiciousInput value = true ->
        Observer.isSuspiciousInput (Some (pre +++ typed +++ post)) = true).
Proof.
  split; [|split].
  - unfold Observer.analyzeTextInput.
    destruct (Observer.isSuspiciousInput value);
      [apply ContentFacts.showWarning_advises | apply ContentFacts.ret_advises].
  - vm_compute. reflexivity.
  - intros typed -> Htyped. unfold Observer.isSuspiciousInput, Observer.inputPatterns in *.
    apply shorteners_context. exact Htyped.
Qed.

(** A handler name typed in capitals inside a longer value. *)
Lemma text_input_is_advisory_witness :
  Observer.isSuspiciousInput (Some ("<img src=x " +++ "ONERROR" +++ "=alert(1)>")) = true.
Proof.
  apply (proj2 (proj2 (text_input_is_advisory (Some "ONERROR") "<img src=x "
                         "=alert(1)>")) "ONERROR").
  - reflexivity.
  - vm_compute. reflexivity.
Defined.

(** X9: the request listener notifies and never blocks: for every URL it
    returns [undefined], which is no blocking response, and its only
    effect is one notification, titled as a detection and worded as a
    block, when the URL in lower case contains a word of its list. *)
Theorem request_listener_never_blocks (detailsUrl : string) (w : World) :
  fst (Agent.analyzeRequest detailsUrl w) = Ok JUndefined
  /\ log (snd (Agent.analyzeRequest detailsUrl w))
     = log w
       ++ (if existsb (fun keyword => includes (toLowerCase detailsUrl) keyword)
                Agent.requestKeywords
           then notice w "Suspicious Request Detected"
                  ("Blocked request to: " +++ detailsUrl)
           else [])
  /\ fetches (snd (Agent.analyzeRequest detailsUrl w)) = fetches w
  /\ settings (snd (Agent.analyzeRequest detailsUrl w)) = settings w.
Proof.
  unfold Agent.analyzeRequest, notice, Background.showThreatNotification,
    bind, ret, getSettings, dateNow, emit.
  destruct (existsb _ Agent.requestKeywords);
    destruct (notifications (settings w)); cbn;
    rewrite ?app_nil_r; repeat split; reflexivity.
Qed.

End DetectorFacts.

(* ================================================================== *)
(** * What a run leaves alone *)
(* ================================================================== *)

Module FrameFacts.

Import Js Value Background Results Chrome Frames.

Lemma Steady_refl (w : World) : Steady w w.
Proof. repeat split. Qed.

Lemma Steady_trans (w1 w2 w3 : World) :
  Steady w1 w2 -> Steady w2 w3 -> Steady w1 w3.
Proof.
  intros (Hs1 & Ht1 & Hn1) (Hs2 & Ht2 & Hn2). split; [|split].
  - congruence.
  - congruence.
  - intros Hoff. rewrite Hn2, Hn1; [reflexivity | exact Hoff |].
    rewrite Hs1. exact Hoff.
Qed.

Lemma Keeps_ret {A : Type} (a : A) : Keeps (ret a).
Proof. intros w. apply Steady_refl. Qed.

Lemma Keeps_throw {A : Type} (e : JsError) : Keeps (@throw A e).
Proof. intros w. apply Steady_refl. Qed.

Lemma Keeps_lift {A : Type} (r : Res A) : Keeps (lift r).
Proof. intros w. apply Steady_refl. Qed.

Lemma Keeps_getSettings : Keeps getSettings.
Proof. intros w. apply Steady_refl. Qed.

Lemma Keeps_dateNow : Keeps dateNow.
Proof. intros w. apply Steady_refl. Qed.

Lemma Keeps_bind {A C : Type} (c : M A) (k : A -> M C) :
  Keeps c -> (forall a, Keeps (k a)) -> Keeps (bind c k).
Proof.
  intros Hc Hk w. unfold bind. specialize (Hc w).
  destruct (c w) as [[a|e] w1]; cbn [snd] in *.
  - eapply Steady_trans; [exact Hc | apply Hk].
  - exact Hc.
Qed.

Lemma Keeps_tryCatch {A : Type} (c : M A) (handler : JsError -> M A) :
  Keeps c -> (forall e, Keeps (handler e)) -> Keeps (tryCatch c handler).
Proof.
  intros Hc Hh w. unfold tryCatch. specialize (Hc w).
  destruct (c w) as [[a|e] w1]; cbn [snd] in *.
  - exact Hc.
  - eapply Steady_trans; [exact Hc | apply Hh].
Qed.

Lemma notified_app (l1 l2 : list Event) :
  notified (l1 ++ l2) = notified l1 ++ notified l2.
Proof. apply filter_app. Qed.

Lemma Keeps_emit (e : Event) : isNotify e = false -> Keeps (emit e).
Proof.
  intros He w. unfold emit. cbn [snd]. split; [reflexivity|split; [reflexivity|]].
  intros _. cbn [log]. rewrite notified_app. unfold notified at 2. cbn [filter].
  rewrite He. now rewrite app_nil_r.
Qed.

Lemma Keeps_fetch (h : Host) (req : Request) : Keeps (fetch h req).
Proof.
  intros w. unfold fetch. cbn [snd]. split; [reflexivity|split; [reflexivity|]].
  intros _. cbn [log]. rewrite notified_app. cbn. now rewrite app_nil_r.
Qed.

Lemma Keeps_showThreatNotification (title msg : string) :
  Keeps (showThreatNotification title msg).
Proof.
  intros w. unfold showThreatNotification, bind, getSettings, ret, dateNow, emit.
  destruct (notifications (settings w)) eqn:Hn; cbn [negb snd].
  - split; [reflexivity|split; [reflexivity|]]. intros Hoff. congruence.
  - apply Steady_refl.
Qed.

Lemma Keeps_capture (h : Host) (win : nat) : Keeps (chromeCaptureVisibleTab h win).
Proof.
  unfold chromeCaptureVisibleTab. apply Keeps_bind;
    [now apply Keeps_emit | intros; apply Keeps_lift].
Qed.

Lemma Keeps_download (h : Host) (src filename : string) :
  Keeps (chromeDownload h src filename).
Proof.
  unfold chromeDownload. apply Keeps_bind;
    [now apply Keeps_emit | intros; apply Keeps_lift].
Qed.

Lemma Keeps_executeScript (h : Host) (tab : nat) : Keeps (chromeExecuteScript h tab).
Proof.
  unfold chromeExecuteScript. apply Keeps_bind;
    [now apply Keeps_emit | intros; apply Keeps_lift].
Qed.

Lemma Keeps_storage (h : Host) (items : list (string * JsValue)) :
  Keeps (chromeStorageLocalSet h items).
Proof.
  unfold chromeStorageLocalSet. apply Keeps_bind;
    [now apply Keeps_emit | intros; apply Keeps_lift].
Qed.

(** Follows the structure of a piece of code built from the calls
    above. *)
Ltac keeps :=
  repeat match goal with
    | |- Keeps (ret _) => apply Keeps_ret
    | |- Keeps (throw _) => apply Keeps_throw
    | |- Keeps (lift _) => apply Keeps_lift
    | |- Keeps getSettings => apply Keeps_getSettings
    | |- Keeps dateNow => apply Keeps_dateNow
    | |- Keeps (fetch _ _) => apply Keeps_fetch
    | |- Keeps (showThreatNotification _ _) => apply Keeps_showThreatNotification
    | |- Keeps (chromeCaptureVisibleTab _ _) => apply Keeps_capture
    | |- Keeps (chromeDownload _ _ _) => apply Keeps_download
    | |- Keeps (chromeExecuteScript _ _) => apply Keeps_executeScript
    | |- Keeps (chromeStorageLocalSet _ _) => apply Keeps_storage
    | |- Keeps (bind _ _) => apply Keeps_bind; [|intros ?]
    | |- Keeps (tryCatch _ _) => apply Keeps_tryCatch; [|intros ?]
    | |- Keeps (if ?b then _ else _) => destruct b
    | |- Keeps (match ?x with _ => _ end) => destruct x
    end.

Lemma Keeps_scanContent (h : Host) (content : JsValue) (type : string) :
  Keeps (scanContent h content type).
Proof. unfold scanContent. keeps. Qed.

Lemma Keeps_fallback (h : Host) (screenshot : string) (tab : Tab) :
  Keeps (performBasicScreenshotAnalysis h screenshot tab).
Proof. unfold performBasicScreenshotAnalysis. keeps. Qed.

Lemma Keeps_pipeline (h : Host) (tab : Tab) :
  Keeps (takeScreenshotAndAnalyze h tab).
Proof.
  unfold takeScreenshotAndAnalyze. keeps; apply Keeps_fallback.
Qed.

Lemma Keeps_scanSelectedText (h : Host) (selectedText : option string) (tab : Tab) :
  Keeps (Agent.scanSelectedText h selectedText tab).
Proof.
  unfold Agent.scanSelectedText. keeps; apply Keeps_scanContent.
Qed.

Lemma Keeps_quickScanText (selectedText : option string) (tab : Tab) :
  Keeps (Agent.quickScanText selectedText tab).
Proof. unfold Agent.quickScanText. keeps. Qed.

Lemma Keeps_scanPage (h : Host) (svc : Services) (tab : Tab) :
  Keeps (Agent.scanPage h svc tab).
Proof. unfold Agent.scanPage. keeps. Qed.

Lemma Keeps_scanLink (linkUrl : string) (tab : Tab) :
  Keeps (Agent.scanLink linkUrl tab).
Proof. unfold Agent.scanLink. keeps. Qed.

Lemma Keeps_scanImage (imageUrl : string) (tab : Tab) :
  Keeps (Agent.scanImage imageUrl tab).
Proof. unfold Agent.scanImage. keeps. Qed.

Lemma Keeps_analyzeRequest (detailsUrl : string) :
  Keeps (Agent.analyzeRequest detailsUrl).
Proof. unfold Agent.analyzeRequest. keeps. Qed.

(** A handler that swallows its exception returns normally. *)
Lemma tryCatchB_unit (c : B unit) (b : Browser) :
  fst (tryCatchB c (fun _ => retB tt) b) = Ok tt
  /\ snd (tryCatchB c (fun _ => retB tt) b) = snd (c b).
Proof.
  unfold tryCatchB, retB. destruct (c b) as [[[]|e] b1]; split; reflexivity.
Qed.

Lemma inWorld_world {A : Type} (c : M A) (b : Browser) :
  world (snd (inWorld c b)) = snd (c (world b)).
Proof. unfold inWorld. destruct (c (world b)) as [r w]. reflexivity. Qed.

Lemma openExtension_world (svc : Services) (tab : Tab) (b : Browser) :
  world (snd (Agent.openExtension svc tab b)) = world b.
Proof.
  unfold Agent.openExtension, tryCatchB, chromeOpenPopup, chromeTabsCreate.
  destruct (openPopup svc); [reflexivity|].
  destruct (tabsCreate svc "popup.html"); reflexivity.
Qed.

(** X10: with notifications switched off, no action of the context menus
    makes a system notification, apart from the two test entries, which
    notify whatever the settings say; and every action returns normally
    and leaves the settings as they were. *)
Theorem quiet_mode_silences_menu_actions
  (h : Host) (svc : Services) (info : Agent.ClickInfo) (tab : Tab) (b : Browser) :
  fst (Agent.handleContextMenuClick h svc info tab b) = Ok tt
  /\ (Agent.menuItemId info <> "test-menu" ->
      Agent.menuItemId info <> "simple-test" ->
      settings (world (snd (Agent.handleContextMenuClick h svc info tab b)))
      = settings (world b)
      /\ (notifications (settings (world b)) = false ->
          notified (log (world (snd (Agent.handleContextMenuClick h svc info tab b))))
          = notified (log (world b))))
  /\ (Agent.menuItemId info = "test-menu" ->
      log (world (snd (Agent.handleContextMenuClick h svc info tab b)))
      = log (world b)
        ++ [Notify ("test-" +++ showN (now (world b))) "Test Menu"
              "Context menu is working!"]).
Proof.
  unfold Agent.handleContextMenuClick.
  split; [apply tryCatchB_unit|].
  rewrite (proj2 (tryCatchB_unit _ b)).
  split.
  - intros Htest Hsimple.
    assert (Hgoal : Steady (world b)
                      (world (snd ((let id := Agent.menuItemId info in
     if String.eqb id "scan-selected-text"
     then inWorld (Agent.scanSelectedText h (Agent.selectionText info) tab)
     else if String.eqb id "quick-scan"
     then inWorld (Agent.quickScanText (Agent.selectionText info) tab)
     else if String.eqb id "open-extension" || String.eqb id "open-extension-general"
     then Agent.openExtension svc tab
     else if String.eqb id "scan-page"
     then inWorld (Agent.scanPage h svc tab)
     else if String.eqb id "scan-link"
     then inWorld (Agent.scanLink (Agent.linkUrl info) tab)
     else if String.eqb id "scan-image"
     then inWorld (Agent.scanImage (Agent.srcUrl info) tab)
     else if String.eqb id "test-menu"
     then inWorld (Agent.showTestNotification "Test Menu" "Context menu is working!")
     else if String.eqb id "simple-test"
     then inWorld (Agent.showTestNotification "Simple Test" "Basic context menu is working!")
     else if String.eqb id "screenshot-analyze"
     then inWorld (_ <- takeScreenshotAndAnalyze h tab ;; ret tt)%js
     else retB tt) b)))).
    { cbv zeta.
      apply String.eqb_neq in Htest, Hsimple. rewrite Htest, Hsimple.
      repeat match goal with
             | |- context [if ?c then _ else _] => destruct c
             end;
        rewrite ?inWorld_world, ?openExtension_world;
        try apply Steady_refl.
      - apply Keeps_scanSelectedText.
      - apply Keeps_quickScanText.
      - apply Keeps_scanPage.
      - apply Keeps_scanLink.
      - apply Keeps_scanImage.
      - apply Keeps_bind; [apply Keeps_pipeline | intros; apply Keeps_ret]. }
    destruct Hgoal as (Hs & _ & Hn). split; [exact Hs | exact Hn].
  - intros Htest. cbv zeta. rewrite Htest. cbn [String.eqb Ascii.eqb Bool.eqb orb].
    rewrite inWorld_world. reflexivity.
Qed.

(** The link scan from the menu, with notifications off: nothing is
    notified. *)
Lemma quiet_mode_silences_menu_actions_witness :
  let click := {| Agent.menuItemId := "scan-link"; Agent.selectionText := None;
                  Agent.linkUrl := "https://bit.ly/abc"; Agent.srcUrl := EmptyString |} in
  settings (world (snd (Agent.handleContextMenuClick Examples.hostOk MoreExamples.services
                          click Examples.tab1 MoreExamples.quietBrowser)))
  = settings (world MoreExamples.quietBrowser)
  /\ notified (log (world (snd (Agent.handleContextMenuClick Examples.hostOk
                                  MoreExamples.services click Examples.tab1
                                  MoreExamples.quietBrowser))))
     = notified (log (world MoreExamples.quietBrowser)).
Proof.
  intros click.
  destruct (proj1 (proj2 (quiet_mode_silences_menu_actions Examples.hostOk
                            MoreExamples.services click Examples.tab1
                            MoreExamples.quietBrowser)))
    as [Hsettings Hquiet].
  - discriminate.
  - discriminate.
  - split; [exact Hsettings | apply Hquiet; reflexivity].
Defined.

End FrameFacts.

(* ================================================================== *)
(** * background.js: the scans, the health check, the messages *)
(* ================================================================== *)

Module AgentFacts.

Import Js Value Background Results Routing Chrome Frames Reports.

(** Unfolds the monad and the host calls, and reads the fields of the
    worlds built on the way. *)
Ltac step :=
  cbv beta iota zeta delta
    [tryCatch bind ret throw lift emit getSettings dateNow fetch
     chromeCaptureVisibleTab chromeDownload chromeExecuteScript
     chromeStorageLocalSet showThreatNotification];
  cbn [fst snd settings now fetches log defaultPrevented negb].

Ltac step_with H := step; repeat (rewrite H; step).

(** Brings a log to the form [log w ++ ...]. *)
Ltac tidy := rewrite <- ?app_assoc; cbn [app]; rewrite ?app_nil_r.


(** ** The scan of a selection *)




(** ** The verdict of the classifier and the cache *)



(** What the user then gets: told of a threat with 93.0% confidence and
    of three suspicious patterns, then handed a result without threats and
    with confidence 0. *)
Example verdict_dropped_when_cache_is_full :
  fst (takeScreenshotAndAnalyze MoreExamples.hostCacheFull Examples.tab1 Examples.world0)
  = Ok (errorResult "QUOTA_BYTES quota exceeded")
  /\ notified (log (snd (takeScreenshotAndAnalyze MoreExamples.hostCacheFull Examples.tab1
                           Examples.world0)))
     = [ Notify "threat-1756100000000" "Screenshot Analysis"
           "Taking screenshot and analyzing for threats...";
         Notify "threat-1756100000000" "THREAT DETECTED IN SCREENSHOT!"
           "Phishing/Scam content detected with 93.0% confidence";
         Notify "threat-1756100000000" "Suspicious Content Detected"
           "Found 3 suspicious patterns: password, login, security alert";
         Notify "threat-1756100000000" "Screenshot Saved"
           "Screenshot captured and saved. Basic analysis completed." ].
Proof. split; vm_compute; reflexivity. Qed.

(** ** The health check *)

(** Unfolds the monad of the browser and its calls. *)
Ltac stepB :=
  cbv beta iota zeta delta
    [tryCatchB bindB retB inWorld withWorld sendResponse setBadgeText
     setBadgeBackgroundColor Agent.updateExtensionIcon putSettings
     syncGet syncSet chromeTabsGet chromeTabsCreate chromeOpenPopup];
  step;
  cbn [fst snd world sync badgeText badgeColor menus menuErrors replies createdTabs
       settings now fetches log defaultPrevented].

(** X13: the health check never raises and never reads the answer to its
    probe: the status word is [connected] for an answer with a status in
    200-299, [error] for any other answer, [disconnected] when the call
    fails.  The badge is cleared on [connected] only, and shows the same
    mark on red for [error] and for [disconnected].  One request is made,
    nothing is notified and the settings are not touched. *)
Theorem health_check_never_raises (h : Host) (b : Browser) :
  let probe := Agent.probeRequest (settings (world b)) in
  let word := probeStatus (fetchAnswer h (fetches (world b)) probe) in
  let connected := String.eqb word "connected" in
  fst (Agent.checkAPIStatus h b) = Ok (Agent.statusReport word (now (world b)))
  /\ badgeText (snd (Agent.checkAPIStatus h b))
     = (if connected then EmptyString else "!")
  /\ badgeColor (snd (Agent.checkAPIStatus h b))
     = (if connected then "#f59e0b" else "#ef4444")
  /\ log (world (snd (Agent.checkAPIStatus h b))) = log (world b) ++ [Fetch probe]
  /\ settings (world (snd (Agent.checkAPIStatus h b))) = settings (world b)
  /\ replies (snd (Agent.checkAPIStatus h b)) = replies b.
Proof.
  cbv zeta. unfold Agent.checkAPIStatus, probeStatus. stepB.
  destruct (fetchAnswer h (fetches (world b)) (Agent.probeRequest (settings (world b))))
    as [response|e]; stepB.
  - destruct (ok response); stepB; repeat (split; [reflexivity|]); reflexivity.
  - repeat (split; [reflexivity|]); reflexivity.
Qed.

(** An answer 500 and a refused connection differ in the word only. *)
Example health_check_marks :
  fst (Agent.checkAPIStatus Examples.host500 MoreExamples.browser0)
  = Ok (Agent.statusReport "error" 1756100000000%N)
  /\ badgeText (snd (Agent.checkAPIStatus Examples.host500 MoreExamples.browser0)) = "!"
  /\ fst (Agent.checkAPIStatus Examples.hostOffline MoreExamples.browser0)
     = Ok (Agent.statusReport "disconnected" 1756100000000%N)
  /\ badgeText (snd (Agent.checkAPIStatus Examples.hostOffline MoreExamples.browser0)) = "!".
Proof. repeat split; vm_compute; reflexivity. Qed.

(** ** Settings *)

(** X14: what the Panel saves is what the Agent loads, but for an empty
    endpoint.  The Panel takes the trimmed endpoint and the switch as its
    own settings before it writes them, so it holds them even when the
    write is refused, in which case the store is left as it was.  After a
    write that went through, an Agent that loads the store has the same
    switch and the same endpoint, the default endpoint standing in for an
    empty one, and so has the Panel when it is opened again; an Agent
    that hears of the change through the store's change event takes both
    values as they are, the empty endpoint included. *)
Theorem saved_settings_reach_the_agent
  (svc : Services) (endpointInput : string) (checked : bool) (panel agent : Browser) :
  let entered := {| apiEndpoint := trim endpointInput; notifications := checked |} in
  let saved := snd (Panel.saveSettings svc endpointInput checked panel) in
  fst (Panel.saveSettings svc endpointInput checked panel) = Ok tt
  /\ settings (world saved) = entered
  /\ (forall e, syncSetFault svc entered = Some e ->
        sync saved = sync panel
        /\ log (world saved)
           = log (world panel)
             ++ (if checked
                 then [PanelNotice ("Error saving settings: " +++ message e) "error"]
                 else []))
  /\ (syncSetFault svc entered = None ->
      syncGetFault svc = None ->
      sync agent = sync saved ->
      settings (world (snd (Agent.loadSettings svc agent)))
      = {| apiEndpoint := if String.eqb (trim endpointInput) EmptyString
                          then Agent.defaultEndpoint
                          else trim endpointInput;
           notifications := checked |}
      /\ settings (snd (Agent.onStorageChanged
                          {| Agent.apiEndpointChange := Some (trim endpointInput);
                             Agent.notificationsChange := Some checked |}
                          "sync" (world agent)))
         = entered
      /\ settings (world (snd (Panel.loadSettings svc saved)))
         = settings (world (snd (Agent.loadSettings svc agent)))).
Proof.
  cbv zeta. unfold Panel.saveSettings, Popup.showNotification.
  destruct (syncSetFault svc {| apiEndpoint := trim endpointInput;
                                notifications := checked |}) as [e|] eqn:Hset.
  - stepB. rewrite Hset. stepB.
    destruct checked; stepB.
    all: split; [reflexivity|]; split; [reflexivity|]; split.
    all: try (intros e' He'; injection He' as <-; rewrite ?app_nil_r; split; reflexivity).
    all: intros Hnone; discriminate Hnone.
  - stepB. rewrite Hset. stepB.
    destruct checked; stepB.
    all: split; [reflexivity|]; split; [reflexivity|]; split;
      [intros e He; discriminate He|].
    all: intros _ Hget Hsync; unfold Agent.loadSettings, Panel.loadSettings,
           Agent.onStorageChanged, Agent.handleSettingsChange, Agent.settingsFrom;
         stepB; rewrite Hget; stepB; rewrite Hsync;
         cbn [storedApiEndpoint storedNotifications String.eqb Ascii.eqb Bool.eqb].
    all: destruct (trim endpointInput); (split; [|split]); reflexivity.
Qed.

(** The endpoint field left blank and saved. *)
Lemma saved_settings_reach_the_agent_witness :
  settings (world (snd (Agent.loadSettings MoreExamples.services
                          (snd (Panel.saveSettings MoreExamples.services "  " false
                                  MoreExamples.browser0)))))
  = {| apiEndpoint := "http://127.0.0.1:5000"; notifications := false |}
  /\ settings (snd (Agent.onStorageChanged
                      {| Agent.apiEndpointChange := Some (trim "  ");
                         Agent.notificationsChange := Some false |}
                      "sync"
                      (world (snd (Panel.saveSettings MoreExamples.services "  " false
                                     MoreExamples.browser0)))))
     = {| apiEndpoint := EmptyString; notifications := false |}.
Proof.
  destruct (proj2 (proj2 (proj2
              (saved_settings_reach_the_agent MoreExamples.services "  " false
                 MoreExamples.browser0
                 (snd (Panel.saveSettings MoreExamples.services "  " false
                         MoreExamples.browser0)))))
              eq_refl eq_refl eq_refl) as (Hload & Hchange & _).
  split; [exact Hload | exact Hchange].
Defined.

(** ** Messages *)

Lemma KeepsReplies_ret {A : Type} (a : A) : KeepsReplies (retB a).
Proof. intros b. reflexivity. Qed.

Lemma KeepsReplies_bind {A C : Type} (c : B A) (k : A -> B C) :
  KeepsReplies c -> (forall a, KeepsReplies (k a)) -> KeepsReplies (bindB c k).
Proof.
  intros Hc Hk b. unfold bindB. specialize (Hc b).
  destruct (c b) as [[a|e] b1]; cbn [snd] in *; [rewrite Hk|]; exact Hc.
Qed.

Lemma KeepsReplies_tryCatch {A : Type} (c : B A) (handler : JsError -> B A) :
  KeepsReplies c -> (forall e, KeepsReplies (handler e)) ->
  KeepsReplies (tryCatchB c handler).
Proof.
  intros Hc Hh b. unfold tryCatchB. specialize (Hc b).
  destruct (c b) as [[a|e] b1]; cbn [snd] in *; [|rewrite Hh]; exact Hc.
Qed.

Lemma KeepsReplies_inWorld {A : Type} (c : M A) : KeepsReplies (inWorld c).
Proof. intros b. unfold inWorld. destruct (c (world b)). reflexivity. Qed.

Lemma KeepsReplies_syncSet (svc : Services) (s : Settings) : KeepsReplies (syncSet svc s).
Proof. intros b. unfold syncSet. destruct (syncSetFault svc s); reflexivity. Qed.

Lemma KeepsReplies_tabsGet (svc : Services) (id : option nat) :
  KeepsReplies (chromeTabsGet svc id).
Proof. intros b. reflexivity. Qed.

Lemma KeepsReplies_badgeText (t : string) : KeepsReplies (setBadgeText t).
Proof. intros b. reflexivity. Qed.

Lemma KeepsReplies_badgeColor (c : string) : KeepsReplies (setBadgeBackgroundColor c).
Proof. intros b. reflexivity. Qed.

Lemma KeepsReplies_removeAll : KeepsReplies menusRemoveAll.
Proof. intros b. reflexivity. Qed.

Lemma KeepsReplies_create (item : MenuItem) : KeepsReplies (menusCreate item).
Proof.
  intros b. unfold menusCreate.
  destruct (negb (hasMenu (menuId item) (menus b)) && _); reflexivity.
Qed.

Ltac keeps_replies :=
  repeat match goal with
    | |- KeepsReplies (retB _) => apply KeepsReplies_ret
    | |- KeepsReplies (inWorld _) => apply KeepsReplies_inWorld
    | |- KeepsReplies (syncSet _ _) => apply KeepsReplies_syncSet
    | |- KeepsReplies (chromeTabsGet _ _) => apply KeepsReplies_tabsGet
    | |- KeepsReplies (setBadgeText _) => apply KeepsReplies_badgeText
    | |- KeepsReplies (setBadgeBackgroundColor _) => apply KeepsReplies_badgeColor
    | |- KeepsReplies menusRemoveAll => apply KeepsReplies_removeAll
    | |- KeepsReplies (menusCreate _) => apply KeepsReplies_create
    | |- KeepsReplies (bindB _ _) => apply KeepsReplies_bind; [|intros ?]
    | |- KeepsReplies (tryCatchB _ _) => apply KeepsReplies_tryCatch; [|intros ?]
    | |- KeepsReplies (if ?b then _ else _) => destruct b
    end.

Lemma KeepsReplies_checkAPIStatus (h : Host) : KeepsReplies (Agent.checkAPIStatus h).
Proof. unfold Agent.checkAPIStatus, Agent.updateExtensionIcon. keeps_replies. Qed.

Lemma KeepsReplies_createContextMenus : KeepsReplies Agent.createContextMenus.
Proof. unfold Agent.createContextMenus. keeps_replies. Qed.

Lemma RepliesOnce_send (v : JsValue) : RepliesOnce (sendResponse v).
Proof. intros b. left. split; [reflexivity|]. exists v. reflexivity. Qed.

Lemma RepliesOnce_bind {A : Type} (c : B A) (k : A -> B unit) :
  KeepsReplies c -> (forall a, RepliesOnce (k a)) -> RepliesOnce (bindB c k).
Proof.
  intros Hc Hk b. unfold bindB. specialize (Hc b).
  destruct (c b) as [[a|e] b1]; cbn [snd] in Hc.
  - rewrite <- Hc. apply Hk.
  - right. exists e. split; [reflexivity | exact Hc].
Qed.

(** The code replied once or threw before replying: with the handler
    that replies with the failure, one reply in all. *)
Lemma RepliesOnce_caught (c : B unit) (b : Browser) :
  RepliesOnce c ->
  fst (tryCatchB c (fun error => sendResponse (Agent.failure error)) b) = Ok tt
  /\ exists reply,
       replies (snd (tryCatchB c (fun error => sendResponse (Agent.failure error)) b))
       = replies b ++ [reply].
Proof.
  intros Hc. unfold tryCatchB. destruct (Hc b) as [[Hok [reply Hr]] | [e [He Hr]]].
  - destruct (c b) as [[[]|e] b1]; cbn [fst snd] in *; [|discriminate Hok].
    split; [reflexivity|]. exists reply. exact Hr.
  - destruct (c b) as [[[]|e'] b1]; cbn [fst snd] in *; [discriminate He|].
    split; [reflexivity|]. exists (Agent.failure e'). unfold sendResponse.
    cbn [snd replies]. now rewrite Hr.
Qed.

Lemma RepliesOnce_total (c : B unit) :
  (forall b, fst (c b) = Ok tt /\ exists reply, replies (snd (c b)) = replies b ++ [reply]) ->
  RepliesOnce c.
Proof. intros H b. left. apply H. Qed.

Ltac replies_once :=
  repeat match goal with
    | |- RepliesOnce (sendResponse _) => apply RepliesOnce_send
    | |- RepliesOnce (bindB _ _) => apply RepliesOnce_bind; [|intros ?]
    | |- KeepsReplies (Agent.checkAPIStatus _) => apply KeepsReplies_checkAPIStatus
    | |- KeepsReplies Agent.createContextMenus => apply KeepsReplies_createContextMenus
    | |- KeepsReplies _ => progress keeps_replies
    end.

Lemma unknown_action (a : string) :
  ~ In a knownActions ->
  String.eqb a "getSettings" = false
  /\ String.eqb a "updateSettings" = false
  /\ String.eqb a "scanContent" = false
  /\ String.eqb a "checkAPIStatus" = false
  /\ String.eqb a "debugContextMenus" = false
  /\ String.eqb a "takeScreenshot" = false.
Proof.
  intros Hnot. unfold knownActions in Hnot.
  repeat split; apply String.eqb_neq; intros ->; apply Hnot; simpl; auto 10.
Qed.

(** X15: every message is answered exactly once and the handler never
    raises, whatever the browser and the network do.  A message with an
    action that is not one of the six known ones is answered with the
    failure [Unknown action] and changes nothing.  A [scanContent] for a
    type other than [text] is answered with the failure of the
    unsupported type, and no request is made.  A [takeScreenshot] is
    answered with the result of the pipeline when it returns one, and
    with the failure carrying the message of the error when the tab
    cannot be found or the pipeline throws. *)
Theorem every_message_gets_one_reply
  (h : Host) (svc : Services) (request : Agent.Message) (b : Browser) :
  fst (Agent.handleMessage h svc request b) = Ok tt
  /\ (exists reply,
        replies (snd (Agent.handleMessage h svc request b)) = replies b ++ [reply])
  /\ (~ In (Agent.action request) knownActions ->
      snd (Agent.handleMessage h svc request b)
      = snd (sendResponse
               (JObj [ ("success", JBool false); ("error", JStr "Unknown action") ]) b))
  /\ (Agent.action request = "scanContent" ->
      Agent.contentType request <> "text" ->
      snd (Agent.handleMessage h svc request b)
      = snd (sendResponse
               (Agent.failure
                  (Error ("Unsupported content type: " +++ Agent.contentType request)))
               b))
  /\ (Agent.action request = "takeScreenshot" ->
      replies (snd (Agent.handleMessage h svc request b))
      = replies b
        ++ [ match tabsGet svc (Agent.messageTab request) with
             | Throw e => Agent.failure e
             | Ok tab =>
                 match fst (takeScreenshotAndAnalyze h tab (world b)) with
                 | Throw e => Agent.failure e
                 | Ok result =>
                     JObj [ ("success", JBool true);
                            ("message", JStr "Screenshot taken and analyzed");
                            ("result", result) ]
                 end
             end ]).
Proof.
  assert (Honce : fst (Agent.handleMessage h svc request b) = Ok tt
                  /\ exists reply,
                       replies (snd (Agent.handleMessage h svc request b))
                       = replies b ++ [reply]).
  { unfold Agent.handleMessage. apply RepliesOnce_caught. cbv zeta.
    repeat match goal with
           | |- RepliesOnce (if ?c then _ else _) => destruct c
           end; try (replies_once; fail).
    apply RepliesOnce_total. intros b0. apply RepliesOnce_caught. replies_once. }
  destruct Honce as [Hok Hone].
  split; [exact Hok|]. split; [exact Hone|]. split; [|split].
  - intros Hunknown. apply unknown_action in Hunknown.
    destruct Hunknown as (H1 & H2 & H3 & H4 & H5 & H6).
    unfold Agent.handleMessage. cbv zeta. rewrite H1, H2, H3, H4, H5, H6.
    reflexivity.
  - intros Haction Htype. unfold Agent.handleMessage. cbv zeta. rewrite Haction.
    cbn [String.eqb Ascii.eqb Bool.eqb].
    unfold tryCatchB, bindB, inWorld.
    rewrite (PopupFacts.scanContent_other h (Agent.content request)
               (Agent.contentType request) (world b) Htype).
    destruct b. reflexivity.
  - intros Haction. unfold Agent.handleMessage. cbv zeta. rewrite Haction.
    cbn [String.eqb Ascii.eqb Bool.eqb].
    unfold tryCatchB, bindB, inWorld, chromeTabsGet, sendResponse.
    destruct (tabsGet svc (Agent.messageTab request)) as [tab|e]; [|reflexivity].
    destruct (takeScreenshotAndAnalyze h tab (world b)) as [[result|e] w1];
      reflexivity.
Qed.

(** The message the content script sends when it is loaded, and a
    scan of an image asked of the Agent. *)
Lemma every_message_gets_one_reply_witness :
  snd (Agent.handleMessage Examples.hostOk MoreExamples.services
         (MoreExamples.message "contentScriptLoaded" EmptyString) MoreExamples.browser0)
  = snd (sendResponse
           (JObj [ ("success", JBool false); ("error", JStr "Unknown action") ])
           MoreExamples.browser0)
  /\ snd (Agent.handleMessage Examples.hostOk MoreExamples.services
            (MoreExamples.message "scanContent" "image") MoreExamples.browser0)
     = snd (sendResponse
              (Agent.failure (Error "Unsupported content type: image"))
              MoreExamples.browser0).
Proof.
  split.
  - apply (proj1 (proj2 (proj2 (every_message_gets_one_reply Examples.hostOk
                                  MoreExamples.services
                                  (MoreExamples.message "contentScriptLoaded" EmptyString)
                                  MoreExamples.browser0)))).
    simpl. intros H.
    repeat (destruct H as [H|H]; [discriminate H|]). exact H.
  - apply (proj1 (proj2 (proj2 (proj2 (every_message_gets_one_reply Examples.hostOk
                                         MoreExamples.services
                                         (MoreExamples.message "scanContent" "image")
                                         MoreExamples.browser0))))).
    + reflexivity.
    + discriminate.
Defined.

(** ** Context menus *)

Lemma other_menu_id (id : string) :
  ~ In id menuActions ->
  String.eqb id "scan-selected-text" = false
  /\ String.eqb id "quick-scan" = false
  /\ String.eqb id "open-extension" = false
  /\ String.eqb id "open-extension-general" = false
  /\ String.eqb id "scan-page" = false
  /\ String.eqb id "scan-link" = false
  /\ String.eqb id "scan-image" = false
  /\ String.eqb id "test-menu" = false
  /\ String.eqb id "simple-test" = false
  /\ String.eqb id "screenshot-analyze" = false.
Proof.
  intros Hnot. unfold menuActions in Hnot.
  repeat split; apply String.eqb_neq; intros ->; apply Hnot; simpl; auto 12.
Qed.

(** X16: one complete run of [createContextMenus] installs the same menu
    from every state of the browser: what was there before is removed,
    the fourteen entries are created without a creation error, since no
    id is used twice and every parent is created before its children, and
    a second run changes nothing.  Every id the click handler acts on is
    the id of an entry that is not a separator; a click that carries any
    other id does nothing. *)
Theorem menus_rebuilt_from_any_state (b b0 : Browser) :
  fst (Agent.createContextMenus b) = Ok tt
  /\ menus (snd (Agent.createContextMenus b)) = menus (snd (Agent.createContextMenus b0))
  /\ List.length (menus (snd (Agent.createContextMenus b))) = 14
  /\ menuErrors (snd (Agent.createContextMenus b)) = menuErrors b
  /\ NoDup (map menuId (menus (snd (Agent.createContextMenus b))))
  /\ (forall m p,
        In m (menus (snd (Agent.createContextMenus b))) ->
        parentId m = Some p ->
        hasMenu p (menus (snd (Agent.createContextMenus b))) = true)
  /\ snd (Agent.createContextMenus (snd (Agent.createContextMenus b)))
     = snd (Agent.createContextMenus b)
  /\ (forall id,
        In id menuActions ->
        exists m, In m (menus (snd (Agent.createContextMenus b)))
                  /\ menuId m = id /\ isSeparator m = false)
  /\ (forall h svc info tab,
        ~ In (Agent.menuItemId info) menuActions ->
        Agent.handleContextMenuClick h svc info tab b = (Ok tt, b)).
Proof.
  split; [vm_compute; reflexivity|].
  split; [vm_compute; reflexivity|].
  split; [vm_compute; reflexivity|].
  split; [vm_compute; reflexivity|].
  split.
  { assert (Hfixed : nodup string_dec (map menuId (menus (snd (Agent.createContextMenus b))))
                     = map menuId (menus (snd (Agent.createContextMenus b))))
      by (vm_compute; reflexivity).
    rewrite <- Hfixed. apply NoDup_nodup. }
  split.
  { intros m p Hin Hp.
    assert (Hall : forallb (fun m => match parentId m with
                                     | Some p => hasMenu p (menus (snd (Agent.createContextMenus b)))
                                     | None => true
                                     end)
                     (menus (snd (Agent.createContextMenus b))) = true)
      by (vm_compute; reflexivity).
    rewrite forallb_forall in Hall. specialize (Hall m Hin). rewrite Hp in Hall.
    exact Hall. }
  split; [vm_compute; reflexivity|].
  split.
  { intros id Hid.
    assert (Hall : forallb (fun id =>
                              existsb (fun m => String.eqb (menuId m) id
                                                && negb (isSeparator m))
                                (menus (snd (Agent.createContextMenus b))))
                     menuActions = true)
      by (vm_compute; reflexivity).
    rewrite forallb_forall in Hall. specialize (Hall id Hid).
    apply existsb_exists in Hall. destruct Hall as (m & Hin & Hm).
    apply andb_true_iff in Hm. destruct Hm as [Heq Hsep].
    exists m. split; [exact Hin|]. split.
    - apply String.eqb_eq. exact Heq.
    - apply negb_true_iff. exact Hsep. }
  intros h svc info tab Hother. apply other_menu_id in Hother.
  destruct Hother as (H1 & H2 & H3 & H4 & H5 & H6 & H7 & H8 & H9 & H10).
  unfold Agent.handleContextMenuClick. cbv zeta.
  rewrite H1, H2, H3, H4, H5, H6, H7, H8, H9, H10. reflexivity.
Qed.

(** The parent of the selection menu is there after the run, and a
    click on it does nothing. *)
Lemma menus_rebuilt_from_any_state_witness :
  hasMenu "nexus-guard-parent"
    (menus (snd (Agent.createContextMenus MoreExamples.browser0))) = true
  /\ Agent.handleContextMenuClick Examples.hostOk MoreExamples.services
       {| Agent.menuItemId := "nexus-guard-parent"; Agent.selectionText := None;
          Agent.linkUrl := EmptyString; Agent.srcUrl := EmptyString |}
       Examples.tab1 MoreExamples.browser0
     = (Ok tt, MoreExamples.browser0).
Proof.
  pose proof (menus_rebuilt_from_any_state MoreExamples.browser0 MoreExamples.browser0)
    as (_ & _ & _ & _ & _ & Hparent & _ & _ & Hother).
  split.
  - apply (Hparent (Agent.item "quick-scan" (Some "nexus-guard-parent") "Quick Scan"
                      ["selection"]) "nexus-guard-parent").
    + vm_compute. auto.
    + reflexivity.
  - apply Hother. simpl. intros H.
    repeat (destruct H as [H|H]; [discriminate H|]). exact H.
Defined.

(** ** The scans that stay in the browser *)

(** X17: the quick scan of a selection, the scan of a link, the scan of an
    image and the scan of a page never raise and never leave the browser:
    no request is made, nothing is stored, downloaded or captured.  The
    page scan injects its script once; when the script gives no result the
    user is told that the scan started and nothing more, and when the
    injection is refused the user is told of the error. *)
Theorem local_scans_stay_local
  (h : Host) (svc : Services) (selectedText : option string) (url : string)
  (tab : Tab) (w : World) :
  Local w (Agent.quickScanText selectedText tab w)
  /\ Local w (Agent.scanLink url tab w)
  /\ Local w (Agent.scanImage url tab w)
  /\ Local w (Agent.scanPage h svc tab w)
  /\ (forall results,
        executeScript h (tabId tab) = Ok results ->
        noResult results = true ->
        log (snd (Agent.scanPage h svc tab w))
        = log w
          ++ notice w "Page Scan" "Analyzing page content for threats..."
          ++ [ExecuteScript (tabId tab)])
  /\ (forall e,
        executeScript h (tabId tab) = Throw e ->
        log (snd (Agent.scanPage h svc tab w))
        = log w
          ++ notice w "Page Scan" "Analyzing page content for threats..."
          ++ [ExecuteScript (tabId tab)]
          ++ notice w "Page Scan Error" ("Failed to scan page: " +++ message e)).
Proof.
  unfold Local, notice.
  split; [|split; [|split; [|split; [|split]]]].
  - unfold Agent.quickScanText.
    destruct selectedText as [text|]; [destruct (Agent.noSelection (Some text))|].
    all: try destruct (0 <? List.length (quickKeywordScan text)).
    all: destruct (notifications (settings w)) eqn:Hn; step_with Hn.
    all: rewrite ?filter_app; cbn [filter isCall]; rewrite ?app_nil_r.
    all: split; [reflexivity|]; split; reflexivity.
  - unfold Agent.scanLink. destruct (Agent.isSuspiciousURL url).
    all: destruct (notifications (settings w)) eqn:Hn; step_with Hn.
    all: rewrite ?filter_app; cbn [filter isCall]; rewrite ?app_nil_r.
    all: split; [reflexivity|]; split; reflexivity.
  - unfold Agent.scanImage. destruct (Agent.isSuspiciousURL url).
    all: destruct (notifications (settings w)) eqn:Hn; step_with Hn.
    all: rewrite ?filter_app; cbn [filter isCall]; rewrite ?app_nil_r.
    all: split; [reflexivity|]; split; reflexivity.
  - unfold Agent.scanPage.
    destruct (notifications (settings w)) eqn:Hn; step_with Hn.
    all: destruct (executeScript h (tabId tab)) as [[|[page|] rest]|e]; step_with Hn.
    all: try match goal with
         | |- context [if ?c then _ else _] => destruct c
         end; step_with Hn.
    all: rewrite ?filter_app; cbn [filter isCall]; rewrite ?app_nil_r.
    all: split; [reflexivity|]; split; reflexivity.
  - intros results Hx Hno. unfold Agent.scanPage.
    destruct (notifications (settings w)) eqn:Hn; step_with Hn; rewrite Hx;
      step_with Hn.
    all: destruct results as [|[page|] rest]; try discriminate Hno; step_with Hn.
    all: tidy; reflexivity.
  - intros e Hx. unfold Agent.scanPage.
    destruct (notifications (settings w)) eqn:Hn; step_with Hn; rewrite Hx;
      step_with Hn.
    all: tidy; reflexivity.
Qed.

(** A page on which the script cannot be injected. *)
Lemma local_scans_stay_local_witness :
  log (snd (Agent.scanPage Examples.hostNoAccess MoreExamples.services Examples.tab1
              Examples.world0))
  = log Examples.world0
    ++ notice Examples.world0 "Page Scan" "Analyzing page content for threats..."
    ++ [ExecuteScript (tabId Examples.tab1)]
    ++ notice Examples.world0 "Page Scan Error"
         "Failed to scan page: Cannot access contents of the page".
Proof.
  exact (proj2 (proj2 (proj2 (proj2 (proj2
           (local_scans_stay_local Examples.hostNoAccess MoreExamples.services None
              EmptyString Examples.tab1 Examples.world0)))))
           (Error "Cannot access contents of the page") eq_refl).
Defined.

(** ** Clicks on notifications *)

Lemma lacks_includes (s : string) :
  lacks "h" s = true -> includes s "threat" = false.
Proof.
  induction s as [|a s IH]; intros Hl; [reflexivity|].
  cbn [lacks] in Hl. apply andb_true_iff in Hl. destruct Hl as [Ha Hs].
  cbn [includes]. rewrite (IH Hs), orb_false_r.
  cbn [String.prefix].
  destruct (ascii_dec "t" a) as [<-|Hne]; [|reflexivity].
  destruct s as [|b s]; [reflexivity|].
  cbn [lacks] in Hs. apply andb_true_iff in Hs. destruct Hs as [Hb _].
  cbn [String.prefix].
  destruct (ascii_dec "h" b) as [<-|Hne']; [discriminate Hb | reflexivity].
Qed.

Lemma lacks_uint (u : Decimal.uint) : lacks "h" (NilEmpty.string_of_uint u) = true.
Proof. induction u; cbn; try reflexivity; exact IHu. Qed.

(** The decimal rendering of a time stamp has digits only. *)
Lemma lacks_showN (t : N) : lacks "h" (showN t) = true.
Proof.
  unfold showN, NilZero.string_of_uint.
  destruct (N.to_uint t) eqn:Hu; try reflexivity; apply lacks_uint.
Qed.

(** X18: a click on a notification never raises, and opens the page of the
    Panel in a new tab exactly for the notifications that
    [showThreatNotification] made, whatever their time stamp; a click on
    a test notification or on the welcome notification does nothing. *)
Theorem threat_notifications_open_the_panel
  (svc : Services) (title msg : string) (w : World) (b : Browser) :
  (forall id, fst (Agent.handleNotificationClick svc id b) = Ok tt)
  /\ (forall id title' msg',
        log (snd (showThreatNotification title msg w))
        = log w ++ [Notify id title' msg'] ->
        createdTabs (snd (Agent.handleNotificationClick svc id b))
        = createdTabs b
          ++ match tabsCreate svc "popup.html" with
             | Ok _ => ["popup.html"]
             | Throw _ => []
             end)
  /\ (forall id title' msg',
        log (snd (Agent.showTestNotification title msg w))
        = log w ++ [Notify id title' msg'] ->
        snd (Agent.handleNotificationClick svc id b) = b)
  /\ (forall id title' msg',
        log (snd (Agent.showWelcomeNotification w))
        = log w ++ [Notify id title' msg'] ->
        snd (Agent.handleNotificationClick svc id b) = b).
Proof.
  split; [|split; [|split]].
  - intros id. unfold Agent.handleNotificationClick.
    destruct (includes id "threat"); [apply FrameFacts.tryCatchB_unit | reflexivity].
  - intros id title' msg' Hlog. revert Hlog.
    unfold showThreatNotification, bind, getSettings, ret, dateNow, emit.
    destruct (notifications (settings w)); cbn [negb snd log]; intros Hlog.
    + apply app_inv_head in Hlog. injection Hlog as <- _ _.
      unfold Agent.handleNotificationClick.
      pose proof (StringFacts.includes_append_r "threat-" "threat" (showN (now w))
                    eq_refl) as Hinc.
      cbn [String.append] in Hinc |- *. rewrite Hinc.
      unfold tryCatchB, chromeTabsCreate, retB.
      destruct (tabsCreate svc "popup.html"); cbn [snd createdTabs];
        [reflexivity | now rewrite app_nil_r].
    + exfalso. rewrite <- (app_nil_r (log w)) in Hlog at 1.
      apply app_inv_head in Hlog. discriminate Hlog.
  - intros id title' msg' Hlog. revert Hlog.
    unfold Agent.showTestNotification, bind, dateNow, emit. cbn [snd log].
    intros Hlog. apply app_inv_head in Hlog. injection Hlog as <- _ _.
    unfold Agent.handleNotificationClick.
    cbn [String.append].
    rewrite lacks_includes; [reflexivity|].
    cbn [lacks]. rewrite lacks_showN. reflexivity.
  - intros id title' msg' Hlog. revert Hlog.
    unfold Agent.showWelcomeNotification, emit. cbn [snd log].
    intros Hlog. apply app_inv_head in Hlog. injection Hlog as <- _ _.
    reflexivity.
Qed.

(** The notification of a scan that found something, clicked. *)
Lemma threat_notifications_open_the_panel_witness :
  createdTabs (snd (Agent.handleNotificationClick MoreExamples.services
                      "threat-1756100000000" MoreExamples.browser0))
  = createdTabs MoreExamples.browser0
    ++ match tabsCreate MoreExamples.services "popup.html" with
       | Ok _ => ["popup.html"]
       | Throw _ => []
       end.
Proof.
  apply (proj1 (proj2 (threat_notifications_open_the_panel MoreExamples.services
                         "Suspicious Link"
                         "This link appears suspicious and may be dangerous"
                         Examples.world0 MoreExamples.browser0))
           "threat-1756100000000" "Suspicious Link"
           "This link appears suspicious and may be dangerous").
  vm_compute. reflexivity.
Defined.

End AgentFacts.

(* ================================================================== *)
(** * popup.js: what the Panel shows *)
(* ================================================================== *)

Module PanelFacts.

Import Js Value Background Popup Results Routing Batch Verdicts.

Ltac show :=
  cbv beta iota zeta delta
    [tryCatch bind ret throw lift emit getSettings dateNow fetch
     callAPI updateResultStatus showNotification Panel.displayError];
  cbn [fst snd settings now fetches log defaultPrevented negb].

Ltac tidy := rewrite <- ?app_assoc; cbn [app]; rewrite ?app_nil_r.

(** ** The overall status of a batch *)

Lemma readable_prediction (file : string) (result : JsValue) :
  readable (Scanned file result) = true ->
  getProp result "prediction" = Ok (prop result "prediction").
Proof. destruct result; simpl; intros H; try discriminate H; reflexivity. Qed.

(** The flags after the loop over readable entries. *)
Lemma flags_of_readable (results : list FileEntry) :
  forall hasThreats hasSpoofed w,
    forallb readable results = true ->
    forOf results (hasThreats, hasSpoofed)
      (fun flags entry =>
         let '(hasThreats, hasSpoofed) := flags in
         match entry with
         | Failed _ (String _ _) => ret flags
         | Failed _ EmptyString =>
             _ <- lift (getProp JUndefined "prediction") ;; ret flags
         | Scanned _ result =>
             prediction <- lift (getProp result "prediction") ;;
             let isThreat := strictEqNum prediction 1 in
             let isSpoofed := strictEqStr (prop result "is_spoofed") "spoofed" in
             ret (hasThreats || isThreat, hasSpoofed || isSpoofed)
         end) w
    = (Ok (hasThreats || existsb threatEntry results,
           hasSpoofed || existsb spoofedEntry results), w).
Proof.
  induction results as [|entry results IH]; intros hasThreats hasSpoofed w Hall.
  - cbn [forOf existsb]. unfold ret. now rewrite !orb_false_r.
  - cbn [forallb] in Hall. apply andb_true_iff in Hall. destruct Hall as [Hentry Hall].
    cbn [forOf existsb]. unfold bind at 1.
    destruct entry as [file result|file [|c msg]].
    + unfold bind at 1, lift at 1. rewrite (readable_prediction file result Hentry).
      unfold ret at 1. rewrite IH by exact Hall.
      cbn [threatEntry spoofedEntry]. now rewrite !orb_assoc.
    + discriminate Hentry.
    + unfold ret at 1. rewrite IH by exact Hall. reflexivity.
Qed.


(** What the rendering of readable entries comes to. *)
Lemma displayFileResults_readable (results : list FileEntry) (w : World) :
  forallb readable results = true ->
  fst (displayFileResults results w) = Ok tt
  /\ log (snd (displayFileResults results w))
     = log w
       ++ [ FileResults results;
            PanelStatus (fst (overall results)) (snd (overall results)) ]
       ++ panelNotice w (fst (overallNotice results)) (snd (overallNotice results)).
Proof.
  intros Hall. split.
  all: unfold displayFileResults; unfold bind at 1; unfold emit at 1;
    unfold bind at 1; rewrite flags_of_readable by exact Hall;
    cbn [orb]; unfold overall, overallNotice, panelNotice.
  all: destruct (existsb spoofedEntry results);
    [|destruct (existsb threatEntry results)];
    show; destruct (notifications (settings w)); show; tidy; reflexivity.
Qed.

(** A batch of failed scans: neither spoofed nor a threat. *)
Lemma failed_batch_status (results : list FileEntry) (w : World) :
  forallb failedEntry results = true ->
  forallb readable results = true
  /\ overall results = ("All files appear safe", "safe")
  /\ overallNotice results = ("All files appear safe", "success").
Proof.
  intros Hfailed. unfold overall, overallNotice.
  assert (Hnone : existsb spoofedEntry results = false
                  /\ existsb threatEntry results = false
                  /\ forallb readable results = true).
  { induction results as [|entry results IH]; [repeat split|].
    cbn [forallb] in Hfailed. apply andb_true_iff in Hfailed.
    destruct Hfailed as [Hentry Hrest]. destruct (IH Hrest) as (IH1 & IH2 & IH3).
    destruct entry as [file result|file [|c msg]]; try discriminate Hentry.
    cbn [existsb forallb spoofedEntry threatEntry readable orb andb].
    repeat split; assumption. }
  destruct Hnone as (-> & -> & ->). repeat split; reflexivity.
Qed.



(** ** A batch while the classifier cannot be reached *)

Lemma scanFile_settings (h : Host) (file : File) (w : World) :
  settings (snd (scanFile h file w)) = settings w.
Proof.
  unfold scanFile.
  destruct (startsWith (mimeType file) "image/");
    [|destruct (startsWith (mimeType file) "audio/");
      [|destruct (startsWith (mimeType file) "video/")]]; show;
    try reflexivity.
  all: match goal with
       | |- context [fetchAnswer ?h0 ?n ?req] =>
           destruct (fetchAnswer h0 n req) as [response|e]
       end; show; try reflexivity.
  all: destruct (ok response); show; try reflexivity.
  all: destruct (json response); reflexivity.
Qed.

(** No scan returns while the classifier cannot be reached, and each
    one throws with a message. *)
Lemma scanFile_unreachable (h : Host) (file : File) (w : World) :
  unreachable h ->
  exists e, fst (scanFile h file w) = Throw e /\ message e <> EmptyString.
Proof.
  intros Hdown. unfold scanFile.
  destruct (startsWith (mimeType file) "image/");
    [|destruct (startsWith (mimeType file) "audio/");
      [|destruct (startsWith (mimeType file) "video/")]]; show.
  4: { eexists. split; [reflexivity | discriminate]. }
  all: match goal with
       | |- context [fetchAnswer ?h0 ?n ?req] =>
           pose proof (Hdown n req) as Hfetch;
           destruct (fetchAnswer h0 n req) as [response|e]
       end; show.
  all: try (exists e; split; [reflexivity | exact Hfetch]).
  all: rewrite Hfetch; show; eexists; (split; [reflexivity | discriminate]).
Qed.

Lemma Scans_unreachable (h : Host) w files entries w1 :
  unreachable h ->
  Scans h w files entries w1 ->
  forallb failedEntry entries = true /\ settings w1 = settings w.
Proof.
  intros Hdown. induction 1 as [w | w file result w1 files entries w2 Hscan _ IH
                                  | w file e w1 files entries w2 Hscan _ IH].
  - split; reflexivity.
  - destruct (scanFile_unreachable h file w Hdown) as (e & He & _).
    rewrite Hscan in He. discriminate He.
  - destruct (scanFile_unreachable h file w Hdown) as (e' & He' & Hmsg).
    rewrite Hscan in He'. cbn [fst] in He'. injection He' as <-.
    destruct IH as [IH1 IH2]. split.
    + cbn [forallb failedEntry]. destruct (message e); [contradiction|]. exact IH1.
    + rewrite IH2, <- (scanFile_settings h file w), Hscan. reflexivity.
Qed.

(** X20: while the classifier cannot be reached, every batch is reported
    as safe.  Whatever the files, each scan throws and is recorded with its
    message, and the Panel then shows the status [All files appear safe]
    with the notice of success. *)
Theorem unreachable_classifier_reads_as_safe (h : Host) (files : list File) (w : World) :
  unreachable h ->
  fst (processFiles h files w) = Ok tt
  /\ exists entries w1,
       Scans h (started files w) files entries w1
       /\ forallb failedEntry entries = true
       /\ log (snd (processFiles h files w))
          = log w1
            ++ [ FileResults entries; PanelStatus "All files appear safe" "safe" ]
            ++ panelNotice w "All files appear safe" "success".
Proof.
  intros Hdown.
  destruct (PopupFacts.loop_records h files [] (started files w))
    as (entries & w1 & Hloop & Hscans).
  assert (Hrun : processFiles h files w = displayFileResults entries w1).
  { unfold processFiles. unfold bind at 1.
    change (updateResultStatus
              ("Processing " +++ showNat (List.length files) +++ " file(s)...")
              "analyzing" w)
      with (Ok tt, started files w).
    cbv iota beta. unfold bind at 1. rewrite Hloop. reflexivity. }
  rewrite Hrun.
  destruct (Scans_unreachable h _ files entries w1 Hdown Hscans) as [Hfailed Hsettings].
  destruct (failed_batch_status entries w1 Hfailed) as (Hreadable & Hstatus & Hnotice).
  destruct (displayFileResults_readable entries w1 Hreadable) as [Hok Hlog].
  split; [exact Hok|]. exists entries, w1.
  split; [exact Hscans|]. split; [exact Hfailed|].
  rewrite Hlog, Hstatus, Hnotice. unfold panelNotice. rewrite Hsettings.
  reflexivity.
Qed.

(** Three files while the connection is refused. *)
Lemma unreachable_classifier_reads_as_safe_witness :
  fst (processFiles MoreExamples.hostDown [Examples.image1; Examples.notes; Examples.clip]
         Examples.world0) = Ok tt
  /\ exists entries w1,
       Scans MoreExamples.hostDown
         (started [Examples.image1; Examples.notes; Examples.clip] Examples.world0)
         [Examples.image1; Examples.notes; Examples.clip] entries w1
       /\ forallb failedEntry entries = true
       /\ log (snd (processFiles MoreExamples.hostDown
                      [Examples.image1; Examples.notes; Examples.clip] Examples.world0))
          = log w1
            ++ [ FileResults entries; PanelStatus "All files appear safe" "safe" ]
            ++ panelNotice Examples.world0 "All files appear safe" "success".
Proof.
  apply (unreachable_classifier_reads_as_safe MoreExamples.hostDown
           [Examples.image1; Examples.notes; Examples.clip] Examples.world0).
  intros n req. cbn. discriminate.
Defined.


(** ** The scan of a text *)



(** ** The result of a screenshot *)

Lemma hasThreats_remote (result : JsValue) :
  Panel.hasThreats (remoteResult result) = strictEqNum (prop result "prediction") 1.
Proof.
  unfold Panel.hasThreats, remoteResult. cbn [prop lookup String.eqb Ascii.eqb Bool.eqb].
  destruct (strictEqNum (prop result "prediction") 1); reflexivity.
Qed.

Lemma hasThreats_local (r : JsValue) :
  localShape r ->
  (exists threats, prop r "threats" = ofStrings threats
                   /\ Panel.hasThreats r = (0 <? List.length threats))
  /\ ((r = defaultResult \/ exists msg, r = errorResult msg) -> Panel.hasThreats r = false).
Proof.
  intros [[page ->] | [-> | [msg ->]]].
  - split.
    + unfold heuristicResult. destruct (extractPage page) as [[text title] url].
      exists (quickKeywordScan (text +++ " " +++ title)).
      unfold Panel.hasThreats. cbn [prop lookup String.eqb Ascii.eqb Bool.eqb].
      split; [reflexivity|].
      unfold ofStrings.
      destruct (quickKeywordScan (text +++ " " +++ title)); reflexivity.
    + intros [Hd | [msg Hm]].
      * unfold heuristicResult, defaultResult in Hd.
        destruct (extractPage page) as [[text title] url].
        destruct (quickKeywordScan (text +++ " " +++ title)); discriminate Hd.
      * unfold heuristicResult, errorResult in Hm.
        destruct (extractPage page) as [[text title] url]. discriminate Hm.
  - split; [exists []; split; reflexivity | intros _; reflexivity].
  - split; [exists []; split; reflexivity | intros _; reflexivity].
Qed.

(** What the pipeline returns was built from an answer of the
    classifier or by the fallback. *)
Lemma pipeline_shape (h : Host) (tab : Tab) (w : World) (r : JsValue) :
  fst (takeScreenshotAndAnalyze h tab w) = Ok r ->
  (exists result, r = remoteResult result) \/ localShape r.
Proof.
  intros Hrun.
  destruct (BackgroundFacts.pipeline_outcomes h tab w)
    as [[e He] | [(result & n & req & api & _ & _ & _ & Hr) | (shot & w2 & Hr)]].
  - rewrite He in Hrun. discriminate Hrun.
  - rewrite Hr in Hrun. injection Hrun as <-. left. exists result. reflexivity.
  - rewrite Hr in Hrun.
    destruct (BackgroundFacts.fallback_total h shot tab w2) as [r' [Hr' Hlocal]].
    rewrite Hr' in Hrun. injection Hrun as <-. right. exact Hlocal.
Qed.

(** The [threats] of such a result are an array, and the result is an
    object. *)
Lemma shape_threats (r : JsValue) :
  (exists result, r = remoteResult result) \/ localShape r ->
  (exists l, prop r "threats" = JArr l) /\ truthy r = true.
Proof.
  intros [[result ->] | Hlocal].
  - split; [|reflexivity].
    unfold remoteResult. cbn [prop lookup String.eqb Ascii.eqb Bool.eqb].
    destruct (strictEqNum (prop result "prediction") 1); eexists; reflexivity.
  - split.
    + destruct (proj1 (hasThreats_local r Hlocal)) as (threats & -> & _).
      eexists; reflexivity.
    + destruct Hlocal as [[page ->] | [-> | [msg ->]]]; reflexivity.
Qed.

Lemma showScreenshotResult_shape (r : JsValue) (panel : World) :
  (exists result, r = remoteResult result) \/ localShape r ->
  Panel.showScreenshotResult r panel
  = (Ok tt,
     snd (updateResultStatus
            (if Panel.hasThreats r then "Threats Detected" else "Screenshot Safe")
            (if Panel.hasThreats r then "threat" else "safe") panel)).
Proof.
  intros Hshape. destruct (proj1 (shape_threats r Hshape)) as [l Hl].
  unfold Panel.showScreenshotResult.
  destruct (Panel.hasThreats r); show; [rewrite Hl|]; reflexivity.
Qed.

(** X22: the Panel can show every result the pipeline returns, and shows
    the threat status exactly for a prediction 1 of the classifier or a
    keyword found by the fallback.  In particular the results of a
    fallback that found no page to read, or that failed, are shown with
    the status [Screenshot Safe]. *)
Theorem pipeline_result_is_shown (h : Host) (tab : Tab) (w : World) (r : JsValue)
  (panel : World) :
  fst (takeScreenshotAndAnalyze h tab w) = Ok r ->
  fst (Panel.showScreenshotResult r panel) = Ok tt
  /\ log (snd (Panel.showScreenshotResult r panel))
     = log panel
       ++ [ if Panel.hasThreats r
            then PanelStatus "Threats Detected" "threat"
            else PanelStatus "Screenshot Safe" "safe" ]
  /\ (forall result, r = remoteResult result ->
        Panel.hasThreats r = strictEqNum (prop result "prediction") 1)
  /\ (localShape r ->
      exists threats, prop r "threats" = ofStrings threats
                      /\ Panel.hasThreats r = (0 <? List.length threats))
  /\ ((r = defaultResult \/ exists msg, r = errorResult msg) ->
      Panel.hasThreats r = false).
Proof.
  intros Hrun. pose proof (pipeline_shape h tab w r Hrun) as Hshape.
  rewrite (showScreenshotResult_shape r panel Hshape).
  split; [|split; [|split; [|split]]].
  - reflexivity.
  - show. destruct (Panel.hasThreats r); reflexivity.
  - intros result ->. apply hasThreats_remote.
  - intros Hlocal. apply (proj1 (hasThreats_local r Hlocal)).
  - intros Hfailed.
    destruct Hshape as [[result ->] | Hlocal].
    + exfalso. destruct Hfailed as [Hd | [msg Hm]];
        unfold remoteResult, defaultResult, errorResult in *;
        discriminate.
    + apply (proj2 (hasThreats_local r Hlocal)). exact Hfailed.
Qed.

(** The page cannot be read after a status 500: the result of the
    failed fallback is shown as safe. *)
Lemma pipeline_result_is_shown_witness :
  fst (Panel.showScreenshotResult (errorResult "Cannot access contents of the page")
         Examples.world0) = Ok tt
  /\ log (snd (Panel.showScreenshotResult
                 (errorResult "Cannot access contents of the page") Examples.world0))
     = log Examples.world0
       ++ [ if Panel.hasThreats (errorResult "Cannot access contents of the page")
            then PanelStatus "Threats Detected" "threat"
            else PanelStatus "Screenshot Safe" "safe" ].
Proof.
  pose proof (pipeline_result_is_shown Examples.hostNoAccess Examples.tab1 Examples.world0
                (errorResult "Cannot access contents of the page") Examples.world0)
    as H.
  destruct H as (Hok & Hlog & _).
  - vm_compute. reflexivity.
  - split; [exact Hok | exact Hlog].
Defined.

(** ** A screenshot asked from the Panel *)

(** The message of the failure the Panel shows for an error of the
    Agent. *)
Lemma responseError_failure (e : JsError) :
  Panel.responseError (Agent.failure e)
  = match message e with
    | EmptyString => "Failed to take screenshot"
    | msg => msg
    end.
Proof.
  unfold Panel.responseError, Agent.failure.
  cbn [prop lookup String.eqb Ascii.eqb Bool.eqb].
  destruct (message e); reflexivity.
Qed.

(** Code that returns nothing, under a handler that cannot fail. *)
Lemma tryCatch_unit (c : M unit) (handler : JsError -> M unit) (w : World) :
  (forall e w1, fst (handler e w1) = Ok tt) ->
  fst (tryCatch c handler w) = Ok tt.
Proof.
  intros Hh. unfold tryCatch. destruct (c w) as [[[]|e] w1]; [reflexivity | apply Hh].
Qed.

(** X23: a screenshot asked from the Panel, end to end.  The Panel never
    raises.  When its message reaches the Agent and the Agent's reply
    comes back, the Panel shows the status of the result if the pipeline
    returned one, and the notice [Screenshot failed] with the message of
    the error if the pipeline threw; an error without a message is shown
    with the words [Failed to take screenshot]. *)
Theorem screenshot_request_end_to_end
  (h : Host) (svc : Chrome.Services) (panelSvc : Panel.PanelServices)
  (request : Agent.Message) (tab : Tab) (agent : Chrome.Browser) (w : World)
  (reply : JsValue) :
  fst (Panel.takeScreenshot panelSvc w) = Ok tt
  /\ (Panel.activeTab panelSvc = Ok (Some tab) ->
      Agent.action request = "takeScreenshot" ->
      Agent.messageTab request = Some (tabId tab) ->
      Chrome.tabsGet svc (Some (tabId tab)) = Ok tab ->
      Chrome.replies (snd (Agent.handleMessage h svc request agent))
      = Chrome.replies agent ++ [reply] ->
      Panel.sendMessage panelSvc (tabId tab) = Ok reply ->
      log (snd (Panel.takeScreenshot panelSvc w))
      = log w
        ++ panelNotice w "Taking screenshot and analyzing..." "info"
        ++ match fst (takeScreenshotAndAnalyze h tab (Chrome.world agent)) with
           | Ok r =>
               panelNotice w "Screenshot captured and analyzed!" "success"
               ++ [ if Panel.hasThreats r
                    then PanelStatus "Threats Detected" "threat"
                    else PanelStatus "Screenshot Safe" "safe" ]
           | Throw e =>
               panelNotice w
                 ("Screenshot failed: "
                  +++ match message e with
                      | EmptyString => "Failed to take screenshot"
                      | msg => msg
                      end)
                 "error"
           end).
Proof.
  split.
  - unfold Panel.takeScreenshot. apply tryCatch_unit. intros e w1.
    unfold showNotification, bind, getSettings, ret, emit.
    destruct (notifications (settings w1)); reflexivity.
  - intros Hactive Haction Htab Hget Hreply Hsend.
    assert (Hr : reply
                 = match fst (takeScreenshotAndAnalyze h tab (Chrome.world agent)) with
                   | Throw e => Agent.failure e
                   | Ok result =>
                       JObj [ ("success", JBool true);
                              ("message", JStr "Screenshot taken and analyzed");
                              ("result", result) ]
                   end).
    { revert Hreply. unfold Agent.handleMessage. cbv zeta. rewrite Haction, Htab.
      cbn [String.eqb Ascii.eqb Bool.eqb].
      unfold Chrome.tryCatchB, Chrome.bindB, Chrome.inWorld, Chrome.chromeTabsGet,
        Chrome.sendResponse.
      rewrite Hget.
      destruct (takeScreenshotAndAnalyze h tab (Chrome.world agent)) as [[result|e] w1];
        cbn [fst snd Chrome.replies]; intros Hreply;
        apply app_inv_head in Hreply; injection Hreply as <-; reflexivity. }
    unfold Panel.takeScreenshot, panelNotice.
    destruct (fst (takeScreenshotAndAnalyze h tab (Chrome.world agent)))
      as [r|e] eqn:Hrun; subst reply.
    + pose proof (pipeline_shape h tab (Chrome.world agent) r Hrun) as Hshape.
      destruct (notifications (settings w)) eqn:Hn; show; rewrite ?Hn; show;
        rewrite Hactive; show; rewrite Hsend; show;
        cbn [truthy prop lookup String.eqb Ascii.eqb Bool.eqb andb];
        rewrite (proj2 (shape_threats r Hshape)); show; rewrite ?Hn; show;
        rewrite showScreenshotResult_shape by exact Hshape; show; tidy;
        destruct (Panel.hasThreats r); reflexivity.
    + pose proof (responseError_failure e) as Hmsg.
      destruct (notifications (settings w)) eqn:Hn; show; rewrite ?Hn; show;
        rewrite Hactive; show; rewrite Hsend; show; rewrite Hmsg;
        unfold Agent.failure;
        cbn [truthy prop lookup String.eqb Ascii.eqb Bool.eqb andb]; show;
        rewrite ?Hn; show; tidy; reflexivity.
Qed.

(** The download of the screenshot is refused: the Agent replies with
    the failure, and the Panel shows its message. *)
Lemma screenshot_request_end_to_end_witness :
  log (snd (Panel.takeScreenshot MoreExamples.panelServices Examples.world0))
  = log Examples.world0
    ++ panelNotice Examples.world0 "Taking screenshot and analyzing..." "info"
    ++ match fst (takeScreenshotAndAnalyze Examples.hostNoDownload Examples.tab1
                    (Chrome.world MoreExamples.browser0)) with
       | Ok r =>
           panelNotice Examples.world0 "Screenshot captured and analyzed!" "success"
           ++ [ if Panel.hasThreats r
                then PanelStatus "Threats Detected" "threat"
                else PanelStatus "Screenshot Safe" "safe" ]
       | Throw e =>
           panelNotice Examples.world0
             ("Screenshot failed: "
              +++ match message e with
                  | EmptyString => "Failed to take screenshot"
                  | msg => msg
                  end)
             "error"
       end.
Proof.
  refine (proj2 (screenshot_request_end_to_end Examples.hostNoDownload
                   MoreExamples.services MoreExamples.panelServices
                   (MoreExamples.message "takeScreenshot" EmptyString) Examples.tab1
                   MoreExamples.browser0 Examples.world0
                   (Agent.failure (Error "Download canceled by the user")))
            _ _ _ _ _ _).
  - reflexivity.
  - reflexivity.
  - reflexivity.
  - reflexivity.
  - vm_compute. reflexivity.
  - reflexivity.
Defined.

(** The same run, as the user sees it. *)
Example refused_download_is_shown :
  log (snd (Panel.takeScreenshot MoreExamples.panelServices Examples.world0))
  = [ PanelNotice "Taking screenshot and analyzing..." "info";
      PanelNotice "Screenshot failed: Download canceled by the user" "error" ].
Proof. vm_compute. reflexivity. Qed.

End PanelFacts.

(* ================================================================== *)
(** * content.js: the messages to the Page Observer *)
(* ================================================================== *)

Module PageScriptFacts.

Import Js Value Observer PageScript.

(** Every run of [handleMessage] returns after one reply. *)
Lemma handleMessage_once (h : Host) (d : Document) (scanElement : JsValue -> M JsValue)
  (request : Request) (c : Context) :
  fst (handleMessage h d scanElement request c) = Ok tt
  /\ page (snd (handleMessage h d scanElement request c))
     = (if String.eqb (action request) "analyzePage"
        then snd (analyzePageContent h d (page c))
        else if String.eqb (action request) "extractContent" then page c
        else if String.eqb (action request) "scanElement"
        then snd (scanElement (element request) (page c))
        else page c)
  /\ exists reply,
       sent (snd (handleMessage h d scanElement request c)) = sent c ++ [reply].
Proof.
  unfold handleMessage, tryCatchP, bindP, inPage, throwP, sendResponse. cbv zeta.
  destruct (String.eqb (action request) "analyzePage").
  - destruct (analyzePageContent h d (page c)) as [[analysis|e] w];
      cbn [fst snd page sent]; repeat split; eexists; reflexivity.
  - destruct (String.eqb (action request) "extractContent").
    + cbn [fst snd page sent]. repeat split. eexists; reflexivity.
    + destruct (String.eqb (action request) "scanElement").
      * destruct (scanElement (element request) (page c)) as [[result|e] w];
          cbn [fst snd page sent]; repeat split; eexists; reflexivity.
      * cbn [fst snd page sent]. repeat split. eexists; reflexivity.
Qed.

(** X24: the Observer answers every message and never raises, whatever the
    scan of an element does.  The action [extractContent] cannot succeed:
    the method it calls does not exist, so its answer is always the
    failure with the message of the [TypeError].  The action
    [analyzePage] is answered with a failure as soon as one link of the
    page cannot be parsed.  And once the script has started, every message
    is answered twice, since two listeners hand it to the same handler. *)
Theorem observer_answers_every_message
  (h : Host) (d : Document) (scanElement : JsValue -> M JsValue)
  (request : Request) (c : Context) :
  fst (handleMessage h d scanElement request c) = Ok tt
  /\ (exists reply,
        sent (snd (handleMessage h d scanElement request c)) = sent c ++ [reply])
  /\ (action request = "extractContent" ->
      snd (handleMessage h d scanElement request c)
      = snd (sendResponse (Failure "this.extractPageContent is not a function") c))
  /\ (action request = "analyzePage" ->
      forall anchor e,
        In anchor (anchorElements d) ->
        hostname h (anchorHref anchor) = Throw e ->
        exists msg,
          snd (handleMessage h d scanElement request c)
          = snd (sendResponse (Failure msg) c))
  /\ fst (onMessage h d scanElement request c) = Ok tt
  /\ (exists first second,
        sent (snd (onMessage h d scanElement request c)) = sent c ++ [first; second]).
Proof.
  destruct (handleMessage_once h d scanElement request c) as (Hok & _ & reply & Hreply).
  split; [exact Hok|]. split; [exists reply; exact Hreply|].
  split; [|split; [|split]].
  - intros Haction. unfold handleMessage. cbv zeta. rewrite Haction. reflexivity.
  - intros Haction anchor e Hin Hhost.
    destruct (DetectorFacts.page_analysis_throws h d (page c) anchor e Hin Hhost)
      as [e' He'].
    exists (message e'). unfold handleMessage. cbv zeta. rewrite Haction.
    cbn [String.eqb Ascii.eqb Bool.eqb].
    unfold tryCatchP, bindP, inPage. rewrite He'. destruct c. reflexivity.
  - unfold onMessage, bindP.
    destruct (handleMessage h d scanElement request c) as [[[]|e] c1] eqn:Hrun;
      cbn [fst] in Hok; [|discriminate Hok].
    apply handleMessage_once.
  - unfold onMessage, bindP.
    destruct (handleMessage h d scanElement request c) as [[[]|e] c1] eqn:Hrun;
      cbn [fst snd] in Hok, Hreply; [|discriminate Hok].
    destruct (handleMessage_once h d scanElement request c1) as (_ & _ & second & Hsecond).
    exists reply, second. rewrite Hsecond, Hreply, <- app_assoc. reflexivity.
Qed.

(** The content of a page is asked for. *)
Lemma observer_answers_every_message_witness :
  snd (handleMessage MoreExamples.hostStrict MoreExamples.urgentPage
         (fun _ => ret JUndefined)
         {| action := "extractContent"; element := JUndefined |}
         {| page := Examples.world0; sent := [] |})
  = snd (sendResponse (Failure "this.extractPageContent is not a function")
           {| page := Examples.world0; sent := [] |}).
Proof.
  exact (proj1 (proj2 (proj2
           (observer_answers_every_message MoreExamples.hostStrict
              MoreExamples.urgentPage (fun _ => ret JUndefined)
              {| action := "extractContent"; element := JUndefined |}
              {| page := Examples.world0; sent := [] |})))
           eq_refl).
Defined.

(** The analysis of the pressing page is asked for: its link with a
    space in the host makes the answer a failure, twice. *)
Example unparseable_link_fails_the_analysis :
  sent (snd (onMessage MoreExamples.hostStrict MoreExamples.urgentPage
               (fun _ => ret JUndefined)
               {| action := "analyzePage"; element := JUndefined |}
               {| page := Examples.world0; sent := [] |}))
  = [Failure "Invalid URL"; Failure "Invalid URL"].
Proof. vm_compute. reflexivity. Qed.

End PageScriptFacts.
